(** * gifocrextractor: the frame-to-text pipeline

    A shallow embedding of [utils/ocr_engine.py] and
    [utils/image_processor.py], and the properties of the pipeline
    that the specification states about them.

    Python strings are modelled as [string]; a character is a code
    point below 256.  Exceptions are modelled by the [outcome] type;
    every exception class met here derives from [Exception], so an
    [except Exception] clause catches every [Raises].  Calls to
    [logging] have no effect on results and are left out. *)

From Stdlib Require Import String Ascii List ZArith QArith Lia Bool DecimalString.
From Stdlib Require Import DecimalNat Sorted.
From stdpp Require Import base strings gmap.
Import ListNotations.

Local Open Scope string_scope.
Local Open Scope nat_scope.

(** ** Exceptions *)

Inductive ExcClass :=
| FileNotFoundError | PermissionError | IsADirectoryError
| NotADirectoryError | FileExistsError | OSError | EOFError
| ValueError | IndexError | TimeoutExpired | MemoryError | RuntimeError.

(** An exception value: its class and [str(e)]. *)
Record exc := MkExc { exc_class : ExcClass; exc_str : string }.

Inductive outcome (A : Type) :=
| Returns (a : A)
| Raises (e : exc).
Arguments Returns {A} a.
Arguments Raises {A} e.

Definition returned {A} (o : outcome A) : bool :=
  match o with Returns _ => true | Raises _ => false end.

(** ** Python string primitives *)

Module Py.

(** [str.isspace] on one character, for code points below 256. *)
Definition isspace (c : ascii) : bool :=
  let n := nat_of_ascii c in
  ((9 <=? n) && (n <=? 13)) || ((28 <=? n) && (n <=? 32))
  || (n =? 133) || (n =? 160).

Fixpoint lstrip (s : string) : string :=
  match s with
  | EmptyString => EmptyString
  | String c s' => if isspace c then lstrip s' else s
  end.

(** Removes trailing whitespace: a character is kept when it is not
    whitespace or when something is kept after it. *)
Fixpoint rstrip (s : string) : string :=
  match s with
  | EmptyString => EmptyString
  | String c s' =>
      match rstrip s' with
      | EmptyString => if isspace c then EmptyString else String c EmptyString
      | r => String c r
      end
  end.

(** [s.strip()] *)
Definition strip (s : string) : string := rstrip (lstrip s).

(** [s.startswith(p)] *)
Definition startswith (p s : string) : bool := String.prefix p s.

(** [len(s)] *)
Definition len (s : string) : nat := String.length s.

(** Truthiness of a string: [if s:] *)
Definition truthy (s : string) : bool :=
  match s with EmptyString => false | _ => true end.

(** [sep.join(parts)] *)
Fixpoint join (sep : string) (parts : list string) : string :=
  match parts with
  | [] => ""
  | [p] => p
  | p :: rest => p ++ sep ++ join sep rest
  end.

(** [max(items, key=len)]: the scan keeps the current best and
    replaces it only by a strictly longer item, so the first of the
    longest items is returned.  [None] stands for the [ValueError] on
    an empty sequence. *)
Fixpoint max_len_from (best : string) (items : list string) : string :=
  match items with
  | [] => best
  | x :: rest => max_len_from (if len best <? len x then x else best) rest
  end.

Definition max_by_len (items : list string) : option string :=
  match items with
  | [] => None
  | x :: rest => Some (max_len_from x rest)
  end.

(** [enumerate(l)] *)
Definition enumerate {A} (l : list A) : list (nat * A) :=
  combine (seq 0 (List.length l)) l.

End Py.

(** ** Regular expression [[A-Za-z0-9]{3,}] *)

Module Re.

Definition is_alnum (c : ascii) : bool :=
  let n := nat_of_ascii c in
  ((65 <=? n) && (n <=? 90)) || ((97 <=? n) && (n <=? 122))
  || ((48 <=? n) && (n <=? 57)).

(** The longest prefix of [s] made of class characters, and the rest:
    what the greedy quantifier consumes at the current position. *)
Fixpoint span_alnum (s : string) : string * string :=
  match s with
  | EmptyString => (EmptyString, EmptyString)
  | String c s' =>
      if is_alnum c
      then let '(run, rest) := span_alnum s' in (String c run, rest)
      else (EmptyString, s)
  end.

(** [word_pattern.findall(s)]: scanning from the left, a match is
    attempted at each position; a greedy match of at least three
    characters is reported and the scan resumes after it, otherwise
    the scan moves one character on.  [fuel] bounds the number of
    positions tried; [String.length s + 1] is enough. *)
Fixpoint findall_fuel (fuel : nat) (s : string) : list string :=
  match fuel with
  | 0 => []
  | S fuel' =>
      match s with
      | EmptyString => []
      | String _ s' =>
          let '(run, rest) := span_alnum s in
          if 3 <=? Py.len run
          then run :: findall_fuel fuel' rest
          else findall_fuel fuel' s'
      end
  end.

Definition findall (s : string) : list string :=
  findall_fuel (S (String.length s)) s.

End Re.

(** ** The file system

    A path names a node: a directory (with its write permission and
    the size [stat] reports for it) or a regular file with its bytes.
    Paths are compared as written, up to trailing slashes; the empty
    path names nothing (ENOENT); a relative name lives in ["."]. *)

Module FS.

Inductive Node :=
| Dir (writable : bool) (st_size : nat)
| File (content : string).

(** The size [stat] reports for a new directory. *)
Definition dir_size : nat := 4096.

Definition slash : ascii := "/"%char.

Fixpoint all_slashes (s : string) : bool :=
  match s with
  | EmptyString => true
  | String c s' => Ascii.eqb c slash && all_slashes s'
  end.

(** [s.rstrip('/')] *)
Fixpoint rstrip_slashes (s : string) : string :=
  match s with
  | EmptyString => EmptyString
  | String c s' =>
      match rstrip_slashes s' with
      | EmptyString => if Ascii.eqb c slash then EmptyString else String c EmptyString
      | r => String c r
      end
  end.

(** The key a path is stored under. *)
Definition norm (p : string) : string :=
  match p with
  | EmptyString => EmptyString
  | _ => match rstrip_slashes p with EmptyString => "/" | r => r end
  end.

(** [p[:p.rfind('/') + 1]], or [None] when [p] has no slash. *)
Fixpoint upto_last_slash (p : string) : option string :=
  match p with
  | EmptyString => None
  | String c p' =>
      match upto_last_slash p' with
      | Some h => Some (String c h)
      | None => if Ascii.eqb c slash then Some (String c EmptyString) else None
      end
  end.

(** [os.path.dirname(p)] *)
Definition dirname (p : string) : string :=
  match upto_last_slash p with
  | None => ""
  | Some h => if all_slashes h then h else rstrip_slashes h
  end.

Fixpoint ends_with_slash (s : string) : bool :=
  match s with
  | EmptyString => false
  | String c EmptyString => Ascii.eqb c slash
  | String _ s' => ends_with_slash s'
  end.

(** [os.path.join(a, b)] for a [b] that does not start with a slash. *)
Definition join (a b : string) : string :=
  match a with
  | EmptyString => b
  | _ => if ends_with_slash a then a ++ b else a ++ "/" ++ b
  end.


(** [os.path.basename] is only used in log messages. *)

Definition lookup (fs : gmap string Node) (p : string) : option Node :=
  match p with
  | EmptyString => None
  | _ => fs !! norm p
  end.

(** The directory a new entry [p] is created in. *)
Definition parent (p : string) : string :=
  match dirname p with
  | EmptyString => "."
  | d => d
  end.

(** [os.path.exists(p)] *)
Definition exists_ (fs : gmap string Node) (p : string) : bool :=
  match lookup fs p with Some _ => true | None => false end.

Definition enoent (p : string) : exc :=
  MkExc FileNotFoundError ("[Errno 2] No such file or directory: '" ++ p ++ "'").
Definition eacces (p : string) : exc :=
  MkExc PermissionError ("[Errno 13] Permission denied: '" ++ p ++ "'").
Definition eisdir (p : string) : exc :=
  MkExc IsADirectoryError ("[Errno 21] Is a directory: '" ++ p ++ "'").
Definition enotdir (p : string) : exc :=
  MkExc NotADirectoryError ("[Errno 20] Not a directory: '" ++ p ++ "'").
Definition eexist (p : string) : exc :=
  MkExc FileExistsError ("[Errno 17] File exists: '" ++ p ++ "'").

(** [os.path.getsize(p)] *)
Definition getsize (fs : gmap string Node) (p : string) : outcome nat :=
  match lookup fs p with
  | Some (File c) => Returns (String.length c)
  | Some (Dir _ sz) => Returns sz
  | None => Raises (enoent p)
  end.

(** The bytes [open(p, 'rb')] gives access to. *)
Definition read (fs : gmap string Node) (p : string) : outcome string :=
  match lookup fs p with
  | Some (File c) => Returns c
  | Some (Dir _ _) => Raises (eisdir p)
  | None => Raises (enoent p)
  end.

End FS.

(** ** The image library and the recognition engine *)

Inductive Enhancer := Contrast | Sharpness | Brightness.

(** An opened image file: its frames and the frame the cursor is on.
    [c_n_frames] is the [n_frames] attribute, which single-frame
    formats do not have. *)
Record Container (Image : Type) := MkContainer {
  c_format : string;
  c_n_frames : option nat;
  c_first : Image;
  c_more : list Image;
  c_cursor : nat
}.
Arguments MkContainer {Image}.
Arguments c_format {Image}.
Arguments c_n_frames {Image}.
Arguments c_first {Image}.
Arguments c_more {Image}.
Arguments c_cursor {Image}.

(** The image operations the pipeline consumes (PIL). *)
Class Codec (Image : Type) := {
  (** [Image.open] on the bytes of a file *)
  decode : string -> outcome (Container Image);
  (** [img.mode] *)
  mode : Image -> string;
  (** [img.copy()] *)
  copy : Image -> outcome Image;
  (** [img.convert(mode)] *)
  convert : string -> Image -> outcome Image;
  (** [ImageEnhance.<E>(img).enhance(factor)] *)
  enhance : Enhancer -> Q -> Image -> outcome Image;
  (** [img.filter(ImageFilter.GaussianBlur(radius))] *)
  gaussian_blur : Q -> Image -> outcome Image;
  (** the bytes [img.save(_, "JPEG", quality)] writes *)
  encode_jpeg : nat -> Image -> outcome string
}.

(** The result of [subprocess.run]. *)
Record CompletedProcess := MkProc {
  returncode : Z;
  stdout : string;
  stderr : string
}.

(** The recognition engine (the tesseract binary and pytesseract). *)
Class Tesseract (Image : Type) := {
  (** [subprocess.run(['tesseract', '--version'], ..., timeout=5)] *)
  run_version : outcome CompletedProcess;
  (** [subprocess.run(['tesseract', '--list-langs'], ..., timeout=5)] *)
  run_list_langs : outcome CompletedProcess;
  (** [pytesseract.image_to_string(img, lang='eng', config=config)] *)
  image_to_string : string -> Image -> outcome string
}.

Section ContainerOps.
Context {Image : Type}.

Definition frames (c : Container Image) : list Image := c_first c :: c_more c.

(** The frame the cursor is on. *)
Definition current (c : Container Image) : Image :=
  nth (c_cursor c) (frames c) (c_first c).

(** [img.seek(i)] *)
Definition seek (c : Container Image) (i : nat) : outcome (Container Image) :=
  if i <? List.length (frames c)
  then Returns (MkContainer (c_format c) (c_n_frames c) (c_first c) (c_more c) i)
  else Raises (MkExc EOFError "no more images in file").

(** [getattr(img, "n_frames", 1)] *)
Definition n_frames_or_1 (c : Container Image) : nat :=
  match c_n_frames c with Some n => n | None => 1 end.

End ContainerOps.

(** [Image.open(path)] *)
Definition image_open {Image} `{!Codec Image}
    (fs : gmap string FS.Node) (path : string) : outcome (Container Image) :=
  match FS.read fs path with
  | Returns bytes => decode bytes
  | Raises e => Raises e
  end.

(** ** utils/ocr_engine.py *)

(** A recognition result record: the dictionary with keys
    ['frame_number'], ['frame_path'] and ['text']. *)
Record Rec := MkRec {
  frame_number : nat;
  frame_path : string;
  text : string
}.

Definition no_text_detected : string := "No text detected".
Definition err_prefix : string := "Error:".
Definition err_generic : string :=
  "Error: OCR processing failed. Please try a different image.".
Definition combined_analysis : string := "combined_analysis".

(** One call of [pytesseract.image_to_string]. *)
Record Call (Image : Type) := MkCall {
  call_config : string;
  call_image : Image
}.
Arguments MkCall {Image}.
Arguments call_config {Image}.
Arguments call_image {Image}.

Section OcrEngine.
Context {Image : Type} `{!Codec Image} `{!Tesseract Image}.

(** [check_tesseract()].  [result.stdout.splitlines()[0]] in the log
    message raises [IndexError] exactly when [stdout] is empty; it and
    a failure of the language listing are caught by the handlers,
    which return [False]. *)
Definition check_tesseract : bool :=
  match run_version with
  | Raises _ => false
  | Returns result =>
      if (returncode result =? 0)%Z
      then
        if Py.truthy (stdout result)
        then match run_list_langs with
             | Raises _ => false
             | Returns _ => true
             end
        else false
      else false
  end.

(** [enhance_image_for_ocr(img)] *)
Definition enhance_image_for_ocr (img : Image) : Image :=
  match (if String.eqb (mode img) "RGBA" then convert "RGB" img
         else if String.eqb (mode img) "P" then convert "RGB" img
         else Returns img) with
  | Raises _ => img
  | Returns img =>
      match convert "L" img with
      | Raises _ => img
      | Returns gray_img =>
          match enhance Contrast 2 gray_img with
          | Raises _ => img
          | Returns contrast_img =>
              match enhance Sharpness 2 contrast_img with
              | Raises _ => img
              | Returns sharp_img =>
                  match gaussian_blur (1 # 2) sharp_img with
                  | Raises _ => img
                  | Returns blur_img => blur_img
                  end
              end
          end
      end
  end.

(** What one attempt adds to [results]:
    [if text.strip(): results.append(text.strip())], nothing when the
    call raised. *)
Definition attempt_result (o : outcome string) : list string :=
  match o with
  | Returns t => if Py.truthy (Py.strip t) then [Py.strip t] else []
  | Raises _ => []
  end.

Definition sparse_config : string := "--oem 3 --psm 11".

(** The three calls made on an opened image, in order. *)
Definition attempt_calls (img : Image) : list (Call Image) :=
  [ MkCall "" img;
    MkCall "" (enhance_image_for_ocr img);
    MkCall sparse_config img ].

Definition run_call (c : Call Image) : outcome string :=
  image_to_string (call_config c) (call_image c).

(** The list [results] after the three attempts. *)
Definition attempt_results (img : Image) : list string :=
  flat_map (fun c => attempt_result (run_call c)) (attempt_calls img).

(** Lines 158-167: the choice among the results. *)
Definition choose_best (results : list string) : string :=
  match Py.max_by_len results with
  | Some best_text => best_text
  | None => no_text_detected
  end.

(** [perform_ocr_on_frame(frame_path)], with the recognition calls it
    made on the way. *)
Definition perform_ocr_on_frame_traced
    (fs : gmap string FS.Node) (frame_path : string)
    : list (Call Image) * string :=
  if negb check_tesseract
  then ([], "Error: Tesseract OCR is not available")
  else if negb (FS.exists_ fs frame_path)
  then ([], "Error: Frame file not found")
  else
    match FS.getsize fs frame_path with
    | Raises _ => ([], "Error: OCR processing failed for this frame")
    | Returns file_size =>
        if file_size =? 0
        then ([], "Error: Frame file is empty")
        else
          match image_open fs frame_path with
          | Raises img_err =>
              ([], "Error: Invalid image file: " ++ exc_str img_err)
          | Returns c =>
              let img := current c in
              (attempt_calls img, choose_best (attempt_results img))
          end
    end.

Definition perform_ocr_on_frame
    (fs : gmap string FS.Node) (frame_path : string) : string :=
  snd (perform_ocr_on_frame_traced fs frame_path).

End OcrEngine.

(** *** The batch *)

Section Batch.

(** The per-frame call of the loop: [perform_ocr_on_frame] in the
    program, any callable that returns a text or raises in a test. *)
Variable recognize_one : string -> outcome string.

Record Tally := MkTally {
  ocr_results : list Rec;
  error_count : nat;
  success_count : nat;
  empty_count : nat
}.

(** One iteration of the loop at line 206. *)
Definition frame_step (st : Tally) (it : nat * string) : Tally :=
  let '(idx, frame_path) := it in
  match recognize_one frame_path with
  | Returns extracted_text =>
      let r := MkRec (idx + 1) frame_path extracted_text in
      if Py.startswith err_prefix extracted_text then
        MkTally (ocr_results st ++ [r]) (error_count st + 1)
                (success_count st) (empty_count st)
      else if negb (Py.truthy extracted_text)
                || String.eqb extracted_text no_text_detected then
        MkTally (ocr_results st ++ [r]) (error_count st)
                (success_count st) (empty_count st + 1)
      else
        MkTally (ocr_results st ++ [r]) (error_count st)
                (success_count st + 1) (empty_count st)
  | Raises _ =>
      MkTally (ocr_results st ++ [MkRec (idx + 1) frame_path err_generic])
              (error_count st + 1) (success_count st) (empty_count st)
  end.

Definition frames_loop (frames_paths : list string) : Tally :=
  fold_left frame_step (Py.enumerate frames_paths) (MkTally [] 0 0 0).

(** Line 242: the texts that enter the cross-frame analysis. *)
Definition analysed (r : Rec) : bool :=
  negb (Py.startswith err_prefix (text r))
  && negb (String.eqb (text r) no_text_detected).

(** Lines 239-261: the records to append after the loop.  The
    operations of this block do not raise on strings, so its handler
    is never entered. *)
Definition combined_record (frames_paths : list string) (st : Tally)
    : list Rec :=
  if 0 <? success_count st then
    let all_text := Py.join " " (map text (List.filter analysed (ocr_results st))) in
    let words := Re.findall all_text in
    match Py.max_by_len words with
    | Some longest_word =>
        if 4 <=? Py.len longest_word
        then [MkRec (List.length frames_paths + 1) combined_analysis
                    ("Combined analysis: Found text pattern '"
                       ++ longest_word ++ "'")]
        else []
    | None => []
    end
  else [].

(** Lines 192-267: the body the outer [try] protects. *)
Definition frames_body (frames_paths : list string) : outcome (list Rec) :=
  match frames_paths with
  | [] => Returns []
  | _ =>
      let st := frames_loop frames_paths in
      Returns (ocr_results st ++ combined_record frames_paths st)%list
  end.

(** Lines 275-279: what the handler of the outer [try] returns. *)
Definition fatal_result (frames_paths : list string) : list Rec :=
  [MkRec 1 (match frames_paths with p :: _ => p | [] => "" end) err_generic].

(** The outer [try ... except Exception] around a protected body. *)
Definition guarded (body : outcome (list Rec)) (frames_paths : list string)
    : list Rec :=
  match body with
  | Returns results => results
  | Raises _ => fatal_result frames_paths
  end.

(** [perform_ocr_on_frames(frames_paths)] *)
Definition perform_ocr_on_frames_with (frames_paths : list string) : list Rec :=
  guarded (frames_body frames_paths) frames_paths.

End Batch.

(** [perform_ocr_on_frames] with the program's own per-frame call. *)
Definition perform_ocr_on_frames {Image} `{!Codec Image} `{!Tesseract Image}
    (fs : gmap string FS.Node) (frames_paths : list string) : list Rec :=
  perform_ocr_on_frames_with
    (fun p => Returns (perform_ocr_on_frame fs p)) frames_paths.

(** ** File system updates *)

Module FSW.
Import FS.

(** The directory that is to hold [p] must exist and be writable. *)
Definition check_parent (fs : gmap string Node) (p : string) : outcome unit :=
  match lookup fs (parent p) with
  | None => Raises (enoent p)
  | Some (File _) => Raises (enotdir p)
  | Some (Dir false _) => Raises (eacces p)
  | Some (Dir true _) => Returns tt
  end.

(** [with open(p, 'w') as f: f.write(content)] *)
Definition write_file (fs : gmap string Node) (p content : string)
    : outcome (gmap string Node) :=
  match p with
  | EmptyString => Raises (enoent p)
  | _ =>
      match lookup fs p with
      | Some (Dir _ _) => Raises (eisdir p)
      | Some (File _) => Returns (<[norm p := File content]> fs)
      | None =>
          match check_parent fs p with
          | Raises e => Raises e
          | Returns _ => Returns (<[norm p := File content]> fs)
          end
      end
  end.

(** [os.remove(p)] *)
Definition remove (fs : gmap string Node) (p : string)
    : outcome (gmap string Node) :=
  match lookup fs p with
  | None => Raises (enoent p)
  | Some (Dir _ _) => Raises (eisdir p)
  | Some (File _) =>
      match check_parent fs p with
      | Raises e => Raises e
      | Returns _ => Returns (delete (norm p) fs)
      end
  end.

(** [os.mkdir(p)]: the new directory belongs to the caller and is
    writable. *)
Definition mkdir (fs : gmap string Node) (p : string)
    : outcome (gmap string Node) :=
  match lookup fs p with
  | Some _ => Raises (eexist p)
  | None =>
      match p with
      | EmptyString => Raises (enoent p)
      | _ =>
          match check_parent fs p with
          | Raises e => Raises e
          | Returns _ => Returns (<[norm p := Dir true dir_size]> fs)
          end
      end
  end.

(** The directories above [p], outermost first: the prefixes of [p]
    that end at a slash with a name still to come. *)
Fixpoint ancestors_from (pre rest : string) : list string :=
  match rest with
  | EmptyString => []
  | String c rest' =>
      let pre' := pre ++ String c EmptyString in
      if Ascii.eqb c slash && negb (all_slashes rest')
      then norm pre' :: ancestors_from pre' rest'
      else ancestors_from pre' rest'
  end.

Definition ancestors (p : string) : list string := ancestors_from "" p.

(** Creates the directories of [ds] that are missing, in order; the
    file system reached so far is kept when a creation fails. *)
Fixpoint mkdir_chain (fs : gmap string Node) (ds : list string)
    : gmap string Node * outcome unit :=
  match ds with
  | [] => (fs, Returns tt)
  | d :: rest =>
      match lookup fs d with
      | Some (Dir _ _) => mkdir_chain fs rest
      | Some (File _) => (fs, Raises (eexist d))
      | None =>
          match mkdir fs d with
          | Raises e => (fs, Raises e)
          | Returns fs' => mkdir_chain fs' rest
          end
      end
  end.

(** [os.makedirs(p, exist_ok=True)] *)
Definition makedirs (fs : gmap string Node) (p : string)
    : gmap string Node * outcome unit :=
  mkdir_chain fs (ancestors p ++ [p])%list.

Definition is_dir (fs : gmap string Node) (p : string) : bool :=
  match lookup fs p with Some (Dir _ _) => true | _ => false end.


End FSW.

(** ** utils/image_processor.py *)

(** [uuid.uuid4().hex]: the n-th value drawn in a run. *)
Class Uuid := { uuid4_hex : nat -> string }.

(** [str(n)] for a non-negative integer *)
Definition decimal (n : nat) : string :=
  DecimalString.NilEmpty.string_of_uint (Nat.to_uint n).

(** What a call can change: the files and the number of identifiers
    drawn so far. *)
Record World := MkWorld {
  w_fs : gmap string FS.Node;
  w_drawn : nat
}.

Section Extractor.
Context {Image : Type} `{!Codec Image} `{!Uuid}.

(** Lines 91-104: the three passes on the variable [frame]; the
    handler only logs, so [frame] keeps the value it had when a pass
    raised. *)
Definition apply_enhancements (frame : Image) : Image :=
  match enhance Contrast (3 # 2) frame with
  | Raises _ => frame
  | Returns frame =>
      match enhance Sharpness (3 # 2) frame with
      | Raises _ => frame
      | Returns frame =>
          match enhance Brightness (6 # 5) frame with
          | Raises _ => frame
          | Returns frame => frame
          end
      end
  end.

(** [frame.save(frame_path, "JPEG", quality=95)]: the file is opened
    for writing, then the frame is encoded into it; a file created for
    a frame that fails to encode is removed again. *)
Definition save_jpeg (fs : gmap string FS.Node) (frame : Image)
    (frame_path : string) : outcome (gmap string FS.Node) :=
  match FSW.write_file fs frame_path "" with
  | Raises e => Raises e
  | Returns _ =>
      match encode_jpeg 95 frame with
      | Raises e => Raises e
      | Returns bytes => FSW.write_file fs frame_path bytes
      end
  end.

(** The state the frame loop carries. *)
Record Loop := MkLoop {
  l_world : World;
  l_img : Container Image;
  l_paths : list string
}.

(** Lines 113-118: the check of the saved file. *)
Definition saved_ok (fs : gmap string FS.Node) (frame_path : string)
    : outcome bool :=
  if negb (FS.exists_ fs frame_path) then Returns false
  else match FS.getsize fs frame_path with
       | Raises e => Raises e
       | Returns sz => Returns (negb (sz =? 0))
       end.

(** Lines 73-126: one iteration of the frame loop.  An exception in
    the body is logged and the loop goes on, with the changes made up
    to that point. *)
Definition process_frame (output_dir : string) (frames_count : nat)
    (st : Loop) (frame_idx : nat) : Loop :=
  match (if 1 <? frames_count then seek (l_img st) frame_idx
         else Returns (l_img st)) with
  | Raises _ => st
  | Returns img =>
      let st := MkLoop (l_world st) img (l_paths st) in
      match copy (current img) with
      | Raises _ => st
      | Returns frame =>
          match (if String.eqb (mode frame) "RGBA" || String.eqb (mode frame) "P"
                 then convert "RGB" frame else Returns frame) with
          | Raises _ => st
          | Returns frame =>
              let frame := apply_enhancements frame in
              let w := l_world st in
              let frame_filename :=
                "frame_" ++ decimal frame_idx ++ "_"
                  ++ uuid4_hex (w_drawn w) ++ ".jpg" in
              let drawn := S (w_drawn w) in
              let frame_path := FS.join output_dir frame_filename in
              match save_jpeg (w_fs w) frame frame_path with
              | Raises _ => MkLoop (MkWorld (w_fs w) drawn) img (l_paths st)
              | Returns fs =>
                  let st := MkLoop (MkWorld fs drawn) img (l_paths st) in
                  match saved_ok fs frame_path with
                  | Returns true =>
                      MkLoop (MkWorld fs drawn) img (l_paths st ++ [frame_path])%list
                  | Returns false => st
                  | Raises _ => st
                  end
              end
          end
      end
  end.

(** [range(n)] *)
Definition range (n : nat) : list nat := seq 0 n.

Definition no_frames_msg : string :=
  "No frames could be extracted from the image".

(** Lines 56-135: the block inside the inner [try]. *)
Definition open_and_process (w : World) (image_path output_dir : string)
    : World * outcome (list string) :=
  match image_open (w_fs w) image_path with
  | Raises e => (w, Raises e)
  | Returns img =>
      let frames_count := n_frames_or_1 img in
      let st := fold_left (process_frame output_dir frames_count)
                          (range frames_count) (MkLoop w img []) in
      if 0 <? List.length (l_paths st)
      then (l_world st, Returns (l_paths st))
      else (l_world st, Raises (MkExc ValueError no_frames_msg))
  end.

(** Lines 137-139: the handler of the inner [try]. *)
Definition as_invalid_image {A} (o : outcome A) : outcome A :=
  match o with
  | Returns a => Returns a
  | Raises img_err =>
      Raises (MkExc ValueError ("Invalid image file: " ++ exc_str img_err))
  end.

(** Lines 41-49: the write probe. *)
Definition probe_writable (fs : gmap string FS.Node) (output_dir : string)
    : gmap string FS.Node * outcome unit :=
  let test_file := FS.join output_dir ".write_test" in
  match FSW.write_file fs test_file "test" with
  | Raises perm_err => (fs, Raises perm_err)
  | Returns fs1 =>
      match FSW.remove fs1 test_file with
      | Raises perm_err => (fs1, Raises perm_err)
      | Returns fs2 => (fs2, Returns tt)
      end
  end.

(** Lines 41-143: from the write probe on. *)
Definition probe_and_extract (w : World) (image_path output_dir : string)
    : World * outcome (list string) :=
  match probe_writable (w_fs w) output_dir with
  | (fs, Raises perm_err) =>
      (MkWorld fs (w_drawn w),
       Raises (MkExc PermissionError
                 ("Cannot write to output directory: " ++ exc_str perm_err)))
  | (fs, Returns _) =>
      let '(w', o) := open_and_process (MkWorld fs (w_drawn w))
                                        image_path output_dir in
      (w', as_invalid_image o)
  end.

(** Lines 35-38: the output directory is created when missing. *)
Definition ensure_output_dir (fs : gmap string FS.Node) (output_dir : string)
    : gmap string FS.Node * outcome unit :=
  if negb (FS.exists_ fs output_dir)
  then FSW.makedirs fs output_dir
  else (fs, Returns tt).

(** [extract_frames_from_image(image_path, output_dir)] *)
Definition extract_frames_from_image (w : World)
    (image_path output_dir : string) : World * outcome (list string) :=
  if negb (FS.exists_ (w_fs w) image_path)
  then (w, Raises (MkExc FileNotFoundError
                     ("Image file not found: " ++ image_path)))
  else
    match FS.getsize (w_fs w) image_path with
    | Raises e => (w, Raises e)
    | Returns file_size =>
        if file_size =? 0
        then (w, Raises (MkExc ValueError
                           ("Image file is empty: " ++ image_path)))
        else
          match ensure_output_dir (w_fs w) output_dir with
          | (fs, Raises e) => (MkWorld fs (w_drawn w), Raises e)
          | (fs, Returns _) =>
              probe_and_extract (MkWorld fs (w_drawn w)) image_path output_dir
          end
    end.

End Extractor.

(** ** A symbolic image library

    Images are the terms built by the operations applied to a decoded
    raster; the decoder, the passes that fail and the recogniser are
    given as tables.  Used to run the pipeline on concrete inputs. *)

Module Sym.

Inductive Img :=
| Raster (mode_ : string) (label : string)
| Converted (mode_ : string) (src : Img)
| Enhanced (e : Enhancer) (factor : Q) (src : Img)
| Blurred (radius : Q) (src : Img).

Fixpoint img_mode (i : Img) : string :=
  match i with
  | Raster m _ => m
  | Converted m _ => m
  | Enhanced _ _ src => img_mode src
  | Blurred _ src => img_mode src
  end.

Definition enhancer_name (e : Enhancer) : string :=
  match e with
  | Contrast => "contrast"
  | Sharpness => "sharpness"
  | Brightness => "brightness"
  end.

Definition show_factor (f : Q) : string :=
  decimal (Z.to_nat (Qnum f)) ++ "/" ++ decimal (Pos.to_nat (Qden f)).

(** The bytes an image encodes to: its history, so that two files
    differ when the images written to them do. *)
Fixpoint render (i : Img) : string :=
  match i with
  | Raster _ l => l
  | Converted m src => "convert[" ++ m ++ "](" ++ render src ++ ")"
  | Enhanced e f src =>
      enhancer_name e ++ "[" ++ show_factor f ++ "](" ++ render src ++ ")"
  | Blurred r src => "blur[" ++ show_factor r ++ "](" ++ render src ++ ")"
  end.

Definition codec (dec : string -> outcome (Container Img))
    (refuses : Enhancer -> Img -> bool) : Codec Img :=
  {| decode := dec;
     mode := img_mode;
     copy := fun i => Returns i;
     convert := fun m i => Returns (Converted m i);
     enhance := fun e f i =>
       if refuses e i then Raises (MkExc MemoryError "")
       else Returns (Enhanced e f i);
     gaussian_blur := fun r i => Returns (Blurred r i);
     encode_jpeg := fun _ i => Returns ("JFIF:" ++ render i) |}.

(** A file holds a still image when it starts with ["IMG"]; its
    raster is labelled with the bytes. *)
Definition dec_still (bytes : string) : outcome (Container Img) :=
  if String.prefix "IMG" bytes
  then Returns (MkContainer "PNG" None (Raster "RGB" bytes) [] 0)
  else Raises (MkExc OSError "cannot identify image file").

Definition never (_ : Enhancer) (_ : Img) : bool := false.

(** A library whose sharpness pass fails. *)
Definition sharpness_fails (e : Enhancer) (_ : Img) : bool :=
  match e with Sharpness => true | _ => false end.

(** An installed engine whose answers are given by [read]. *)
Definition engine (read : string -> Img -> outcome string) : Tesseract Img :=
  {| run_version := Returns (MkProc 0 "tesseract 5.3.0" "");
     run_list_langs := Returns (MkProc 0 "List of available languages" "");
     image_to_string := read |}.

(** No engine on the path. *)
Definition no_engine : Tesseract Img :=
  {| run_version := Raises (MkExc FileNotFoundError "tesseract");
     run_list_langs := Raises (MkExc FileNotFoundError "tesseract");
     image_to_string := fun _ _ => Raises (MkExc RuntimeError "tesseract") |}.

(** The doubles of the selection test: the three attempts answer
    [""], ["ab"] and ["ab"]. *)
Definition read_tie (config : string) (i : Img) : outcome string :=
  if String.eqb config "--oem 3 --psm 11" then Returns "ab"
  else match i with
       | Raster _ _ => Returns ""
       | _ => Returns "ab"
       end.

Definition uuid : Uuid := {| uuid4_hex := fun n => "u" ++ decimal n |}.

(** A scratch directory with one still image in it. *)
Definition fs0 : gmap string FS.Node :=
  <["/"       := FS.Dir true FS.dir_size]>
  (<["/tmp"    := FS.Dir true FS.dir_size]>
  (<["/ro"     := FS.Dir false FS.dir_size]>
  (<["/tmp/in.png" := FS.File "IMG0"]>
  (<["/tmp/empty.png" := FS.File ""]>
  (<["/tmp/bad.png" := FS.File "garbage"]> ∅))))).

(** The library with no failing pass, the one whose sharpness pass
    fails, and the initial state of a run. *)
Definition still : Codec Img := codec dec_still never.
Definition blunt : Codec Img := codec dec_still sharpness_fails.
Definition w0 : World := MkWorld fs0 0.

(** A double for the per-frame call: a table from paths to texts. *)
Fixpoint table (t : list (string * string)) (p : string) : outcome string :=
  match t with
  | [] => Raises (MkExc RuntimeError "unexpected")
  | (k, v) :: t' => if String.eqb k p then Returns v else table t' p
  end.

End Sym.

(** ** Vocabulary of the statements *)

(** The text the loop records for one outcome of the per-frame call. *)
Definition recorded_text (o : outcome string) : string :=
  match o with
  | Returns t => t
  | Raises _ => err_generic
  end.

(** Lines 212-218: the three classes of a text. *)
Inductive TextClass := IsError | IsEmpty | IsSuccess.

Definition classify (t : string) : TextClass :=
  if Py.startswith err_prefix t then IsError
  else if negb (Py.truthy t) || String.eqb t no_text_detected then IsEmpty
  else IsSuccess.

Definition is_success (r : Rec) : bool :=
  match classify (text r) with IsSuccess => true | _ => false end.

(** The record the loop emits for the path at position [idx]. *)
Definition real_record (recognize_one : string -> outcome string)
    (it : nat * string) : Rec :=
  MkRec (fst it + 1) (snd it) (recorded_text (recognize_one (snd it))).

(** An engine error: a text with the reserved prefix. *)
Definition is_error_text (t : string) : Prop :=
  Py.startswith err_prefix t = true.

(** ** Further vocabulary *)

(** What an attempt contributes: its trimmed answer, the empty string
    when it raised. *)
Definition candidate (o : outcome string) : string :=
  match o with
  | Returns t => Py.strip t
  | Raises _ => ""
  end.

(** [if s.strip(): results.append(s.strip())] on a trimmed answer. *)
Definition kept (s : string) : list string :=
  if Py.truthy s then [s] else [].

Fixpoint all_alnum (w : string) : bool :=
  match w with
  | EmptyString => true
  | String c w' => Re.is_alnum c && all_alnum w'
  end.

(** [s] contains [n] consecutive letters or digits. *)
Definition has_run (n : nat) (s : string) : Prop :=
  exists a w b, s = (a ++ w ++ b)%string
                /\ String.length w = n /\ all_alnum w = true.

(** The four steps of [enhance_image_for_ocr] after the RGB
    conversion, all successful: grayscale, contrast 2.0, sharpness 2.0
    and a blur of radius 0.5 take [i] to [b]. *)
Definition grayscale_pipeline {Image : Type} `{!Codec Image} (i b : Image)
    : Prop :=
  exists g c s, convert "L" i = Returns g
                /\ enhance Contrast 2 g = Returns c
                /\ enhance Sharpness 2 c = Returns s
                /\ gaussian_blur (1 # 2) s = Returns b.

Definition is_error_rec (r : Rec) : bool :=
  match classify (text r) with IsError => true | _ => false end.

Definition is_empty_rec (r : Rec) : bool :=
  match classify (text r) with IsEmpty => true | _ => false end.

(** Line 107 of image_processor.py: the name of the file of the frame
    at [frame_idx] when [drawn] identifiers have been drawn before. *)
Definition frame_name `{!Uuid} (frame_idx drawn : nat) : string :=
  "frame_" ++ decimal frame_idx ++ "_" ++ uuid4_hex drawn ++ ".jpg".

Definition is_digit (c : ascii) : bool :=
  let n := nat_of_ascii c in (48 <=? n) && (n <=? 57).

Fixpoint all_digits (s : string) : bool :=
  match s with
  | EmptyString => true
  | String c s' => is_digit c && all_digits s'
  end.

(** A regular file with at least one byte. *)
Definition nonempty_file (fs : gmap string FS.Node) (p : string) : Prop :=
  exists bytes, bytes <> "" /\ FS.lookup fs p = Some (FS.File bytes).

(** The state of the frame loop before the frame at index [i]: the
    paths collected so far are those of frames at increasing indices
    below [i], each a file with at least one byte, and every entry
    that is not a direct child of the output directory is as it was
    in [fs0]. *)
Definition loop_invariant {Image : Type} `{!Uuid} (output_dir : string)
    (fs0 : gmap string FS.Node) (i : nat) (st : @Loop Image) : Prop :=
  exists js : list (nat * nat),
    l_paths st
    = map (fun jk => FS.join output_dir (frame_name (fst jk) (snd jk))) js
    /\ StronglySorted lt (map fst js)
    /\ Forall (fun jk => fst jk < i) js
    /\ Forall (nonempty_file (w_fs (l_world st))) (l_paths st)
    /\ (forall q node, FS.lookup fs0 q = Some node ->
          (forall name, FS.norm q <> FS.norm (FS.join output_dir name)) ->
          FS.lookup (w_fs (l_world st)) q = Some node).

(** ** More Python string primitives *)

Module PyStr.

(** [c.lower()] for a code point below 256: the ASCII capitals and
    the capitals of Latin-1 (U+00C0 to U+00DE without the
    multiplication sign U+00D7) move up by 32. *)
Definition lower_char (c : ascii) : ascii :=
  let n := nat_of_ascii c in
  if ((65 <=? n) && (n <=? 90))
     || ((192 <=? n) && (n <=? 222) && negb (n =? 215))
  then ascii_of_nat (n + 32)
  else c.

(** [s.lower()] *)
Fixpoint lower (s : string) : string :=
  match s with
  | EmptyString => EmptyString
  | String c s' => String (lower_char c) (lower s')
  end.

(** [c in s] for a character [c] *)
Fixpoint contains (c : ascii) (s : string) : bool :=
  match s with
  | EmptyString => false
  | String c' s' => Ascii.eqb c' c || contains c s'
  end.

(** The parts of [s] before and after the last [sep], when there is
    one. *)
Fixpoint rsplit_last (sep : ascii) (s : string) : option (string * string) :=
  match s with
  | EmptyString => None
  | String c s' =>
      match rsplit_last sep s' with
      | Some (a, b) => Some (String c a, b)
      | None => if Ascii.eqb c sep then Some (EmptyString, s') else None
      end
  end.

(** [s.rsplit(sep, 1)] *)
Definition rsplit1 (sep : ascii) (s : string) : list string :=
  match rsplit_last sep s with
  | Some (a, b) => [a; b]
  | None => [s]
  end.

(** [l[i]]: [IndexError] out of range. *)
Definition index {A} (l : list A) (i : nat) : outcome A :=
  match nth_error l i with
  | Some x => Returns x
  | None => Raises (MkExc IndexError "list index out of range")
  end.

(** A line boundary of [str.splitlines], below 256. *)
Definition is_linebreak (c : ascii) : bool :=
  let n := nat_of_ascii c in
  ((10 <=? n) && (n <=? 13)) || ((28 <=? n) && (n <=? 30)) || (n =? 133).

(** [s.splitlines()]: [cur] is the line read so far; the pair CR LF
    is one boundary; no empty line is reported at the end. *)
Fixpoint splitlines_from (cur s : string) : list string :=
  match s with
  | EmptyString => match cur with EmptyString => [] | _ => [cur] end
  | String c s' =>
      if is_linebreak c then
        cur :: match s' with
               | String c' s'' =>
                   if Ascii.eqb c "013" && Ascii.eqb c' "010"
                   then splitlines_from EmptyString s''
                   else splitlines_from EmptyString s'
               | EmptyString => []
               end
      else splitlines_from (cur ++ String c EmptyString) s'
  end.

Definition splitlines (s : string) : list string := splitlines_from "" s.

(** [str(n)] for an integer *)
Definition str_int (z : Z) : string :=
  if (z <? 0)%Z then "-" ++ decimal (Z.to_nat (- z)) else decimal (Z.to_nat z).

End PyStr.

(** ** utils/diagnostics.py *)

Module Diagnostics.

(** The dictionary [tesseract_info]; a key that may be missing is an
    option. *)
Record TesseractInfo := MkInfo {
  installed : bool;
  version : option string;
  languages : option (list string);
  num_languages : option nat;
  has_english : option bool;
  error : option string
}.

Section Tesseract.
Context {Image : Type} `{!Tesseract Image}.

(** Lines 85-97: what the language listing adds to the dictionary. *)
Definition with_languages (info : TesseractInfo) (lang_result : CompletedProcess)
    : TesseractInfo :=
  if (returncode lang_result =? 0)%Z then
    let langs := List.filter Py.truthy
                   (map Py.strip (PyStr.splitlines (stdout lang_result))) in
    if 1 <? List.length langs then
      let langs := tl langs in
      MkInfo (installed info) (version info) (Some langs)
             (Some (List.length langs))
             (Some (existsb (String.eqb "eng") langs)) (error info)
    else
      MkInfo (installed info) (version info) (Some [])
             (num_languages info) (has_english info)
             (Some "No language packs found")
  else
    MkInfo (installed info) (version info) (languages info)
           (num_languages info) (has_english info)
           (Some ("Language check error: " ++ stderr lang_result)).

(** [check_tesseract_installation()] *)
Definition check_tesseract_installation : TesseractInfo :=
  let tesseract_info := MkInfo false None None None None None in
  match run_version with
  | Raises e =>
      MkInfo false None None None None
             (Some ("Error checking Tesseract: " ++ exc_str e))
  | Returns result =>
      if (returncode result =? 0)%Z then
        let version_output := PyStr.splitlines (stdout result) in
        let tesseract_info :=
          MkInfo true (match version_output with
                       | [] => None
                       | v :: _ => Some v
                       end) None None None None in
        match run_list_langs with
        | Raises e =>
            MkInfo true (version tesseract_info) None None None
                   (Some ("Error checking Tesseract: " ++ exc_str e))
        | Returns lang_result => with_languages tesseract_info lang_result
        end
      else
        MkInfo false None None None None
               (Some ("Tesseract error: " ++ stderr result))
  end.

End Tesseract.

(** The dictionary [permissions]. *)
Record Permissions := MkPermissions {
  p_path : string;
  p_exists : bool;
  p_is_dir : bool;
  p_readable : bool;
  p_writable : bool;
  p_read_error : option string;
  p_write_error : option string
}.

Section FilePermissions.

(** [os.listdir]: read permission is not part of the file system
    model, so the outcome of the listing is given from outside. *)
Variable os_listdir : string -> outcome (list string).

(** Lines 173-180: the write test. *)
Definition write_test (fs : gmap string FS.Node) (directory_path : string)
    : gmap string FS.Node * outcome unit :=
  let test_file := FS.join directory_path ".permission_test" in
  match FSW.write_file fs test_file "test" with
  | Raises e => (fs, Raises e)
  | Returns fs1 =>
      match FSW.remove fs1 test_file with
      | Raises e => (fs1, Raises e)
      | Returns fs2 => (fs2, Returns tt)
      end
  end.

(** [check_file_permissions(directory_path)] *)
Definition check_file_permissions (fs : gmap string FS.Node)
    (directory_path : string) : gmap string FS.Node * Permissions :=
  let exists_ := FS.exists_ fs directory_path in
  if exists_ then
    let is_dir := FSW.is_dir fs directory_path in
    if is_dir then
      let '(readable, read_error) :=
        match os_listdir directory_path with
        | Returns _ => (true, None)
        | Raises e => (false, Some (exc_str e))
        end in
      match write_test fs directory_path with
      | (fs', Returns _) =>
          (fs', MkPermissions directory_path true true readable true
                  read_error None)
      | (fs', Raises e) =>
          (fs', MkPermissions directory_path true true readable false
                  read_error (Some (exc_str e)))
      end
    else (fs, MkPermissions directory_path true false false false None None)
  else (fs, MkPermissions directory_path false false false false None None).

End FilePermissions.

End Diagnostics.

(** ** utils/export_util.py *)

Module ExportUtil.

Inductive Cell := CInt (n : nat) | CStr (s : string).

(** An element of [ocr_results]: a dictionary, or something else. *)
Inductive Item :=
| IDict (d : gmap string Cell)
| IOther.

(** A row of a data frame: the columns with their cells. *)
Definition Row := list (string * Cell).

Inductive Format := Excel | Csv.

(** What pandas writes for a data frame: [df.to_csv(_, index=False)]
    and [df.to_excel(_, index=False, sheet_name=...)]. *)
Class Pandas := {
  to_csv : list Row -> outcome string;
  to_excel : option string -> list Row -> outcome string
}.

Section Writers.
Context `{!Pandas}.

(** Lines 31-40 and 89-98: the clean records. *)
Definition clean (result : Item) : list Row :=
  match result with
  | IDict d =>
      match d !! "frame_number", d !! "text" with
      | Some n, Some t => [[("frame_number", n); ("text", t)]]
      | _, _ => []
      end
  | IOther => []
  end.

Definition cleaned_results (ocr_results : list Item) : list Row :=
  flat_map clean ocr_results.

Definition placeholder_rows : list Row :=
  [[("frame_number", CInt 1);
    ("text", CStr "No text was detected in the image")]].

Definition error_rows (e : exc) : list Row :=
  [[("Error", CStr ("Failed to export results: " ++ exc_str e))]].

(** [df.to_excel(output_path, ...)] or [df.to_csv(output_path, ...)]:
    the rendered bytes are written to the file. *)
Definition rendered (fmt : Format) (sheet_name : option string)
    (rows : list Row) : outcome string :=
  match fmt with
  | Excel => to_excel sheet_name rows
  | Csv => to_csv rows
  end.

Definition write_frame (fmt : Format) (sheet_name : option string)
    (fs : gmap string FS.Node) (rows : list Row) (output_path : string)
    : outcome (gmap string FS.Node) :=
  match rendered fmt sheet_name rows with
  | Raises e => Raises e
  | Returns bytes => FSW.write_file fs output_path bytes
  end.

(** The sheet name of the regular export: [sheet_name='OCR Results']
    for Excel, and none for CSV. *)
Definition sheet_of (fmt : Format) : option string :=
  match fmt with Excel => Some "OCR Results" | Csv => None end.

(** The body of the outer [try]. *)
Definition export_body (fmt : Format) (fs : gmap string FS.Node)
    (ocr_results : list Item) (output_path : string)
    : gmap string FS.Node * outcome bool :=
  match FSW.makedirs fs (FS.dirname output_path) with
  | (fs1, Raises e) => (fs1, Raises e)
  | (fs1, Returns _) =>
      let sheet := sheet_of fmt in
      let rows := match ocr_results with
                  | [] => placeholder_rows
                  | _ => cleaned_results ocr_results
                  end in
      match write_frame fmt sheet fs1 rows output_path with
      | Raises e => (fs1, Raises e)
      | Returns fs2 => (fs2, Returns true)
      end
  end.

(** The functions [export_to_excel] and [export_to_csv] differ in the
    writer they call. *)
Definition export_to (fmt : Format) (fs : gmap string FS.Node)
    (ocr_results : list Item) (output_path : string)
    : gmap string FS.Node * outcome bool :=
  match export_body fmt fs ocr_results output_path with
  | (fs1, Returns b) => (fs1, Returns b)
  | (fs1, Raises e) =>
      match write_frame fmt None fs1 (error_rows e) output_path with
      | Returns fs2 => (fs2, Returns true)
      | Raises fallback_err => (fs1, Raises fallback_err)
      end
  end.

(** [export_to_excel(ocr_results, output_path)] *)
Definition export_to_excel := export_to Excel.

(** [export_to_csv(ocr_results, output_path)] *)
Definition export_to_csv := export_to Csv.

End Writers.

(** The dictionary the pipeline builds for a record. *)
Definition item_of_rec (r : Rec) : Item :=
  IDict (<["frame_number" := CInt (frame_number r)]>
        (<["frame_path" := CStr (frame_path r)]>
        (<["text" := CStr (text r)]> ∅))).

Definition row_of_rec (r : Rec) : Row :=
  [("frame_number", CInt (frame_number r)); ("text", CStr (text r))].

End ExportUtil.

(** ** Removing a directory *)

Module OS.
Import FS FSW.

(** The directory [d] holds an entry: some other path lies directly
    in it. *)
Definition has_entries (fs : gmap string Node) (d : string) : bool :=
  bool_decide
    (map_Exists (fun k _ => k <> norm d /\ norm (parent k) = norm d) fs).

Definition enotempty (p : string) : exc :=
  MkExc OSError ("[Errno 39] Directory not empty: '" ++ p ++ "'").

(** [os.rmdir(p)] *)
Definition rmdir (fs : gmap string Node) (p : string)
    : outcome (gmap string Node) :=
  match lookup fs p with
  | None => Raises (enoent p)
  | Some (File _) => Raises (enotdir p)
  | Some (Dir _ _) =>
      match check_parent fs p with
      | Raises e => Raises e
      | Returns _ =>
          if has_entries fs p then Raises (enotempty p)
          else Returns (delete (norm p) fs)
      end
  end.

(** [cur] is [fs] without some of its regular files. *)
Definition shrinks (fs cur : gmap string Node) : Prop :=
  (forall k n, cur !! k = Some n -> fs !! k = Some n)
  /\ (forall k w sz, fs !! k = Some (Dir w sz) -> cur !! k = Some (Dir w sz)).

(** [os.remove(p)] would succeed, or [p] does not exist. *)
Definition removable (fs : gmap string Node) (p : string) : Prop :=
  lookup fs p = None
  \/ ((exists c, lookup fs p = Some (File c))
      /\ check_parent fs p = Returns tt).

End OS.

(** ** app.py *)

Module App.

(** The set [ALLOWED_EXTENSIONS]. *)
Definition ALLOWED_EXTENSIONS : list string :=
  ["gif"; "jpg"; "jpeg"; "png"; "avif"].

Definition dot : ascii := "."%char.

(** [allowed_file(filename)]: the index is only evaluated when the
    name has a dot. *)
Definition allowed_file (filename : string) : outcome bool :=
  if PyStr.contains dot filename then
    match PyStr.index (PyStr.rsplit1 dot filename) 1 with
    | Raises e => Raises e
    | Returns ext =>
        Returns (existsb (String.eqb (PyStr.lower ext)) ALLOWED_EXTENSIONS)
    end
  else Returns false.

(** The keys of the Flask session the handlers use. *)
Record Session := MkSession {
  s_session_id : option string;
  s_original_filename : option string;
  s_file_path : option string;
  s_frames_paths : option (list string);
  s_ocr_results : option (list Rec)
}.

(** The entries of [app.config] that [process_frames] reads and
    writes. *)
Record Config := MkConfig {
  DEBUG_MODE : bool;
  OCR_CHECKED : bool
}.

(** A JSON response: the status and the keys of the body. *)
Record Response := MkResponse {
  status : nat;
  success : option bool;
  message : option string;
  error : option string;
  details : option string;
  suggestion : option string;
  results : option (list Rec)
}.

Definition skipped_text : string := "(Frame skipped to improve performance)".

(** Lines 321-323: the statistics of the response. *)
Definition count_errors (ocr_results : list Rec) : nat :=
  List.length (List.filter (fun r => Py.startswith "Error:" (text r)) ocr_results).

Definition count_empty (ocr_results : list Rec) : nat :=
  List.length (List.filter
                 (fun r => negb (Py.truthy (text r))
                           || String.eqb (text r) "No text detected")
                 ocr_results).

Definition count_success (ocr_results : list Rec) : Z :=
  (Z.of_nat (List.length ocr_results) - Z.of_nat (count_errors ocr_results)
   - Z.of_nat (count_empty ocr_results))%Z.

(** Lines 262-267: the records of the frames beyond the 30th. *)
Definition skipped (frames_paths : list string) : list Rec :=
  map (fun idx => MkRec (idx + 1) (nth idx frames_paths "") skipped_text)
      (seq 30 (List.length frames_paths - 30)).

Section Handlers.
Context {Image : Type} `{!Codec Image} `{!Tesseract Image}.

(** Lines 248-267: the frames sent to the engine and the records
    for the others.  [frames_paths[idx]] is within range for the
    indices of the loop. *)
Definition capped_ocr (fs : gmap string FS.Node) (frames_paths : list string)
    : list Rec :=
  let max_frames := Nat.min (List.length frames_paths) 30 in
  let frames_to_process :=
    if max_frames <? List.length frames_paths
    then firstn max_frames frames_paths
    else frames_paths in
  let ocr_results := perform_ocr_on_frames fs frames_to_process in
  if max_frames <? List.length frames_paths
  then (ocr_results
          ++ map (fun idx => MkRec (idx + 1) (nth idx frames_paths "")
                               skipped_text)
                 (seq max_frames (List.length frames_paths - max_frames)))%list
  else ocr_results.

(** Lines 310-354: the answer for the records obtained. *)
Definition summarize (session : Session) (ocr_results : list Rec)
    : Response * Session :=
  if List.length ocr_results =? 0 then
    (MkResponse 200 (Some false)
       (Some "OCR processing did not return any results. Please try a different image.")
       None None (Some "Try an image with clearer text content.") (Some []),
     session)
  else
    let error_count := count_errors ocr_results in
    let success_count := count_success ocr_results in
    let session :=
      MkSession (s_session_id session) (s_original_filename session)
                (s_file_path session) (s_frames_paths session)
                (Some ocr_results) in
    if (0 <? success_count)%Z then
      (MkResponse 200 (Some true)
         (Some ("OCR processing complete. Found text in "
                  ++ PyStr.str_int success_count ++ " frames."))
         None None None (Some ocr_results), session)
    else if 0 <? error_count then
      (MkResponse 200 (Some true)
         (Some ("OCR processing complete, but encountered errors in all "
                  ++ decimal error_count ++ " frames. No text was found."))
         None None None (Some ocr_results), session)
    else
      (MkResponse 200 (Some true)
         (Some "OCR processing complete, but no text was found in any frame.")
         None None None (Some ocr_results), session).

(** [process_frames()].  The calls protected by the handlers at lines
    221, 245, 274, 291 and 356 do not raise here, and the disk usage
    is only logged. *)
Definition process_frames (cfg : Config) (fs : gmap string FS.Node)
    (session : Session) : Response * Session * Config :=
  match s_session_id session, s_frames_paths session with
  | Some session_id, Some frames_paths =>
      match frames_paths with
      | [] =>
          (MkResponse 200 (Some false)
             (Some "No frames were extracted from the image")
             None None None (Some []), session, cfg)
      | _ =>
          if negb check_tesseract then
            (MkResponse 200 (Some false)
               (Some "OCR engine (Tesseract) is not properly installed or configured. Please contact support.")
               None None None (Some []), session, cfg)
          else
            let check := DEBUG_MODE cfg && negb (OCR_CHECKED cfg) in
            let tesseract_info := Diagnostics.check_tesseract_installation in
            let cfg' := if check then MkConfig (DEBUG_MODE cfg) true else cfg in
            if check && negb (Diagnostics.installed tesseract_info) then
              (MkResponse 200 (Some false)
                 (Some "The OCR engine is not properly installed on the server.")
                 None
                 (Some (match Diagnostics.error tesseract_info with
                        | Some e => e
                        | None => "Unknown installation issue"
                        end))
                 None (Some []), session, cfg')
            else
              let '(response, session') :=
                summarize session (capped_ocr fs frames_paths) in
              (response, session', cfg')
      end
  | _, _ =>
      (MkResponse 200 (Some false)
         (Some "No active image processing session")
         None None None (Some []), session, cfg)
  end.

End Handlers.

(** Lines 461-463: the frames are removed in order; the first
    exception ends the loop. *)
Fixpoint remove_frames (fs : gmap string FS.Node) (frames_paths : list string)
    : gmap string FS.Node * outcome unit :=
  match frames_paths with
  | [] => (fs, Returns tt)
  | frame_path :: rest =>
      if FS.exists_ fs frame_path then
        match FSW.remove fs frame_path with
        | Raises e => (fs, Raises e)
        | Returns fs' => remove_frames fs' rest
        end
      else remove_frames fs rest
  end.

(** The directory of the frames of a session (lines 101 and 459). *)
Definition frames_dir_of (upload_folder session_id : string) : string :=
  FS.join upload_folder ("image_frames_" ++ session_id).

(** [session.get('frames_paths', [])] *)
Definition frames_of (session : Session) : list string :=
  match s_frames_paths session with
  | Some frames_paths => frames_paths
  | None => []
  end.

(** Lines 454-466: the body of the [try]; an exception is logged, and
    what was removed before it stays removed. *)
Definition cleanup_files (upload_folder : string) (fs : gmap string FS.Node)
    (session : Session) (session_id : string) : gmap string FS.Node :=
  match (match s_file_path session with
         | Some file_path =>
             if FS.exists_ fs file_path then FSW.remove fs file_path
             else Returns fs
         | None => Returns fs
         end) with
  | Raises _ => fs
  | Returns fs1 =>
      let frames_dir := frames_dir_of upload_folder session_id in
      if FS.exists_ fs1 frames_dir then
        match remove_frames fs1 (frames_of session) with
        | (fs2, Raises _) => fs2
        | (fs2, Returns _) =>
            match OS.rmdir fs2 frames_dir with
            | Raises _ => fs2
            | Returns fs3 => fs3
            end
        end
      else fs1
  end.

(** [session.clear()] *)
Definition empty_session : Session := MkSession None None None None None.

(** [cleanup()] *)
Definition cleanup (upload_folder : string) (fs : gmap string FS.Node)
    (session : Session) : gmap string FS.Node * Response * Session :=
  (match s_session_id session with
   | Some session_id => cleanup_files upload_folder fs session session_id
   | None => fs
   end,
   MkResponse 200 (Some true) None None None None None,
   empty_session).

(** The paths [cleanup] may remove for a session. *)
Definition targets (upload_folder : string) (session : Session) : list string :=
  match s_session_id session with
  | Some session_id =>
      (match s_file_path session with
       | Some file_path => [file_path]
       | None => []
       end
       ++ frames_of session
       ++ [frames_dir_of upload_folder session_id])%list
  | None => []
  end.

End App.

(** ** Further doubles *)

Module Demo.
Import Sym.

(** An engine whose sparse-text attempt raises and whose attempt on
    the enhanced image finds nothing. *)
Definition read_flaky (config : string) (i : Img) : outcome string :=
  if String.eqb config "--oem 3 --psm 11"
  then Raises (MkExc RuntimeError "tesseract failed")
  else match i with
       | Raster _ _ => Returns " hello "
       | _ => Returns "  "
       end.

(** An engine that finds no text in any image. *)
Definition read_nothing (_ : string) (_ : Img) : outcome string :=
  Returns "".

(** An engine that reads the same word in every image. *)
Definition read_word (_ : string) (_ : Img) : outcome string :=
  Returns "hello".

(** A decoder that opens an animation of three palette frames, the
    second of which does not encode, and the files the extractor
    saves. *)
Definition dec_anim (bytes : string) : outcome (Container Img) :=
  if String.prefix "GIF" bytes
  then Returns (MkContainer "GIF" (Some 3) (Raster "P" "f0")
                  [Raster "P" "broken"; Raster "P" "f2"] 0)
  else if String.prefix "JFIF" bytes
  then Returns (MkContainer "JPEG" None (Raster "RGB" bytes) [] 0)
  else dec_still bytes.

Fixpoint source_label (i : Img) : string :=
  match i with
  | Raster _ l => l
  | Converted _ src => source_label src
  | Enhanced _ _ src => source_label src
  | Blurred _ src => source_label src
  end.

Definition animated : Codec Img :=
  {| decode := dec_anim;
     mode := img_mode;
     copy := fun i => Returns i;
     convert := fun m i => Returns (Converted m i);
     enhance := fun e f i => Returns (Enhanced e f i);
     gaussian_blur := fun r i => Returns (Blurred r i);
     encode_jpeg := fun _ i =>
       if String.eqb (source_label i) "broken"
       then Raises (MkExc OSError "broken data stream when writing image file")
       else Returns ("JFIF:" ++ render i) |}.

(** The scratch directory with an animation, and a current directory. *)
Definition fs1 : gmap string FS.Node :=
  <["/tmp/a.gif" := FS.File "GIF89a"]>
  (<["." := FS.Dir true FS.dir_size]> fs0).

Definition w1 : World := MkWorld fs1 0.

(** A session of 32 frames, all of them the still image. *)
Definition frames32 : list string := repeat "/tmp/in.png" 32.

Definition session32 : App.Session :=
  App.MkSession (Some "s1") (Some "in.png") (Some "/tmp/s1_in.png")
                (Some frames32) None.

Definition nl : string := String "010" EmptyString.

(** An engine with two language packs. *)
Definition tesseract_eng : Tesseract Img :=
  {| run_version := Returns (MkProc 0 "tesseract 5.3.0" "");
     run_list_langs :=
       Returns (MkProc 0 ("List of available languages (2):" ++ nl
                            ++ "eng" ++ nl ++ "osd" ++ nl) "");
     image_to_string := read_word |}.

Definition show_cell (c : ExportUtil.Cell) : string :=
  match c with
  | ExportUtil.CInt n => decimal n
  | ExportUtil.CStr s => s
  end.

Definition show_line (cells : list string) : string :=
  Py.join "," cells ++ nl.

(** A writer that puts the column names of the first row on the first
    line and the cells of every row on a line of its own. *)
Definition show_table (rows : list ExportUtil.Row) : string :=
  match rows with
  | [] => nl
  | row :: _ =>
      show_line (map fst row)
        ++ String.concat ""
             (map (fun r => show_line (map (fun kv => show_cell (snd kv)) r))
                  rows)
  end.

Definition pandas : ExportUtil.Pandas :=
  {| ExportUtil.to_csv := fun rows => Returns (show_table rows);
     ExportUtil.to_excel := fun sheet rows =>
       Returns ("XLSX[" ++ match sheet with
                           | Some s => s
                           | None => "Sheet1"
                           end ++ "]" ++ show_table rows) |}.

(** An upload folder after the extraction of two frames for the
    session ["s1"], and the session. *)
Definition fs_done : gmap string FS.Node :=
  <["/tmp/up" := FS.Dir true FS.dir_size]>
  (<["/tmp/up/s1_in.png" := FS.File "IMG0"]>
  (<["/tmp/up/image_frames_s1" := FS.Dir true FS.dir_size]>
  (<["/tmp/up/image_frames_s1/frame_0_u0.jpg" := FS.File "JFIF:0"]>
  (<["/tmp/up/image_frames_s1/frame_1_u1.jpg" := FS.File "JFIF:1"]> fs0)))).

Definition session_done : App.Session :=
  App.MkSession (Some "s1") (Some "in.png") (Some "/tmp/up/s1_in.png")
    (Some ["/tmp/up/image_frames_s1/frame_0_u0.jpg";
           "/tmp/up/image_frames_s1/frame_1_u1.jpg"])
    None.

(** The same folder with a file in the frames directory that the
    session does not list. *)
Definition fs_leftover : gmap string FS.Node :=
  <["/tmp/up/image_frames_s1/frame_2_u2.jpg" := FS.File ""]> fs_done.

(** A listing that always succeeds. *)
Definition listdir_ok (_ : string) : outcome (list string) := Returns [].

End Demo.

(** * Properties of the string primitives *)

Section StringFacts.

Local Open Scope list_scope.

Lemma span_alnum_length (s : string) :
  String.length (fst (Re.span_alnum s)) + String.length (snd (Re.span_alnum s))
  = String.length s.
Proof.
  induction s as [|c s IH]; simpl; [reflexivity|].
  destruct (Re.is_alnum c); [|reflexivity].
  destruct (Re.span_alnum s) as [run rest]. simpl in *. lia.
Qed.

(** The scan of [findall] does not depend on the fuel once there is
    more of it than characters. *)
Lemma findall_fuel_stable (f1 f2 : nat) (s : string) :
  String.length s < f1 -> String.length s < f2 ->
  Re.findall_fuel f1 s = Re.findall_fuel f2 s.
Proof.
  revert f2 s. induction f1 as [|f1 IH]; intros f2 s H1 H2; [lia|].
  destruct f2 as [|f2]; [lia|].
  destruct s as [|c s]; [reflexivity|].
  cbn [Re.findall_fuel].
  pose proof (span_alnum_length (String c s)) as Hlen.
  destruct (Re.span_alnum (String c s)) as [run rest].
  cbn [fst snd] in Hlen. cbn [String.length] in *.
  destruct (3 <=? Py.len run) eqn:E.
  - apply Nat.leb_le in E. unfold Py.len in E.
    f_equal. apply IH; lia.
  - apply IH; lia.
Qed.

Lemma findall_fuel_enough (fuel : nat) (s : string) :
  String.length s < fuel -> Re.findall_fuel fuel s = Re.findall s.
Proof.
  intros H. unfold Re.findall. apply findall_fuel_stable; lia.
Qed.

(** [max(items, key=len)] returns the first of the longest items. *)
Lemma max_len_from_first_longest (best : string) (items : list string) :
  exists pre post,
    best :: items = pre ++ Py.max_len_from best items :: post
    /\ (forall x, In x pre -> Py.len x < Py.len (Py.max_len_from best items))
    /\ (forall x, In x post -> Py.len x <= Py.len (Py.max_len_from best items)).
Proof.
  revert best. induction items as [|x items IH]; intros best.
  - exists [], []. simpl. split; [reflexivity|split; intros ? []].
  - simpl. destruct (Nat.ltb_spec (Py.len best) (Py.len x)) as [Hlt|Hge].
    + destruct (IH x) as (pre & post & E & Hpre & Hpost).
      exists (best :: pre), post.
      split; [simpl; f_equal; exact E|split; [|exact Hpost]].
      intros y [<-|Hy]; [|now apply Hpre].
      destruct pre as [|z pre].
      * injection E as E _. rewrite <- E. exact Hlt.
      * injection E as E _. subst z.
        specialize (Hpre x (or_introl eq_refl)). lia.
    + destruct (IH best) as (pre & post & E & Hpre & Hpost).
      destruct pre as [|z pre].
      * injection E as E1 E2. subst post. exists [], (x :: items).
        rewrite <- E1 in *. split; [reflexivity|split].
        -- intros ? [].
        -- intros y [<-|Hy]; [lia|now apply Hpost].
      * injection E as E1 E2. subst z.
        exists (best :: x :: pre), post. simpl.
        split; [do 2 f_equal; exact E2|split; [|exact Hpost]].
        intros y [<-|[<-|Hy]].
        -- apply Hpre. now left.
        -- specialize (Hpre best (or_introl eq_refl)). lia.
        -- apply Hpre. now right.
Qed.

Lemma path_examples :
  FS.dirname "/tmp/out/.write_test" = "/tmp/out"
  /\ FS.dirname "frame.jpg" = ""
  /\ FS.dirname "/frame.jpg" = "/"
  /\ FS.join "/tmp/out" ".write_test" = "/tmp/out/.write_test"
  /\ FS.join "/tmp/out/" ".write_test" = "/tmp/out/.write_test"
  /\ FS.norm "/tmp/out///" = "/tmp/out"
  /\ FSW.ancestors "/tmp/out/frames" = ["/"; "/tmp"; "/tmp/out"]
  /\ FSW.ancestors "out/frames/" = ["out"]
  /\ decimal 12 = "12".
Proof. repeat split. Qed.

End StringFacts.

(** * Properties of the batch *)

Section BatchFacts.
Variable recognize_one : string -> outcome string.

Local Open Scope list_scope.

Lemma frame_step_results (st : Tally) (it : nat * string) :
  ocr_results (frame_step recognize_one st it)
  = ocr_results st ++ [real_record recognize_one it].
Proof.
  destruct it as [idx p]. unfold frame_step, real_record. simpl.
  destruct (recognize_one p) as [t|e]; simpl; [|reflexivity].
  destruct (Py.startswith err_prefix t); [reflexivity|].
  destruct (negb (Py.truthy t) || String.eqb t no_text_detected); reflexivity.
Qed.

Lemma frame_step_success (st : Tally) (it : nat * string) :
  success_count (frame_step recognize_one st it)
  = success_count st
    + (if is_success (real_record recognize_one it) then 1 else 0).
Proof.
  destruct it as [idx p]. unfold frame_step, real_record, is_success, classify.
  simpl. destruct (recognize_one p) as [t|e]; simpl.
  - destruct (Py.startswith err_prefix t); simpl; [lia|].
    destruct (negb (Py.truthy t) || String.eqb t no_text_detected); simpl; lia.
  - lia.
Qed.

Lemma fold_results (items : list (nat * string)) (st : Tally) :
  ocr_results (fold_left (frame_step recognize_one) items st)
  = ocr_results st ++ map (real_record recognize_one) items.
Proof.
  revert st. induction items as [|it items IH]; intros st; simpl.
  - now rewrite app_nil_r.
  - rewrite IH, frame_step_results, <- app_assoc. reflexivity.
Qed.

Lemma fold_success (items : list (nat * string)) (st : Tally) :
  success_count (fold_left (frame_step recognize_one) items st)
  = success_count st
    + length (List.filter is_success (map (real_record recognize_one) items)).
Proof.
  revert st. induction items as [|it items IH]; intros st; simpl.
  - lia.
  - rewrite IH, frame_step_success.
    destruct (is_success (real_record recognize_one it)); simpl; lia.
Qed.

Lemma loop_results (paths : list string) :
  ocr_results (frames_loop recognize_one paths)
  = map (real_record recognize_one) (Py.enumerate paths).
Proof. unfold frames_loop. now rewrite fold_results. Qed.

Lemma loop_success (paths : list string) :
  success_count (frames_loop recognize_one paths)
  = length (List.filter is_success (ocr_results (frames_loop recognize_one paths))).
Proof. rewrite loop_results. unfold frames_loop. now rewrite fold_success. Qed.

Lemma enumerate_length (paths : list string) :
  length (Py.enumerate paths) = length paths.
Proof.
  unfold Py.enumerate. rewrite length_combine, length_seq. lia.
Qed.

Lemma enumerate_snd (paths : list string) :
  map snd (Py.enumerate paths) = paths.
Proof.
  unfold Py.enumerate. generalize 0.
  induction paths as [|p paths IH]; intros k; simpl; [reflexivity|].
  now rewrite IH.
Qed.

Lemma enumerate_number (paths : list string) :
  map (fun it : nat * string => fst it + 1) (Py.enumerate paths)
  = seq 1 (length paths).
Proof.
  unfold Py.enumerate.
  assert (H : forall k, map (fun it : nat * string => fst it + 1)
                        (combine (seq k (length paths)) paths)
                      = seq (k + 1) (length paths)).
  { induction paths as [|p paths IH]; intros k; simpl; [reflexivity|].
    rewrite IH. reflexivity. }
  apply (H 0).
Qed.

Lemma combined_record_shape (paths : list string) (st : Tally) :
  combined_record paths st = []
  \/ exists run, 4 <= Py.len run
       /\ combined_record paths st
          = [MkRec (length paths + 1) combined_analysis
               ("Combined analysis: Found text pattern '" ++ run ++ "'")%string].
Proof.
  unfold combined_record.
  destruct (0 <? success_count st); [|now left].
  destruct (Py.max_by_len _) as [w|]; [|now left].
  destruct (4 <=? Py.len w) eqn:E; [|now left].
  right. exists w. split; [now apply Nat.leb_le|reflexivity].
Qed.

(** The run reported by the synthetic record is the first of the
    longest matches of the scan, and has at least four characters. *)
Lemma combined_record_first_longest (paths : list string) (st : Tally) :
  combined_record paths st = []
  \/ exists run pre post,
       0 < success_count st
       /\ Re.findall (Py.join " " (map text (List.filter analysed
                                               (ocr_results st))))
          = pre ++ run :: post
       /\ (forall x, In x pre -> Py.len x < Py.len run)
       /\ (forall x, In x post -> Py.len x <= Py.len run)
       /\ 4 <= Py.len run
       /\ combined_record paths st
          = [MkRec (length paths + 1) combined_analysis
               ("Combined analysis: Found text pattern '" ++ run ++ "'")%string].
Proof.
  unfold combined_record.
  destruct (0 <? success_count st) eqn:Hs; [|now left].
  apply Nat.ltb_lt in Hs.
  destruct (Re.findall _) as [|w ws] eqn:Hw; [now left|].
  cbn [Py.max_by_len].
  destruct (4 <=? Py.len (Py.max_len_from w ws)) eqn:E; [|now left].
  apply Nat.leb_le in E.
  destruct (max_len_from_first_longest w ws) as (pre & post & Hd & Hpre & Hpost).
  right. exists (Py.max_len_from w ws), pre, post. auto 10.
Qed.

Lemma body_returns (paths : list string) :
  frames_body recognize_one paths
  = Returns (map (real_record recognize_one) (Py.enumerate paths)
             ++ match paths with
                | [] => []
                | _ => combined_record paths (frames_loop recognize_one paths)
                end).
Proof.
  destruct paths as [|p paths]; [reflexivity|].
  unfold frames_body. now rewrite loop_results.
Qed.

Lemma batch_decomposition (paths : list string) :
  perform_ocr_on_frames_with recognize_one paths
  = map (real_record recognize_one) (Py.enumerate paths)
    ++ match paths with
       | [] => []
       | _ => combined_record paths (frames_loop recognize_one paths)
       end.
Proof. unfold perform_ocr_on_frames_with. now rewrite body_returns. Qed.

Lemma real_record_nth (paths : list string) (i : nat) (p : string) :
  nth_error paths i = Some p ->
  nth_error (map (real_record recognize_one) (Py.enumerate paths)) i
  = Some (real_record recognize_one (i, p)).
Proof.
  unfold Py.enumerate.
  assert (G : forall k, nth_error paths i = Some p ->
              nth_error (map (real_record recognize_one)
                           (combine (seq k (length paths)) paths)) i
              = Some (real_record recognize_one (k + i, p))).
  { revert i. induction paths as [|q qs IH]; intros i k Hi.
    - destruct i; discriminate.
    - destruct i as [|i]; simpl in *.
      + injection Hi as ->. now rewrite Nat.add_0_r.
      + rewrite (IH i (S k) Hi). do 3 f_equal. lia. }
  apply (G 0).
Qed.

Lemma synthetic_shape (paths : list string) :
  let synthetic := match paths with
                   | [] => []
                   | _ => combined_record paths (frames_loop recognize_one paths)
                   end in
  synthetic = []
  \/ exists run, synthetic
       = [MkRec (length paths + 1) combined_analysis
            ("Combined analysis: Found text pattern '" ++ run ++ "'")%string].
Proof.
  destruct paths as [|q qs]; [now left|]. cbv zeta.
  destruct (combined_record_shape (q :: qs)
              (frames_loop recognize_one (q :: qs))) as [->|[run [_ ->]]].
  - now left.
  - right. eexists. reflexivity.
Qed.

End BatchFacts.

Section BatchClaims.
Variable recognize_one : string -> outcome string.

Local Open Scope list_scope.

(** C1. For every list of paths, the empty one included, and whatever
    the per-frame call does on each path (a text of any class, or an
    exception), the batch returns one record per path, in the order of
    the paths and numbered 1..len(paths), followed by at most one
    synthetic record; a path on which the call raises gets the text
    "Error: OCR processing failed. Please try a different image.". *)
Theorem perform_ocr_on_frames_one_record_per_path (paths : list string) :
  exists real synthetic : list Rec,
    perform_ocr_on_frames_with recognize_one paths = real ++ synthetic
    /\ length real = length paths
    /\ map frame_number real = seq 1 (length paths)
    /\ map frame_path real = paths
    /\ map text real = map (fun p => recorded_text (recognize_one p)) paths
    /\ (forall i p e, nth_error paths i = Some p ->
          recognize_one p = Raises e ->
          nth_error real i
          = Some (MkRec (i + 1) p
                    "Error: OCR processing failed. Please try a different image."))
    /\ (synthetic = []
        \/ exists t, synthetic
                     = [MkRec (length paths + 1) "combined_analysis" t])
    /\ (paths = [] -> perform_ocr_on_frames_with recognize_one paths = []).
Proof.
  exists (map (real_record recognize_one) (Py.enumerate paths)).
  exists (match paths with
          | [] => []
          | _ => combined_record paths (frames_loop recognize_one paths)
          end).
  split; [apply batch_decomposition|].
  split; [now rewrite length_map, enumerate_length|].
  split.
  { rewrite map_map. simpl. apply enumerate_number. }
  split.
  { rewrite map_map. simpl. apply enumerate_snd. }
  split.
  { rewrite map_map. simpl.
    rewrite <- (enumerate_snd paths) at 2. now rewrite map_map. }
  split.
  { intros i p e Hi He. rewrite (real_record_nth _ _ _ _ Hi).
    unfold real_record. simpl. now rewrite He. }
  split.
  { destruct (synthetic_shape recognize_one paths) as [E|[run E]].
    - now left.
    - right. eexists. exact E. }
  intros ->. reflexivity.
Qed.

(** C7. When no record of the loop is a success (each text is "No
    text detected" or starts with "Error:"), the batch returns the
    records of the loop and nothing else: one per path, no synthetic
    record. *)
Theorem no_success_no_combined_record (paths : list string)
    (Hnone : forall r, In r (ocr_results (frames_loop recognize_one paths)) ->
               text r = "No text detected" \/ is_error_text (text r)) :
  perform_ocr_on_frames_with recognize_one paths
  = ocr_results (frames_loop recognize_one paths)
  /\ length (perform_ocr_on_frames_with recognize_one paths) = length paths
  /\ forall r, In r (perform_ocr_on_frames_with recognize_one paths) ->
       frame_number r <= length paths.
Proof.
  assert (Hs : success_count (frames_loop recognize_one paths) = 0).
  { rewrite loop_success.
    induction (ocr_results (frames_loop recognize_one paths)) as [|r rs IH];
      [reflexivity|].
    simpl. assert (Hr : is_success r = false).
    { unfold is_success, classify.
      destruct (Hnone r (or_introl eq_refl)) as [E|E].
      - rewrite E. reflexivity.
      - unfold is_error_text in E. now rewrite E. }
    rewrite Hr. apply IH. intros r' Hr'. apply Hnone. now right. }
  assert (E : perform_ocr_on_frames_with recognize_one paths
              = ocr_results (frames_loop recognize_one paths)).
  { unfold perform_ocr_on_frames_with, frames_body, guarded.
    destruct paths as [|p ps]; [reflexivity|].
    unfold combined_record. rewrite Hs. simpl. now rewrite app_nil_r. }
  split; [exact E|]. rewrite E, loop_results.
  split; [now rewrite length_map, enumerate_length|].
  intros r Hr. apply in_map_iff in Hr as [[i p] [<- Hin]]. simpl.
  unfold Py.enumerate in Hin. apply in_combine_l in Hin.
  apply in_seq in Hin. lia.
Qed.

(** C4. The batch is a total function into lists of records: its
    protected body always returns, every exception of the per-frame
    call is turned into a record with an "Error:" text at the position
    of its path, and if the protected body did raise, the handler would
    return the one-record list with the sentinel error text, never an
    empty list. *)
Theorem perform_ocr_on_frames_never_raises (paths : list string) :
  (exists results,
      frames_body recognize_one paths = Returns results
      /\ perform_ocr_on_frames_with recognize_one paths = results)
  /\ (forall i p e, nth_error paths i = Some p ->
        recognize_one p = Raises e ->
        exists r, nth_error (perform_ocr_on_frames_with recognize_one paths) i
                  = Some r
                  /\ frame_number r = i + 1 /\ frame_path r = p
                  /\ is_error_text (text r))
  /\ (forall e,
        guarded (Raises e) paths
        = [MkRec 1 (match paths with p :: _ => p | [] => "" end)
             "Error: OCR processing failed. Please try a different image."]
        /\ Forall (fun r => is_error_text (text r)) (guarded (Raises e) paths)
        /\ length (guarded (Raises e) paths) = 1).
Proof.
  split.
  { eexists. split; [apply body_returns|].
    unfold perform_ocr_on_frames_with. now rewrite body_returns. }
  split.
  { intros i p e Hi He.
    exists (MkRec (i + 1) p err_generic).
    split; [|repeat split].
    rewrite batch_decomposition, nth_error_app1.
    - rewrite (real_record_nth _ _ _ _ Hi). unfold real_record. simpl.
      now rewrite He.
    - rewrite length_map, enumerate_length. apply nth_error_Some.
      now rewrite Hi. }
  intros e. split; [reflexivity|]. split; [|reflexivity].
  repeat constructor.
Qed.

(** C3 (as amended). With per-frame texts "AB", "C123 extra" and
    "nothing", all three are successes, the scanned text is
    "AB C123 extra nothing", and the synthetic record, numbered
    len(paths)+1, reports the longest run, 'nothing'. *)
Theorem aggregation_reports_longest_run (p1 p2 p3 : string)
    (H1 : recognize_one p1 = Returns "AB")
    (H2 : recognize_one p2 = Returns "C123 extra")
    (H3 : recognize_one p3 = Returns "nothing") :
  perform_ocr_on_frames_with recognize_one [p1; p2; p3]
  = [ MkRec 1 p1 "AB"; MkRec 2 p2 "C123 extra"; MkRec 3 p3 "nothing";
      MkRec (length [p1; p2; p3] + 1) "combined_analysis"
        "Combined analysis: Found text pattern 'nothing'" ].
Proof.
  unfold perform_ocr_on_frames_with, frames_body, frames_loop, guarded.
  cbn [Py.enumerate length seq combine fold_left].
  unfold frame_step. rewrite H1. cbn. rewrite H2. cbn. rewrite H3.
  reflexivity.
Qed.

End BatchClaims.

(** * Properties of the per-frame recognition *)

Lemma max_len_from_in (best : string) (items : list string) :
  In (Py.max_len_from best items) (best :: items).
Proof.
  revert best. induction items as [|x items IH]; intros best; simpl.
  - now left.
  - destruct (IH (if Py.len best <? Py.len x then x else best)) as [E|E].
    + destruct (Py.len best <? Py.len x); rewrite <- E; auto.
    + auto.
Qed.

Lemma truthy_nonempty (s : string) : Py.truthy s = true <-> s <> "".
Proof. destruct s; simpl; split; congruence. Qed.

Lemma err_text_truthy (s : string) : is_error_text s -> Py.truthy s = true.
Proof. destruct s; [discriminate|reflexivity]. Qed.

Section FrameClaims.
Context {Image : Type} `{!Codec Image} `{!Tesseract Image}.
Variable fs : gmap string FS.Node.

Local Open Scope list_scope.

Lemma attempt_result_in (o : outcome string) (x : string) :
  In x (attempt_result o) ->
  exists t, o = Returns t /\ x = Py.strip t /\ x <> "".
Proof.
  destruct o as [t|e]; simpl; [|tauto].
  destruct (Py.truthy (Py.strip t)) eqn:E; simpl; [|tauto].
  intros [<-|[]]. exists t. repeat split. now apply truthy_nonempty.
Qed.

Lemma choose_best_cases (results : list string) :
  (results = [] /\ choose_best results = no_text_detected)
  \/ In (choose_best results) results.
Proof.
  destruct results as [|x rest]; [now left|right].
  unfold choose_best. simpl. apply max_len_from_in.
Qed.

Ltac pick_attempt i :=
  exists i; unfold Py.len; simpl; repeat split; try lia; try congruence;
  intros j Hj; repeat (destruct j as [|j]; simpl; try lia).

(** C2. When the preconditions hold, the frame opens and the three
    attempts return the strings t1, t2, t3, the result is "No text
    detected" if the three trimmed strings are empty, and otherwise it
    is a non-empty trimmed string of an attempt i that no attempt
    exceeds in length and that is strictly longer than every earlier
    attempt's: the longest, the earliest among the longest. *)
Theorem perform_ocr_on_frame_selects_longest
    (frame_path : string) (c : Container Image) (t1 t2 t3 : string)
    (Hprobe : check_tesseract = true)
    (Hexists : FS.exists_ fs frame_path = true)
    (Hsize : exists n, FS.getsize fs frame_path = Returns (S n))
    (Hopen : image_open fs frame_path = Returns c)
    (Hattempts : map run_call (attempt_calls (current c))
                 = [Returns t1; Returns t2; Returns t3]) :
  let cands := [Py.strip t1; Py.strip t2; Py.strip t3] in
  let result := perform_ocr_on_frame fs frame_path in
  (Forall (fun s => s = "") cands -> result = "No text detected")
  /\ (Exists (fun s => s <> "") cands ->
      exists i, i < 3
        /\ result = nth i cands "" /\ result <> ""
        /\ (forall j, j < 3 -> Py.len (nth j cands "") <= Py.len result)
        /\ (forall j, j < i -> Py.len (nth j cands "") < Py.len result)).
Proof.
  destruct Hsize as [n Hsize].
  unfold perform_ocr_on_frame, perform_ocr_on_frame_traced.
  rewrite Hprobe, Hexists, Hsize, Hopen. cbn [negb Nat.eqb snd].
  unfold attempt_results. simpl in Hattempts.
  injection Hattempts as E1 E2 E3.
  cbn [attempt_calls flat_map]. rewrite E1, E2, E3.
  cbn [attempt_result]. cbv zeta.
  destruct (Py.strip t1) as [|a1 s1], (Py.strip t2) as [|a2 s2],
           (Py.strip t3) as [|a3 s3];
    cbn [Py.truthy app choose_best Py.max_by_len Py.max_len_from Py.len
         String.length];
    (split;
     [ intros HF;
       repeat match goal with
              | H : Forall _ (_ :: _) |- _ => inversion H; subst; clear H
              end; try discriminate; try reflexivity
     | intros HE ]).
  - exfalso.
    repeat match goal with
           | H : Exists _ (_ :: _) |- _ => inversion H; subst; clear H
           | H : Exists _ [] |- _ => inversion H
           end; congruence.
  - pick_attempt 2.
  - pick_attempt 1.
  - destruct (Nat.ltb_spec (S (String.length s2)) (S (String.length s3))).
    + pick_attempt 2.
    + pick_attempt 1.
  - pick_attempt 0.
  - destruct (Nat.ltb_spec (S (String.length s1)) (S (String.length s3))).
    + pick_attempt 2.
    + pick_attempt 0.
  - destruct (Nat.ltb_spec (S (String.length s1)) (S (String.length s2))).
    + pick_attempt 1.
    + pick_attempt 0.
  - destruct (Nat.ltb_spec (S (String.length s1)) (S (String.length s2)));
      cbn [Py.len String.length].
    + destruct (Nat.ltb_spec (S (String.length s2)) (S (String.length s3))).
      * pick_attempt 2.
      * pick_attempt 1.
    + destruct (Nat.ltb_spec (S (String.length s1)) (S (String.length s3))).
      * pick_attempt 2.
      * pick_attempt 0.
Qed.

(** C6. When the engine probe fails, or the frame file is missing, or
    it is empty, the per-frame function returns one of the three
    "Error:" sentinels as an ordinary value, and it has made no
    recognition call. *)
Theorem precondition_failure_is_error_text (frame_path : string)
    (Hpre : check_tesseract = false
            \/ FS.exists_ fs frame_path = false
            \/ FS.getsize fs frame_path = Returns 0) :
  fst (perform_ocr_on_frame_traced fs frame_path) = []
  /\ is_error_text (perform_ocr_on_frame fs frame_path)
  /\ In (perform_ocr_on_frame fs frame_path)
        [ "Error: Tesseract OCR is not available";
          "Error: Frame file not found";
          "Error: Frame file is empty" ].
Proof.
  unfold perform_ocr_on_frame, perform_ocr_on_frame_traced.
  destruct check_tesseract; simpl.
  - destruct (FS.exists_ fs frame_path); simpl.
    + destruct Hpre as [H|[H|H]]; try discriminate.
      rewrite H. simpl. repeat split; auto.
    + repeat split; auto.
  - repeat split; auto.
Qed.

Lemma frame_result_cases (frame_path : string) :
  let result := perform_ocr_on_frame fs frame_path in
  result = no_text_detected
  \/ is_error_text result
  \/ exists call t,
       In call (fst (perform_ocr_on_frame_traced fs frame_path))
       /\ run_call call = Returns t
       /\ result = Py.strip t /\ result <> "".
Proof.
  unfold perform_ocr_on_frame, perform_ocr_on_frame_traced.
  destruct check_tesseract; simpl; [|right; left; reflexivity].
  destruct (FS.exists_ fs frame_path); simpl; [|right; left; reflexivity].
  destruct (FS.getsize fs frame_path) as [sz|e]; simpl;
    [|right; left; reflexivity].
  destruct (sz =? 0); simpl; [right; left; reflexivity|].
  destruct (image_open fs frame_path) as [c|e]; simpl;
    [|right; left; reflexivity].
  destruct (choose_best_cases (attempt_results (current c))) as [[_ E]|Hin].
  - left. exact E.
  - right. right. unfold attempt_results in Hin at 2.
    apply in_flat_map in Hin as (call & Hcall & Hx).
    apply attempt_result_in in Hx as (t & Ht & Hs & Hne).
    exists call, t. auto.
Qed.

Lemma frame_result_nonempty (frame_path : string) :
  perform_ocr_on_frame fs frame_path <> "".
Proof.
  destruct (frame_result_cases frame_path)
    as [E|[E|(call & t & _ & _ & _ & E)]]; auto.
  - rewrite E. discriminate.
  - apply truthy_nonempty. now apply err_text_truthy.
Qed.

(** C9. The per-frame function never returns the empty string: its
    result is "No text detected", or starts with "Error:", or is the
    non-empty trimmed answer of one of the recognition calls it made.
    So the test [not extracted_text] of the batch is false on it, and
    no record of the batch run on it has an empty text. *)
Theorem perform_ocr_on_frame_never_empty (frame_path : string) :
  let result := perform_ocr_on_frame fs frame_path in
  result <> ""
  /\ (result = "No text detected"
      \/ is_error_text result
      \/ exists call t,
           In call (fst (perform_ocr_on_frame_traced fs frame_path))
           /\ run_call call = Returns t
           /\ result = Py.strip t)
  /\ negb (Py.truthy result) = false
  /\ forall paths r, In r (perform_ocr_on_frames fs paths) -> text r <> "".
Proof.
  cbv zeta. split; [apply frame_result_nonempty|]. split.
  { destruct (frame_result_cases frame_path)
      as [E|[E|(call & t & ? & ? & ? & ?)]]; eauto 10. }
  split.
  { pose proof (frame_result_nonempty frame_path) as Hne.
    apply truthy_nonempty in Hne. now rewrite Hne. }
  intros paths r Hr. unfold perform_ocr_on_frames in Hr.
  rewrite batch_decomposition in Hr. apply in_app_or in Hr as [Hr|Hr].
  - apply in_map_iff in Hr as (it & <- & _). simpl.
    apply frame_result_nonempty.
  - destruct (synthetic_shape (fun p => Returns (perform_ocr_on_frame fs p))
                paths) as [E|[run E]]; cbv zeta in E; rewrite E in Hr.
    + destruct Hr.
    + destruct Hr as [<-|[]]. discriminate.
Qed.

End FrameClaims.

(** * Properties of the file system model *)

Section FileSystemFacts.
Import FS FSW.

Lemma lookup_insert_same (fs : gmap string Node) (p : string) (n : Node) :
  p <> "" -> lookup (<[norm p := n]> fs) p = Some n.
Proof.
  intros Hp. unfold lookup. destruct p; [congruence|].
  apply lookup_insert_eq.
Qed.

Lemma lookup_insert_kept (fs : gmap string Node) (d p : string) (n m : Node) :
  lookup fs d = None -> d <> "" ->
  lookup fs p = Some m -> lookup (<[norm d := n]> fs) p = Some m.
Proof.
  intros Hd Hne Hp. unfold lookup in *.
  destruct p as [|a p]; [discriminate|]. destruct d as [|b d]; [congruence|].
  rewrite lookup_insert_ne; [exact Hp|].
  intros E. rewrite E in Hd. congruence.
Qed.

Lemma mkdir_creates (fs fs' : gmap string Node) (d : string) :
  mkdir fs d = Returns fs' ->
  lookup fs d = None
  /\ lookup fs' d = Some (Dir true dir_size)
  /\ forall p m, lookup fs p = Some m -> lookup fs' p = Some m.
Proof.
  unfold mkdir. destruct (lookup fs d) eqn:Hd; [discriminate|].
  assert (Hne : d <> "" -> forall fs1,
            Returns (<[norm d := Dir true dir_size]> fs) = Returns fs1 ->
            None = None (A := Node)
            /\ lookup fs1 d = Some (Dir true dir_size)
            /\ forall p m, lookup fs p = Some m -> lookup fs1 p = Some m).
  { intros Hne fs1 [= <-]. split; [reflexivity|]. split.
    - now apply lookup_insert_same.
    - intros p m Hp. now apply lookup_insert_kept. }
  destruct d as [|a d]; [discriminate|].
  destruct (check_parent fs (String a d)); [|discriminate].
  apply Hne. discriminate.
Qed.



End FileSystemFacts.

(** ** Paths *)

Section PathFacts.
Import FS FSW.

Local Open Scope list_scope.

Lemma string_app_assoc (a b c : string) :
  ((a ++ b) ++ c)%string = (a ++ b ++ c)%string.
Proof.
  induction a as [|x a IH]; [reflexivity|].
  change (String x ((a ++ b) ++ c) = String x (a ++ b ++ c))%string.
  now rewrite IH.
Qed.

Lemma string_length_app (a b : string) :
  String.length (a ++ b)%string = String.length a + String.length b.
Proof.
  induction a as [|x a IH]; [reflexivity|].
  change (S (String.length (a ++ b)%string)
          = S (String.length a + String.length b)).
  now rewrite IH.
Qed.














Lemma rstrip_slashes_kept (a n : string) :
  n <> "" -> rstrip_slashes n = n ->
  rstrip_slashes (a ++ n)%string = (a ++ n)%string.
Proof.
  intros Hn Hr. induction a as [|c a IH]; [exact Hr|].
  change (String c a ++ n)%string with (String c (a ++ n)%string).
  cbn [rstrip_slashes]. rewrite IH.
  destruct (a ++ n)%string eqn:E; [|reflexivity].
  destruct a, n; try discriminate E; congruence.
Qed.

Lemma norm_join (d n : string) :
  n <> "" -> rstrip_slashes n = n ->
  norm (join d n) = join d n
  /\ String.length d < String.length (join d n).
Proof.
  intros Hn Hr.
  assert (Hlen : 0 < String.length n) by (destruct n; simpl; [congruence|lia]).
  assert (G : forall a, norm (a ++ n)%string = (a ++ n)%string).
  { intros a. unfold norm. rewrite (rstrip_slashes_kept a n Hn Hr).
    destruct (a ++ n)%string eqn:E; reflexivity. }
  unfold join. destruct d as [|c d].
  - split; [apply (G "")|simpl; exact Hlen].
  - destruct (ends_with_slash (String c d)).
    + split; [apply G|]. rewrite string_length_app. lia.
    + replace (String c d ++ "/" ++ n)%string
        with ((String c d ++ "/") ++ n)%string
        by apply string_app_assoc.
      split; [apply G|]. rewrite !string_length_app. simpl. lia.
Qed.



End PathFacts.

Section ProbeFacts.
Import FS FSW.

Local Open Scope list_scope.


Lemma lookup_after_insert (fs : gmap string Node) (d p : string) (n : Node) :
  d <> "" ->
  lookup (<[norm d := n]> fs) p
  = if bool_decide (p <> "" /\ norm p = norm d) then Some n else lookup fs p.
Proof.
  intros Hd. unfold lookup. destruct p as [|a p].
  - rewrite bool_decide_eq_false_2; [reflexivity|]. intros [H _]. congruence.
  - set (q := String a p). case_bool_decide as H.
    + destruct H as [_ ->]. apply lookup_insert_eq.
    + apply lookup_insert_ne. intros E. apply H. split; [discriminate|].
      now symmetry.
Qed.




End ProbeFacts.

(** * Properties of the frame extractor *)

Section ExtractorClaims.
Context {Image : Type} `{!Codec Image} `{!Uuid}.

Local Open Scope list_scope.

(** The order of the passes and what a failing pass leaves behind. *)
Lemma apply_enhancements_cases (frame : Image) :
  (forall f1 f2 f3,
      enhance Contrast (3 # 2) frame = Returns f1 ->
      enhance Sharpness (3 # 2) f1 = Returns f2 ->
      enhance Brightness (6 # 5) f2 = Returns f3 ->
      apply_enhancements frame = f3)
  /\ (forall e, enhance Contrast (3 # 2) frame = Raises e ->
      apply_enhancements frame = frame)
  /\ (forall f1 e,
      enhance Contrast (3 # 2) frame = Returns f1 ->
      enhance Sharpness (3 # 2) f1 = Raises e ->
      apply_enhancements frame = f1)
  /\ (forall f1 f2 e,
      enhance Contrast (3 # 2) frame = Returns f1 ->
      enhance Sharpness (3 # 2) f1 = Returns f2 ->
      enhance Brightness (6 # 5) f2 = Raises e ->
      apply_enhancements frame = f2).
Proof.
  unfold apply_enhancements. repeat split.
  - intros f1 f2 f3 -> -> ->. reflexivity.
  - intros e ->. reflexivity.
  - intros f1 e -> ->. reflexivity.
  - intros f1 f2 e -> -> ->. reflexivity.
Qed.


(** C5 (as amended). The checks run in the order: source exists,
    source is not empty, output directory (created when missing) takes
    a probe file, source opens as an image, at least one frame was
    saved.  Each failure has its own error: FileNotFoundError,
    ValueError "Image file is empty: ...", PermissionError "Cannot
    write to output directory: ...", ValueError "Invalid image file:
    ..." with the decoder's message, and ValueError "Invalid image
    file: No frames could be extracted from the image"; an error of
    the directory creation propagates as it is.  No frame is processed
    before the first three checks have passed, and the call succeeds
    exactly when at least one frame was saved. *)
Theorem extract_outcome_by_case (w : World) (image_path output_dir : string) :
  let run := extract_frames_from_image w image_path output_dir in
  (FS.exists_ (w_fs w) image_path = false ->
     run = (w, Raises (MkExc FileNotFoundError
                         ("Image file not found: " ++ image_path)%string)))
  /\ (FS.exists_ (w_fs w) image_path = true ->
      FS.getsize (w_fs w) image_path = Returns 0 ->
      run = (w, Raises (MkExc ValueError
                          ("Image file is empty: " ++ image_path)%string)))
  /\ (forall n fs1,
      FS.exists_ (w_fs w) image_path = true ->
      FS.getsize (w_fs w) image_path = Returns (S n) ->
      (forall e, ensure_output_dir (w_fs w) output_dir = (fs1, Raises e) ->
         run = (MkWorld fs1 (w_drawn w), Raises e))
      /\ (ensure_output_dir (w_fs w) output_dir = (fs1, Returns tt) ->
          (forall fs2 perm_err,
              probe_writable fs1 output_dir = (fs2, Raises perm_err) ->
              run = (MkWorld fs2 (w_drawn w),
                     Raises (MkExc PermissionError
                               ("Cannot write to output directory: "
                                  ++ exc_str perm_err)%string)))
          /\ (forall fs2,
              probe_writable fs1 output_dir = (fs2, Returns tt) ->
              (forall img_err,
                  image_open fs2 image_path = Raises img_err ->
                  run = (MkWorld fs2 (w_drawn w),
                         Raises (MkExc ValueError
                                   ("Invalid image file: "
                                      ++ exc_str img_err)%string)))
              /\ (forall img,
                  image_open fs2 image_path = Returns img ->
                  let st := fold_left
                              (process_frame output_dir (n_frames_or_1 img))
                              (range (n_frames_or_1 img))
                              (MkLoop (MkWorld fs2 (w_drawn w)) img []) in
                  (l_paths st = [] ->
                   run = (l_world st,
                          Raises (MkExc ValueError
                            "Invalid image file: No frames could be extracted from the image")))
                  /\ (l_paths st <> [] ->
                      run = (l_world st, Returns (l_paths st)))))))
  /\ (forall perm_err img_err,
      List.NoDup [ MkExc FileNotFoundError
                ("Image file not found: " ++ image_path)%string;
              MkExc ValueError ("Image file is empty: " ++ image_path)%string;
              MkExc PermissionError
                ("Cannot write to output directory: " ++ perm_err)%string;
              MkExc ValueError ("Invalid image file: " ++ img_err)%string ]).
Proof.
  cbv zeta. unfold extract_frames_from_image.
  split; [intros ->; reflexivity|].
  split; [intros -> ->; reflexivity|].
  split.
  { intros n fs1 -> ->. cbn [negb Nat.eqb].
    split; [intros e ->; reflexivity|].
    intros ->. unfold probe_and_extract. cbn [w_fs w_drawn].
    split; [intros fs2 perm_err ->; reflexivity|].
    intros fs2 ->. unfold open_and_process. cbn [w_fs w_drawn].
    split; [intros img_err ->; reflexivity|].
    intros img ->.
    destruct (l_paths (fold_left _ _ _)) as [|q qs] eqn:E; simpl.
    - split; [reflexivity|congruence].
    - split; [discriminate|reflexivity]. }
  intros perm_err img_err.
  repeat constructor; simpl; intros Hin;
    repeat match goal with
           | H : _ \/ _ |- _ => destruct H
           | H : False |- _ => destruct H
           | H : MkExc _ _ = MkExc _ _ |- _ => simpl in H; discriminate H
           end.
Qed.


End ExtractorClaims.

(** * The claims on concrete inputs *)

Section Instances.
Import Sym.

Local Open Scope list_scope.

(** A path on which the per-frame call raises keeps its place. *)
Lemma perform_ocr_on_frames_one_record_per_path_witness :
  let double := table [("a", "hello"); ("b", "No text detected")] in
  nth_error ["a"; "b"; "c"] 2 = Some "c"
  /\ returned (double "c") = false
  /\ exists real synthetic,
       perform_ocr_on_frames_with double ["a"; "b"; "c"] = real ++ synthetic
       /\ map frame_number real = [1; 2; 3]
       /\ map frame_path real = ["a"; "b"; "c"]
       /\ nth_error real 2
          = Some (MkRec 3 "c"
                    "Error: OCR processing failed. Please try a different image.").
Proof.
  cbv zeta. do 2 (split; [reflexivity|]).
  destruct (perform_ocr_on_frames_one_record_per_path
              (table [("a", "hello"); ("b", "No text detected")])
              ["a"; "b"; "c"])
    as (real & syn & E & _ & Hnum & Hpath & _ & Hraise & _).
  exists real, syn. split; [exact E|]. split; [exact Hnum|].
  split; [exact Hpath|].
  apply (Hraise 2 "c" (MkExc RuntimeError "unexpected")); reflexivity.
Defined.

Lemma perform_ocr_on_frames_never_raises_witness :
  let double := table [("a", "hello"); ("b", "No text detected")] in
  nth_error ["a"; "b"; "c"] 2 = Some "c"
  /\ double "c" = Raises (MkExc RuntimeError "unexpected")
  /\ (exists r,
        nth_error (perform_ocr_on_frames_with double ["a"; "b"; "c"]) 2 = Some r
        /\ frame_number r = 3 /\ frame_path r = "c"
        /\ is_error_text (text r))
  /\ guarded (Raises (MkExc RuntimeError "fatal")) ["a"; "b"; "c"]
     = [MkRec 1 "a"
          "Error: OCR processing failed. Please try a different image."].
Proof.
  cbv zeta. do 2 (split; [reflexivity|]).
  destruct (perform_ocr_on_frames_never_raises
              (table [("a", "hello"); ("b", "No text detected")])
              ["a"; "b"; "c"]) as (_ & Hframe & Hfatal).
  split.
  - apply (Hframe 2 "c" (MkExc RuntimeError "unexpected")); reflexivity.
  - apply (Hfatal (MkExc RuntimeError "fatal")).
Defined.

Lemma perform_ocr_on_frame_never_empty_witness :
  @perform_ocr_on_frame Img still (engine read_tie) fs0 "/tmp/in.png" <> ""
  /\ forall r,
       In r (@perform_ocr_on_frames Img still (engine read_tie) fs0
               ["/tmp/in.png"; "/tmp/gone.jpg"]) ->
       text r <> "".
Proof.
  destruct (@perform_ocr_on_frame_never_empty Img still (engine read_tie)
              fs0 "/tmp/in.png") as (Hne & _ & _ & Hbatch).
  split; [exact Hne|]. intros r. apply Hbatch.
Defined.

Lemma aggregation_reports_longest_run_witness :
  let double := table [("f1", "AB"); ("f2", "C123 extra"); ("f3", "nothing")] in
  double "f1" = Returns "AB"
  /\ double "f2" = Returns "C123 extra"
  /\ double "f3" = Returns "nothing"
  /\ perform_ocr_on_frames_with double ["f1"; "f2"; "f3"]
     = [ MkRec 1 "f1" "AB"; MkRec 2 "f2" "C123 extra"; MkRec 3 "f3" "nothing";
         MkRec 4 "combined_analysis"
           "Combined analysis: Found text pattern 'nothing'" ].
Proof.
  cbv zeta. do 3 (split; [reflexivity|]).
  apply (aggregation_reports_longest_run
           (table [("f1", "AB"); ("f2", "C123 extra"); ("f3", "nothing")])
           "f1" "f2" "f3"); reflexivity.
Defined.

(** The texts of the example do not give the pattern 'C123': read as
    written the third text is a success and its run 'nothing' is the
    longest; read as the sentinel "No text detected" the scanned text
    is "AB C123 extra" and the longest run is 'extra'. *)
Lemma aggregation_example_is_not_C123 :
  let claimed := "Combined analysis: Found text pattern 'C123'" in
  let written := perform_ocr_on_frames_with
      (table [("f1", "AB"); ("f2", "C123 extra"); ("f3", "nothing")])
      ["f1"; "f2"; "f3"] in
  let sentinel := perform_ocr_on_frames_with
      (table [("f1", "AB"); ("f2", "C123 extra"); ("f3", "No text detected")])
      ["f1"; "f2"; "f3"] in
  map text (firstn 3 written) = ["AB"; "C123 extra"; "nothing"]
  /\ map text (skipn 3 written)
     = ["Combined analysis: Found text pattern 'nothing'"]
  /\ map text (skipn 3 written) <> [claimed]
  /\ Re.findall "AB C123 extra" = ["C123"; "extra"]
  /\ map text (skipn 3 sentinel)
     = ["Combined analysis: Found text pattern 'extra'"]
  /\ map text (skipn 3 sentinel) <> [claimed].
Proof.
  cbv zeta. repeat split; try reflexivity; vm_compute; discriminate.
Qed.

Lemma no_success_no_combined_record_witness :
  let double := table [("a", "No text detected");
                       ("b", "Error: Frame file not found")] in
  (forall r, In r (ocr_results (frames_loop double ["a"; "b"; "c"])) ->
     text r = "No text detected" \/ is_error_text (text r))
  /\ perform_ocr_on_frames_with double ["a"; "b"; "c"]
     = [ MkRec 1 "a" "No text detected";
         MkRec 2 "b" "Error: Frame file not found";
         MkRec 3 "c"
           "Error: OCR processing failed. Please try a different image." ].
Proof.
  cbv zeta.
  assert (H : forall r,
             In r (ocr_results
                     (frames_loop
                        (table [("a", "No text detected");
                                ("b", "Error: Frame file not found")])
                        ["a"; "b"; "c"])) ->
             text r = "No text detected" \/ is_error_text (text r)).
  { intros r [<-|[<-|[<-|[]]]]; [left|right|right]; reflexivity. }
  split; [exact H|].
  rewrite (proj1 (no_success_no_combined_record _ _ H)). reflexivity.
Defined.

Lemma perform_ocr_on_frame_selects_longest_witness :
  let T := engine read_tie in
  let c := MkContainer "PNG" None (Raster "RGB" "IMG0") [] 0 in
  @check_tesseract Img T = true
  /\ FS.exists_ fs0 "/tmp/in.png" = true
  /\ FS.getsize fs0 "/tmp/in.png" = Returns 4
  /\ @image_open Img still fs0 "/tmp/in.png" = Returns c
  /\ map (@run_call Img T) (@attempt_calls Img still (current c))
     = [Returns ""; Returns "ab"; Returns "ab"]
  /\ @perform_ocr_on_frame Img still T fs0 "/tmp/in.png" = "ab"
  /\ exists i, i < 3
       /\ @perform_ocr_on_frame Img still T fs0 "/tmp/in.png"
          = nth i [Py.strip ""; Py.strip "ab"; Py.strip "ab"] ""
       /\ (forall j, j < i ->
             Py.len (nth j [Py.strip ""; Py.strip "ab"; Py.strip "ab"] "")
             < Py.len (@perform_ocr_on_frame Img still T fs0 "/tmp/in.png")).
Proof.
  cbv zeta. do 6 (split; [reflexivity|]).
  destruct (@perform_ocr_on_frame_selects_longest Img still (engine read_tie)
              fs0 "/tmp/in.png"
              (MkContainer "PNG" None (Raster "RGB" "IMG0") [] 0)
              "" "ab" "ab" eq_refl eq_refl
              (ex_intro _ 3 eq_refl) eq_refl eq_refl) as [_ Hsome].
  destruct Hsome as (i & Hi & Hres & _ & _ & Hearlier).
  { apply Exists_cons_tl, Exists_cons_hd. discriminate. }
  exists i. auto.
Defined.

(** With answers of equal length that differ, the earlier one is
    returned. *)
Lemma selection_tie_keeps_earlier :
  choose_best (attempt_result (Returns "")
               ++ attempt_result (Returns " ab ")
               ++ attempt_result (Returns "cd")) = "ab".
Proof. reflexivity. Qed.

Lemma precondition_failure_is_error_text_witness :
  (@check_tesseract Img no_engine = false
   \/ FS.exists_ fs0 "/tmp/in.png" = false
   \/ FS.getsize fs0 "/tmp/in.png" = Returns 0)
  /\ fst (@perform_ocr_on_frame_traced Img still no_engine fs0 "/tmp/in.png")
     = []
  /\ @perform_ocr_on_frame Img still no_engine fs0 "/tmp/in.png"
     = "Error: Tesseract OCR is not available".
Proof.
  split; [left; reflexivity|].
  destruct (@precondition_failure_is_error_text Img still no_engine fs0
              "/tmp/in.png" (or_introl eq_refl)) as (Htrace & _ & _).
  split; [exact Htrace|reflexivity].
Defined.

(** A missing and an empty frame file give the other two sentinels. *)
Lemma frame_file_sentinels :
  @perform_ocr_on_frame Img still (engine read_tie) fs0 "/tmp/gone.jpg"
  = "Error: Frame file not found"
  /\ @perform_ocr_on_frame Img still (engine read_tie) fs0 "/tmp/empty.png"
     = "Error: Frame file is empty"
  /\ @perform_ocr_on_frame Img still (engine read_tie) fs0 "/tmp/bad.png"
     = "Error: Invalid image file: cannot identify image file".
Proof. repeat split. Qed.

(** C8. A frame on which the contrast pass succeeds and the sharpness
    pass raises is not saved in its pre-enhancement state: the
    extractor goes on, as it should, but with the contrast-enhanced
    frame, and that is what the saved file holds. *)
Theorem failed_pass_keeps_earlier_passes :
  let frame := Raster "RGB" "IMG0" in
  @enhance Img blunt Contrast (3 # 2) frame
  = Returns (Enhanced Contrast (3 # 2) frame)
  /\ returned (@enhance Img blunt Sharpness (3 # 2)
                 (Enhanced Contrast (3 # 2) frame)) = false
  /\ @apply_enhancements Img blunt frame = Enhanced Contrast (3 # 2) frame
  /\ @apply_enhancements Img blunt frame <> frame
  /\ (let run := @extract_frames_from_image Img blunt uuid w0
                   "/tmp/in.png" "/tmp/out" in
      snd run = Returns ["/tmp/out/frame_0_u0.jpg"]
      /\ FS.read (w_fs (fst run)) "/tmp/out/frame_0_u0.jpg"
         = Returns "JFIF:contrast[3/2](IMG0)"
      /\ @encode_jpeg Img blunt 95 frame = Returns "JFIF:IMG0").
Proof.
  cbv zeta. repeat split; try reflexivity; try discriminate.
Qed.

(** When no pass fails the saved frame went through contrast,
    sharpness and brightness, in this order. *)
Lemma passes_in_order :
  @apply_enhancements Img still (Raster "RGB" "IMG0")
  = Enhanced Brightness (6 # 5)
      (Enhanced Sharpness (3 # 2)
         (Enhanced Contrast (3 # 2) (Raster "RGB" "IMG0"))).
Proof. reflexivity. Qed.

(** The source exists, is not empty, the output directory takes the
    probe file, and the source does not open as an image: none of the
    four conditions holds, and the call fails. *)
Lemma invalid_image_is_a_fifth_failure :
  FS.exists_ fs0 "/tmp/bad.png" = true
  /\ FS.getsize fs0 "/tmp/bad.png" = Returns 7
  /\ snd (probe_writable fs0 "/tmp") = Returns tt
  /\ returned (@image_open Img still fs0 "/tmp/bad.png") = false
  /\ snd (@extract_frames_from_image Img still uuid w0 "/tmp/bad.png" "/tmp")
     = Raises (MkExc ValueError
                 "Invalid image file: cannot identify image file")
  /\ returned (snd (@extract_frames_from_image Img still uuid w0
                      "/tmp/bad.png" "/tmp")) = false.
Proof. repeat split. Qed.

Lemma extract_outcome_by_case_witness :
  snd (@extract_frames_from_image Img still uuid w0 "/tmp/gone.png" "/tmp")
  = Raises (MkExc FileNotFoundError "Image file not found: /tmp/gone.png")
  /\ snd (@extract_frames_from_image Img still uuid w0 "/tmp/empty.png" "/tmp")
     = Raises (MkExc ValueError "Image file is empty: /tmp/empty.png")
  /\ snd (@extract_frames_from_image Img still uuid w0 "/tmp/in.png" "/ro")
     = Raises (MkExc PermissionError
                 "Cannot write to output directory: [Errno 13] Permission denied: '/ro/.write_test'")
  /\ snd (@extract_frames_from_image Img still uuid w0 "/tmp/bad.png" "/tmp")
     = Raises (MkExc ValueError
                 "Invalid image file: cannot identify image file")
  /\ snd (@extract_frames_from_image Img still uuid w0 "/tmp/in.png" "/tmp")
     = Returns ["/tmp/frame_0_u0.jpg"].
Proof.
  split.
  { rewrite (proj1 (@extract_outcome_by_case Img still uuid w0
                      "/tmp/gone.png" "/tmp") eq_refl). reflexivity. }
  split.
  { rewrite (proj1 (proj2 (@extract_outcome_by_case Img still uuid w0
                             "/tmp/empty.png" "/tmp")) eq_refl eq_refl).
    reflexivity. }
  split.
  { destruct (@extract_outcome_by_case Img still uuid w0 "/tmp/in.png" "/ro")
      as (_ & _ & H & _).
    destruct (H 3 fs0 eq_refl eq_refl) as [_ Hdir].
    destruct (Hdir eq_refl) as [Hprobe _].
    rewrite (Hprobe fs0 (FS.eacces "/ro/.write_test") eq_refl). reflexivity. }
  split.
  { destruct (@extract_outcome_by_case Img still uuid w0 "/tmp/bad.png" "/tmp")
      as (_ & _ & H & _).
    destruct (H 6 fs0 eq_refl eq_refl) as [_ Hdir].
    destruct (Hdir eq_refl) as [_ Hprobe].
    destruct (Hprobe (fst (probe_writable fs0 "/tmp")) eq_refl) as [Hbad _].
    rewrite (Hbad (MkExc OSError "cannot identify image file") eq_refl).
    reflexivity. }
  destruct (@extract_outcome_by_case Img still uuid w0 "/tmp/in.png" "/tmp")
    as (_ & _ & H & _).
  destruct (H 3 fs0 eq_refl eq_refl) as [_ Hdir].
  destruct (Hdir eq_refl) as [_ Hprobe].
  destruct (Hprobe (fst (probe_writable fs0 "/tmp")) eq_refl) as [_ Hopen].
  destruct (Hopen (MkContainer "PNG" None (Raster "RGB" "IMG0") [] 0) eq_refl)
    as [_ Hsaved].
  match type of Hsaved with
  | ?A -> _ => assert (Hne : A) by (vm_compute; discriminate)
  end.
  rewrite (Hsaved Hne). vm_compute. reflexivity.
Defined.



End Instances.

(** * Further properties of the recognition engine *)

Section EngineExtras.
Context {Image : Type} `{!Codec Image} `{!Tesseract Image}.
Variable fs : gmap string FS.Node.

Local Open Scope list_scope.

Lemma attempt_result_candidate (o : outcome string) :
  attempt_result o = kept (candidate o).
Proof. destruct o; reflexivity. Qed.

Ltac pick_candidate i :=
  exists i; unfold Py.len; simpl; repeat split; try lia; try congruence;
  intros j Hj; repeat (destruct j as [|j]; simpl; try lia).

Lemma choose_best_three (c1 c2 c3 : string) :
  let cands := [c1; c2; c3] in
  let result := choose_best (kept c1 ++ kept c2 ++ kept c3) in
  (Forall (fun s => s = "") cands -> result = no_text_detected)
  /\ (Exists (fun s => s <> "") cands ->
      exists i, i < 3
        /\ result = nth i cands "" /\ result <> ""
        /\ (forall j, j < 3 -> Py.len (nth j cands "") <= Py.len result)
        /\ (forall j, j < i -> Py.len (nth j cands "") < Py.len result)).
Proof.
  cbv zeta. unfold kept.
  destruct c1 as [|a1 s1], c2 as [|a2 s2], c3 as [|a3 s3];
    cbn [Py.truthy app choose_best Py.max_by_len Py.max_len_from Py.len
         String.length];
    (split;
     [ intros HF;
       repeat match goal with
              | H : Forall _ (_ :: _) |- _ => inversion H; subst; clear H
              end; try discriminate; try reflexivity
     | intros HE ]).
  - exfalso.
    repeat match goal with
           | H : Exists _ (_ :: _) |- _ => inversion H; subst; clear H
           | H : Exists _ [] |- _ => inversion H
           end; congruence.
  - pick_candidate 2.
  - pick_candidate 1.
  - destruct (Nat.ltb_spec (S (String.length s2)) (S (String.length s3))).
    + pick_candidate 2.
    + pick_candidate 1.
  - pick_candidate 0.
  - destruct (Nat.ltb_spec (S (String.length s1)) (S (String.length s3))).
    + pick_candidate 2.
    + pick_candidate 0.
  - destruct (Nat.ltb_spec (S (String.length s1)) (S (String.length s2))).
    + pick_candidate 1.
    + pick_candidate 0.
  - destruct (Nat.ltb_spec (S (String.length s1)) (S (String.length s2)));
      cbn [Py.len String.length].
    + destruct (Nat.ltb_spec (S (String.length s2)) (S (String.length s3))).
      * pick_candidate 2.
      * pick_candidate 1.
    + destruct (Nat.ltb_spec (S (String.length s1)) (S (String.length s3))).
      * pick_candidate 2.
      * pick_candidate 0.
Qed.

(** X1. Whatever the three recognition calls do, return or raise: an
    attempt that raises, or whose trimmed answer is empty, is left
    out; the result is "No text detected" when nothing is left, and
    otherwise the longest of the trimmed answers left, the earliest
    among the longest. *)
Theorem failing_attempts_are_left_out
    (frame_path : string) (c : Container Image) (o1 o2 o3 : outcome string)
    (Hprobe : check_tesseract = true)
    (Hexists : FS.exists_ fs frame_path = true)
    (Hsize : exists n, FS.getsize fs frame_path = Returns (S n))
    (Hopen : image_open fs frame_path = Returns c)
    (Hattempts : map run_call (attempt_calls (current c)) = [o1; o2; o3]) :
  let cands := [candidate o1; candidate o2; candidate o3] in
  let result := perform_ocr_on_frame fs frame_path in
  (Forall (fun s => s = "") cands -> result = "No text detected")
  /\ (Exists (fun s => s <> "") cands ->
      exists i, i < 3
        /\ result = nth i cands "" /\ result <> ""
        /\ (forall j, j < 3 -> Py.len (nth j cands "") <= Py.len result)
        /\ (forall j, j < i -> Py.len (nth j cands "") < Py.len result)).
Proof.
  destruct Hsize as [n Hsize].
  unfold perform_ocr_on_frame, perform_ocr_on_frame_traced.
  rewrite Hprobe, Hexists, Hsize, Hopen. cbn [negb Nat.eqb snd].
  unfold attempt_results. simpl in Hattempts.
  injection Hattempts as E1 E2 E3.
  cbn [attempt_calls flat_map]. rewrite E1, E2, E3.
  rewrite !attempt_result_candidate, app_nil_r.
  apply choose_best_three.
Qed.

(** X2. A frame file that exists, is not empty and does not open as
    an image gives the text "Error: Invalid image file: " followed by
    the message of the decoder, and no recognition call is made. *)
Theorem undecodable_frame_is_error_text (frame_path : string) (e : exc)
    (Hprobe : check_tesseract = true)
    (Hexists : FS.exists_ fs frame_path = true)
    (Hsize : exists n, FS.getsize fs frame_path = Returns (S n))
    (Hopen : image_open fs frame_path = Raises e) :
  perform_ocr_on_frame_traced fs frame_path
  = ([], ("Error: Invalid image file: " ++ exc_str e)%string)
  /\ is_error_text (perform_ocr_on_frame fs frame_path)
  /\ forall paths i,
       nth_error paths i = Some frame_path ->
       nth_error (perform_ocr_on_frames fs paths) i
       = Some (MkRec (i + 1) frame_path
                 ("Error: Invalid image file: " ++ exc_str e)%string).
Proof.
  destruct Hsize as [n Hsize].
  assert (E : perform_ocr_on_frame_traced fs frame_path
              = ([], ("Error: Invalid image file: " ++ exc_str e)%string)).
  { unfold perform_ocr_on_frame_traced.
    now rewrite Hprobe, Hexists, Hsize, Hopen. }
  split; [exact E|]. unfold perform_ocr_on_frame. rewrite E.
  split; [reflexivity|].
  intros paths i Hi. unfold perform_ocr_on_frames.
  rewrite batch_decomposition, nth_error_app1.
  - rewrite (real_record_nth _ _ _ _ Hi). unfold real_record. simpl.
    unfold perform_ocr_on_frame. now rewrite E.
  - rewrite length_map, enumerate_length. apply nth_error_Some.
    now rewrite Hi.
Qed.

(** X3. [enhance_image_for_ocr] returns the image converted to
    grayscale, contrast 2.0, sharpness 2.0 and blurred with radius
    0.5, in this order, when every step succeeds.  When a step fails
    it returns the image it was given if the mode is neither RGBA nor
    P; for these two modes it returns the RGB conversion made first,
    not the image it was given, unless that conversion is the step
    that failed. *)
Theorem enhance_image_for_ocr_cases (img : Image) :
  let palette := String.eqb (mode img) "RGBA" || String.eqb (mode img) "P" in
  (palette = false ->
     (forall b, grayscale_pipeline img b -> enhance_image_for_ocr img = b)
     /\ ((forall b, ~ grayscale_pipeline img b) ->
         enhance_image_for_ocr img = img))
  /\ (palette = true ->
      (forall e, convert "RGB" img = Raises e ->
         enhance_image_for_ocr img = img)
      /\ (forall rgb, convert "RGB" img = Returns rgb ->
          (forall b, grayscale_pipeline rgb b -> enhance_image_for_ocr img = b)
          /\ ((forall b, ~ grayscale_pipeline rgb b) ->
              enhance_image_for_ocr img = rgb))).
Proof.
  cbv zeta.
  assert (G : forall i : Image,
             let out :=
               match convert "L" i with
               | Raises _ => i
               | Returns gray_img =>
                   match enhance Contrast 2 gray_img with
                   | Raises _ => i
                   | Returns contrast_img =>
                       match enhance Sharpness 2 contrast_img with
                       | Raises _ => i
                       | Returns sharp_img =>
                           match gaussian_blur (1 # 2) sharp_img with
                           | Raises _ => i
                           | Returns blur_img => blur_img
                           end
                       end
                   end
               end in
             (forall b, grayscale_pipeline i b -> out = b)
             /\ ((forall b, ~ grayscale_pipeline i b) -> out = i)).
  { intros i. cbv zeta. unfold grayscale_pipeline. split.
    - intros b (g & c & s & -> & -> & -> & ->). reflexivity.
    - intros Hno.
      destruct (convert "L" i) as [g|] eqn:E1; [|reflexivity].
      destruct (enhance Contrast 2 g) as [c|] eqn:E2; [|reflexivity].
      destruct (enhance Sharpness 2 c) as [s|] eqn:E3; [|reflexivity].
      destruct (gaussian_blur (1 # 2) s) as [b|] eqn:E4; [|reflexivity].
      exfalso. apply (Hno b). exists g, c, s. auto. }
  unfold enhance_image_for_ocr. split.
  - intros Hp. apply orb_false_iff in Hp as [-> ->]. apply G.
  - intros Hp.
    assert (E : (if String.eqb (mode img) "RGBA" then convert "RGB" img
                 else if String.eqb (mode img) "P" then convert "RGB" img
                 else Returns img) = convert "RGB" img).
    { apply orb_true_iff in Hp as [-> | ->]; [reflexivity|].
      now destruct (String.eqb (mode img) "RGBA"). }
    rewrite E. split.
    + intros e ->. reflexivity.
    + intros rgb ->. apply G.
Qed.

End EngineExtras.

(** * The scan for runs of letters and digits *)

Section ScanFacts.

Local Open Scope list_scope.

Lemma string_app_cons (c : ascii) (a b : string) :
  (String c a ++ b)%string = String c (a ++ b)%string.
Proof. reflexivity. Qed.

Lemma string_app_nil_l (a : string) : ("" ++ a)%string = a.
Proof. reflexivity. Qed.

Lemma string_app_nil_r (a : string) : (a ++ "")%string = a.
Proof.
  induction a as [|c a IH]; [reflexivity|].
  now rewrite string_app_cons, IH.
Qed.

Lemma all_alnum_app (a b : string) :
  all_alnum (a ++ b)%string = all_alnum a && all_alnum b.
Proof.
  induction a as [|c a IH]; [reflexivity|].
  rewrite string_app_cons. simpl. rewrite IH. now rewrite andb_assoc.
Qed.

Lemma span_alnum_split (s : string) :
  s = (fst (Re.span_alnum s) ++ snd (Re.span_alnum s))%string
  /\ all_alnum (fst (Re.span_alnum s)) = true.
Proof.
  induction s as [|c s [IH1 IH2]]; simpl; [auto|].
  destruct (Re.is_alnum c) eqn:Hc; [|auto].
  destruct (Re.span_alnum s) as [run rest]. simpl in *.
  rewrite string_app_cons, <- IH1, Hc. auto.
Qed.

(** The greedy match over a concatenation. *)
Lemma span_alnum_app (a t : string) :
  Re.span_alnum (a ++ t)%string
  = match snd (Re.span_alnum a) with
    | EmptyString =>
        ((fst (Re.span_alnum a) ++ fst (Re.span_alnum t))%string,
         snd (Re.span_alnum t))
    | rest => (fst (Re.span_alnum a), (rest ++ t)%string)
    end.
Proof.
  induction a as [|c a IH].
  - rewrite string_app_nil_l. simpl. rewrite string_app_nil_l.
    now destruct (Re.span_alnum t).
  - rewrite string_app_cons. simpl. rewrite IH.
    destruct (Re.is_alnum c); [|reflexivity].
    destruct (Re.span_alnum a) as [run rest]. simpl.
    destruct rest; reflexivity.
Qed.

Lemma span_alnum_whole (w : string) :
  all_alnum w = true -> Re.span_alnum w = (w, "").
Proof.
  induction w as [|c w IH]; simpl; [reflexivity|].
  intros H. apply andb_true_iff in H as [-> Hw]. now rewrite (IH Hw).
Qed.

(** Every match is a run of at least three letters or digits of the
    scanned text. *)
Lemma findall_fuel_sound (fuel : nat) (s w : string) :
  In w (Re.findall_fuel fuel s) ->
  all_alnum w = true /\ 3 <= String.length w
  /\ exists a b, s = (a ++ w ++ b)%string.
Proof.
  revert s. induction fuel as [|fuel IH]; intros s; [simpl; tauto|].
  destruct s as [|c s]; [simpl; tauto|]. cbn [Re.findall_fuel].
  destruct (span_alnum_split (String c s)) as [Hs Hal].
  destruct (Re.span_alnum (String c s)) as [run rest] eqn:E.
  cbn [fst snd] in Hs, Hal.
  destruct (3 <=? Py.len run) eqn:Hlen.
  - apply Nat.leb_le in Hlen. intros [<-|Hin].
    + split; [exact Hal|]. split; [exact Hlen|].
      exists "", rest. exact Hs.
    + destruct (IH _ Hin) as (H1 & H2 & a & b & ->).
      split; [exact H1|]. split; [exact H2|].
      exists (run ++ a)%string, b. rewrite Hs. now rewrite string_app_assoc.
  - intros Hin. destruct (IH _ Hin) as (H1 & H2 & a & b & ->).
    split; [exact H1|]. split; [exact H2|].
    exists (String c a), b. reflexivity.
Qed.

(** A run of [n >= 3] letters or digits is covered by a match of at
    least that length. *)
Lemma findall_fuel_complete (fuel : nat) (a w b : string) :
  String.length (a ++ w ++ b)%string < fuel ->
  all_alnum w = true -> 3 <= String.length w ->
  exists m, In m (Re.findall_fuel fuel (a ++ w ++ b)%string)
            /\ String.length w <= String.length m.
Proof.
  intros Hfuel Hw Hn. revert a Hfuel.
  induction fuel as [|fuel IH]; intros a Hfuel; [lia|].
  assert (Hhead : Re.span_alnum (w ++ b)%string
                  = ((w ++ fst (Re.span_alnum b))%string,
                     snd (Re.span_alnum b))).
  { rewrite span_alnum_app, (span_alnum_whole w Hw). reflexivity. }
  destruct (a ++ w ++ b)%string as [|c s] eqn:Es.
  { destruct a, w; simpl in *; try discriminate; lia. }
  cbn [Re.findall_fuel].
  pose proof (span_alnum_length (String c s)) as Hlen.
  destruct (Re.span_alnum (String c s)) as [run rest] eqn:E.
  cbn [fst snd] in Hlen. cbn [String.length] in Hfuel, Hlen.
  rewrite <- Es in E. rewrite span_alnum_app, Hhead in E. cbn [fst snd] in E.
  destruct (Re.span_alnum a) as [ra rest_a] eqn:Ea. cbn [fst snd] in E.
  destruct rest_a as [|x rest_a].
  - (* the run reaches over [a] and [w] *)
    injection E as <- <-.
    assert (L : String.length w
                <= String.length (ra ++ w ++ fst (Re.span_alnum b))%string).
    { rewrite !string_length_app. lia. }
    unfold Py.len. rewrite (proj2 (Nat.leb_le _ _) (Nat.le_trans _ _ _ Hn L)).
    eexists. split; [now left|exact L].
  - injection E as <- <-.
    destruct (3 <=? Py.len ra) eqn:H3.
    + unfold Py.len in H3. apply Nat.leb_le in H3.
      destruct (IH (String x rest_a)) as (m & Hm & Lm).
      { rewrite string_app_cons. cbn [String.length].
        rewrite string_app_cons in Hlen. cbn [String.length] in Hlen. lia. }
      exists m. split; [now right|exact Lm].
    + destruct a as [|c' a']; [simpl in Ea; discriminate|].
      rewrite string_app_cons in Es. injection Es as -> <-.
      destruct (IH a') as (m & Hm & Lm); [lia|].
      exists m. auto.
Qed.

End ScanFacts.

Section JoinFacts.

Local Open Scope list_scope.
Local Arguments String.append : simpl nomatch.

Lemma alnum_prefix_of_word (w b x y : string) :
  all_alnum w = true ->
  (w ++ b)%string = (x ++ " " ++ y)%string ->
  exists b', x = (w ++ b')%string.
Proof.
  revert x. induction w as [|d w IH]; intros x Hw E.
  - exists x. reflexivity.
  - simpl in Hw. apply andb_true_iff in Hw as [Hd Hw].
    destruct x as [|c x]; simpl in E.
    + injection E as -> _. discriminate.
    + injection E as -> E.
      destruct (IH x Hw E) as [b' ->]. exists b'. reflexivity.
Qed.

(** A run inside two texts joined by a space lies in one of them. *)
Lemma run_in_joined_pair (x y a w b : string) :
  all_alnum w = true -> w <> "" ->
  (x ++ " " ++ y)%string = (a ++ w ++ b)%string ->
  (exists b', x = (a ++ w ++ b')%string)
  \/ (exists a', y = (a' ++ w ++ b)%string).
Proof.
  intros Hw Hne. revert a. induction x as [|c x IH]; intros a E.
  - destruct a as [|c a]; simpl in E.
    + destruct w as [|d w]; [congruence|].
      simpl in E. injection E as <- _. simpl in Hw. discriminate.
    + injection E as _ ->. right. exists a. reflexivity.
  - destruct a as [|c' a]; simpl in E.
    + left. symmetry in E.
      destruct (alnum_prefix_of_word w b (String c x) y Hw E) as [b' ->].
      exists b'. reflexivity.
    + injection E as <- E.
      destruct (IH a E) as [[b' ->]|[a' ->]].
      * left. exists b'. reflexivity.
      * right. exists a'. reflexivity.
Qed.

Lemma text_in_join (texts : list string) (t : string) :
  In t texts -> exists a b, Py.join " " texts = (a ++ t ++ b)%string.
Proof.
  induction texts as [|x rest IH]; [intros []|].
  intros [<-|Hin].
  - destruct rest as [|y rest].
    + exists "", "". simpl. now rewrite string_app_nil_r.
    + exists "", (" " ++ Py.join " " (y :: rest))%string. reflexivity.
  - destruct (IH Hin) as (a & b & E).
    destruct rest as [|y rest]; [destruct Hin|].
    exists (x ++ " " ++ a)%string, b.
    change (Py.join " " (x :: y :: rest))
      with (x ++ " " ++ Py.join " " (y :: rest))%string.
    rewrite E. now rewrite !string_app_assoc.
Qed.

Lemma run_in_join (texts : list string) (a w b : string) :
  all_alnum w = true -> w <> "" ->
  Py.join " " texts = (a ++ w ++ b)%string ->
  exists t a' b', In t texts /\ t = (a' ++ w ++ b')%string.
Proof.
  intros Hw Hne. revert a. induction texts as [|x rest IH]; intros a E.
  - destruct a, w; simpl in E; congruence.
  - destruct rest as [|y rest].
    + exists x, a, b. split; [now left|exact E].
    + change (Py.join " " (x :: y :: rest))
        with (x ++ " " ++ Py.join " " (y :: rest))%string in E.
      destruct (run_in_joined_pair _ _ _ _ _ Hw Hne E) as [[b' ->]|[a' E']].
      * exists (a ++ w ++ b')%string, a, b'. split; [now left|reflexivity].
      * destruct (IH a' E') as (t & a2 & b2 & Hin & Ht).
        exists t, a2, b2. split; [now right|exact Ht].
Qed.

Lemma alnum_take (n : nat) (w : string) :
  all_alnum w = true -> n <= String.length w ->
  exists w1 w2, w = (w1 ++ w2)%string
                /\ String.length w1 = n /\ all_alnum w1 = true.
Proof.
  revert w. induction n as [|n IH]; intros w Hw Hn.
  - exists "", w. auto.
  - destruct w as [|c w]; [simpl in Hn; lia|].
    simpl in Hw, Hn. apply andb_true_iff in Hw as [Hc Hw].
    destruct (IH w Hw) as (w1 & w2 & -> & L & A); [lia|].
    exists (String c w1), w2. simpl. rewrite Hc, A, L. auto.
Qed.

Lemma has_run_of_longer (n : nat) (s a w b : string) :
  s = (a ++ w ++ b)%string -> all_alnum w = true -> n <= String.length w ->
  has_run n s.
Proof.
  intros -> Hw Hn. destruct (alnum_take n w Hw Hn) as (w1 & w2 & -> & L & A).
  exists a, w1, (w2 ++ b)%string. rewrite string_app_assoc. auto.
Qed.

Lemma max_by_len_bound (items : list string) (m : string) :
  Py.max_by_len items = Some m ->
  In m items /\ forall x, In x items -> Py.len x <= Py.len m.
Proof.
  destruct items as [|x rest]; [discriminate|]. intros [= <-].
  split; [apply max_len_from_in|].
  destruct (max_len_from_first_longest x rest) as (pre & post & E & Hpre & Hpost).
  intros y Hy. rewrite E in Hy. apply in_app_or in Hy as [Hy|[<-|Hy]].
  - specialize (Hpre y Hy). lia.
  - lia.
  - now apply Hpost.
Qed.

End JoinFacts.

(** * Further properties of the batch *)

Section BatchExtras.
Variable recognize_one : string -> outcome string.

Local Open Scope list_scope.

Lemma frame_step_counters (st : Tally) (it : nat * string) :
  let r := real_record recognize_one it in
  let st' := frame_step recognize_one st it in
  error_count st' = error_count st + (if is_error_rec r then 1 else 0)
  /\ empty_count st' = empty_count st + (if is_empty_rec r then 1 else 0)
  /\ (if is_error_rec r then 1 else 0) + (if is_empty_rec r then 1 else 0)
     + (if is_success r then 1 else 0) = 1.
Proof.
  destruct it as [idx p].
  unfold frame_step, real_record, is_error_rec, is_empty_rec, is_success,
    classify. simpl.
  destruct (recognize_one p) as [t|e]; simpl.
  - destruct (Py.startswith err_prefix t); simpl; [lia|].
    destruct (negb (Py.truthy t) || String.eqb t no_text_detected); simpl; lia.
  - lia.
Qed.

Lemma fold_counters (items : list (nat * string)) (st : Tally) :
  let recs := map (real_record recognize_one) items in
  let st' := fold_left (frame_step recognize_one) items st in
  error_count st' = error_count st + length (List.filter is_error_rec recs)
  /\ empty_count st' = empty_count st + length (List.filter is_empty_rec recs)
  /\ length (List.filter is_error_rec recs)
     + length (List.filter is_empty_rec recs)
     + length (List.filter is_success recs) = length items.
Proof.
  cbv zeta. revert st. induction items as [|it items IH]; intros st; simpl.
  - lia.
  - destruct (IH (frame_step recognize_one st it)) as (He & Hm & Hsum).
    destruct (frame_step_counters st it) as (He1 & Hm1 & Hone).
    cbv zeta in He1, Hm1, Hone. rewrite He, Hm, He1, Hm1.
    destruct (is_error_rec (real_record recognize_one it)),
             (is_empty_rec (real_record recognize_one it)),
             (is_success (real_record recognize_one it));
      simpl in *; lia.
Qed.

(** X4. The three counters of the batch loop count the records of
    each class (error, empty, success), every record falls in exactly
    one class, and so the counters add up to the number of paths. *)
Theorem counters_partition_the_records (paths : list string) :
  let st := frames_loop recognize_one paths in
  error_count st = length (List.filter is_error_rec (ocr_results st))
  /\ empty_count st = length (List.filter is_empty_rec (ocr_results st))
  /\ success_count st = length (List.filter is_success (ocr_results st))
  /\ error_count st + empty_count st + success_count st = length paths.
Proof.
  cbv zeta. rewrite loop_success, loop_results. unfold frames_loop.
  destruct (fold_counters (Py.enumerate paths) (MkTally [] 0 0 0))
    as (He & Hm & Hsum).
  cbv zeta in He, Hm, Hsum. simpl in He, Hm.
  rewrite enumerate_length in Hsum. rewrite He, Hm. auto.
Qed.

Lemma success_is_analysed (r : Rec) :
  is_success r = true <-> analysed r = true /\ text r <> "".
Proof.
  unfold is_success, classify, analysed.
  destruct (Py.startswith err_prefix (text r)); simpl.
  - split; [discriminate|intros [? _]; discriminate].
  - destruct (Py.truthy (text r)) eqn:T;
      destruct (String.eqb (text r) no_text_detected) eqn:Q; simpl.
    + split; [discriminate|intros [? _]; discriminate].
    + apply truthy_nonempty in T. split; auto.
    + split; [discriminate|intros [? _]; discriminate].
    + split; [discriminate|]. intros [_ Hne].
      apply truthy_nonempty in Hne. congruence.
Qed.

Lemma combined_record_iff (paths : list string) (st : Tally) :
  success_count st = length (List.filter is_success (ocr_results st)) ->
  combined_record paths st <> []
  <-> exists r, In r (ocr_results st)
                /\ is_success r = true /\ has_run 4 (text r).
Proof.
  intros Hcount. split.
  - intros Hne.
    destruct (combined_record_first_longest paths st)
      as [E|(run & pre & post & _ & Hfind & _ & _ & H4 & _)]; [congruence|].
    assert (Hin : In run (Re.findall
               (Py.join " " (map text (List.filter analysed (ocr_results st)))))).
    { rewrite Hfind. apply in_or_app. right. now left. }
    apply findall_fuel_sound in Hin as (Hal & _ & a & b & Hjoin).
    assert (Hrun : run <> "").
    { intros ->. unfold Py.len in H4. simpl in H4. lia. }
    destruct (run_in_join _ _ _ _ Hal Hrun Hjoin) as (t & a' & b' & Ht & Et).
    apply in_map_iff in Ht as (r & <- & Hr).
    apply filter_In in Hr as [Hr Han].
    exists r. split; [exact Hr|]. split.
    + apply success_is_analysed. split; [exact Han|].
      intros E0. rewrite E0 in Et. apply (f_equal String.length) in Et.
      rewrite !string_length_app in Et. unfold Py.len in H4.
      simpl in Et. lia.
    + apply (has_run_of_longer 4 _ a' run b' Et Hal H4).
  - intros (r & Hr & Hs & (a & w & b & Et & Lw & Hw)).
    apply success_is_analysed in Hs as Han. destruct Han as [Han _].
    assert (Hpos : 0 < success_count st).
    { rewrite Hcount.
      assert (Hin : In r (List.filter is_success (ocr_results st)))
        by (apply filter_In; auto).
      destruct (List.filter is_success (ocr_results st));
        [destruct Hin|simpl; lia]. }
    assert (Hin : In (text r)
                    (map text (List.filter analysed (ocr_results st)))).
    { apply in_map. apply filter_In. auto. }
    destruct (text_in_join _ _ Hin) as (a0 & b0 & Ej).
    unfold combined_record.
    rewrite (proj2 (Nat.ltb_lt _ _) Hpos).
    set (all_text := Py.join " " (map text (List.filter analysed (ocr_results st))))
      in *.
    assert (Eall : all_text = ((a0 ++ a) ++ w ++ (b ++ b0))%string).
    { rewrite Ej, Et. now rewrite !string_app_assoc. }
    destruct (findall_fuel_complete (S (String.length all_text))
                (a0 ++ a) w (b ++ b0)) as (m & Hm & Lm).
    { rewrite <- Eall. lia. }
    { exact Hw. }
    { lia. }
    rewrite <- Eall in Hm. fold (Re.findall all_text) in Hm.
    destruct (Py.max_by_len (Re.findall all_text)) as [best|] eqn:Eb.
    + destruct (max_by_len_bound _ _ Eb) as [_ Hmax].
      specialize (Hmax m Hm). unfold Py.len in *.
      rewrite (proj2 (Nat.leb_le 4 (String.length best))) by lia.
      discriminate.
    + destruct (Re.findall all_text); [destruct Hm|discriminate].
Qed.

(** X5. The batch appends the synthetic "combined_analysis" record
    exactly when the text of some success record contains four
    consecutive letters or digits; otherwise it returns one record per
    path and nothing else. *)
Theorem combined_record_iff_four_alnum (paths : list string) :
  let out := perform_ocr_on_frames_with recognize_one paths in
  let found := exists r, In r (ocr_results (frames_loop recognize_one paths))
                         /\ is_success r = true /\ has_run 4 (text r) in
  (found <-> length out = length paths + 1)
  /\ (~ found <-> length out = length paths).
Proof.
  cbv zeta. rewrite batch_decomposition, length_app, length_map,
    enumerate_length.
  pose proof (combined_record_iff paths (frames_loop recognize_one paths)
                (loop_success recognize_one paths)) as Hiff.
  destruct paths as [|p ps].
  - simpl. split; split; try lia.
    + intros (r & [] & _).
    + intros _ (r & [] & _).
  - destruct (combined_record_shape (p :: ps)
                (frames_loop recognize_one (p :: ps))) as [E|(run & _ & E)];
      rewrite E in *; simpl length.
    + split; split; try lia.
      * intros H. apply Hiff in H. congruence.
      * intros _ H. apply Hiff in H. congruence.
    + assert (Hf : exists r, In r (ocr_results
                                    (frames_loop recognize_one (p :: ps)))
                           /\ is_success r = true /\ has_run 4 (text r)).
      { apply Hiff. discriminate. }
      split; split; try lia; tauto.
Qed.

Lemma no_success_no_synthetic (paths : list string) :
  (forall r, In r (ocr_results (frames_loop recognize_one paths)) ->
     is_success r = false) ->
  perform_ocr_on_frames_with recognize_one paths
  = map (real_record recognize_one) (Py.enumerate paths).
Proof.
  intros Hnone. rewrite batch_decomposition.
  destruct paths as [|p ps]; [now rewrite app_nil_r|].
  unfold combined_record. rewrite loop_success.
  assert (E : List.filter is_success
                (ocr_results (frames_loop recognize_one (p :: ps))) = []).
  { induction (ocr_results (frames_loop recognize_one (p :: ps)))
      as [|r rs IH]; [reflexivity|].
    simpl. rewrite (Hnone r (or_introl eq_refl)).
    apply IH. intros r' Hr'. apply Hnone. now right. }
  rewrite E. simpl. now rewrite app_nil_r.
Qed.

End BatchExtras.

Section PipelineExtras.
Context {Image : Type} `{!Codec Image} `{!Tesseract Image}.

Local Open Scope list_scope.

(** X6. When the engine probe fails, the batch returns for every path,
    in order, the record "Error: Tesseract OCR is not available", and
    no synthetic record, whatever the files are. *)
Theorem engine_unavailable_marks_every_frame
    (fs : gmap string FS.Node) (paths : list string)
    (Hprobe : check_tesseract = false) :
  perform_ocr_on_frames fs paths
  = map (fun it : nat * string =>
           MkRec (fst it + 1) (snd it) "Error: Tesseract OCR is not available")
        (Py.enumerate paths).
Proof.
  assert (E : forall p, perform_ocr_on_frame fs p
                        = "Error: Tesseract OCR is not available").
  { intros p. unfold perform_ocr_on_frame, perform_ocr_on_frame_traced.
    now rewrite Hprobe. }
  unfold perform_ocr_on_frames. rewrite no_success_no_synthetic.
  - apply map_ext. intros [i p]. unfold real_record. simpl. now rewrite E.
  - intros r Hr. rewrite loop_results in Hr.
    apply in_map_iff in Hr as (it & <- & _).
    unfold is_success, real_record. simpl. now rewrite E.
Qed.


Lemma remove_deletes (fs fs' : gmap string FS.Node) (p : string) :
  FSW.remove fs p = Returns fs' ->
  p <> "" /\ fs' = delete (FS.norm p) fs.
Proof.
  unfold FSW.remove. destruct (FS.lookup fs p) as [[wr sz|c]|] eqn:E;
    try discriminate.
  destruct (FSW.check_parent fs p); [|discriminate].
  intros [= <-]. split; [|reflexivity].
  intros ->. discriminate.
Qed.


End PipelineExtras.

(** * Further properties of the frame extractor *)

Section FrameNames.
Context `{!Uuid}.

Local Open Scope list_scope.
Local Arguments String.append : simpl nomatch.

Lemma string_app_inv_head (a x y : string) :
  (a ++ x)%string = (a ++ y)%string -> x = y.
Proof.
  induction a as [|c a IH]; simpl; [auto|]. intros [= E]. auto.
Qed.

Lemma string_of_uint_digits (d : Decimal.uint) :
  all_digits (NilEmpty.string_of_uint d) = true.
Proof. induction d; simpl; auto. Qed.

Lemma decimal_digits (n : nat) : all_digits (decimal n) = true.
Proof. apply string_of_uint_digits. Qed.

Lemma decimal_inj (n m : nat) : decimal n = decimal m -> n = m.
Proof.
  unfold decimal. intros E. apply Unsigned.to_uint_inj.
  assert (S : Some (Nat.to_uint n) = Some (Nat.to_uint m)).
  { rewrite <- !NilEmpty.usu. now rewrite E. }
  now injection S.
Qed.

Lemma digits_before_separator (a b x y : string) :
  all_digits a = true -> all_digits b = true ->
  (a ++ "_" ++ x)%string = (b ++ "_" ++ y)%string -> a = b.
Proof.
  revert b. induction a as [|c a IH]; intros b Ha Hb E.
  - destruct b as [|c' b]; [reflexivity|].
    simpl in E, Hb. injection E as <- _. discriminate.
  - destruct b as [|c' b]; simpl in E, Ha.
    + injection E as -> _. discriminate.
    + simpl in Hb. injection E as <- E.
      apply andb_true_iff in Ha as [_ Ha]. apply andb_true_iff in Hb as [_ Hb].
      now rewrite (IH b Ha Hb E).
Qed.

Lemma frame_name_index (i j k l : nat) :
  frame_name i k = frame_name j l -> i = j.
Proof.
  unfold frame_name. intros E. apply string_app_inv_head in E.
  apply decimal_inj.
  apply (digits_before_separator _ _ _ _ (decimal_digits i) (decimal_digits j) E).
Qed.

Lemma join_inj (d n m : string) : FS.join d n = FS.join d m -> n = m.
Proof.
  unfold FS.join. destruct d as [|c d]; [auto|].
  destruct (FS.ends_with_slash (String c d)); intros E.
  - now apply string_app_inv_head in E.
  - apply string_app_inv_head in E. now apply string_app_inv_head in E.
Qed.

Lemma frame_path_norm (d : string) (i k : nat) :
  FS.norm (FS.join d (frame_name i k)) = FS.join d (frame_name i k)
  /\ FS.join d (frame_name i k) <> "".
Proof.
  assert (E : frame_name i k
              = (("frame_" ++ decimal i ++ "_" ++ uuid4_hex k) ++ ".jpg")%string).
  { unfold frame_name. now rewrite !string_app_assoc. }
  destruct (norm_join d (frame_name i k)) as [Hn Hl].
  - rewrite E. intros E0. apply (f_equal String.length) in E0.
    rewrite string_length_app in E0. simpl in E0. lia.
  - rewrite E. apply rstrip_slashes_kept; [discriminate|reflexivity].
  - split; [exact Hn|]. intros E0. rewrite E0 in Hl. simpl in Hl. lia.
Qed.

Lemma frame_path_index (d : string) (i j k l : nat) :
  FS.norm (FS.join d (frame_name i k)) = FS.norm (FS.join d (frame_name j l)) ->
  i = j.
Proof.
  rewrite (proj1 (frame_path_norm d i k)), (proj1 (frame_path_norm d j l)).
  intros E. apply join_inj in E. now apply frame_name_index in E.
Qed.

End FrameNames.

Section LoopFacts.
Context {Image : Type} `{!Codec Image} `{!Uuid}.
Variable output_dir : string.
Variable frames_count : nat.

Local Open Scope list_scope.

Lemma write_file_inserts (fs fs' : gmap string FS.Node) (p c : string) :
  FSW.write_file fs p c = Returns fs' ->
  p <> "" /\ fs' = <[FS.norm p := FS.File c]> fs.
Proof.
  unfold FSW.write_file.
  destruct (String.eqb_spec p "") as [->|Hne]; [discriminate|].
  assert (G : forall o : outcome (gmap string FS.Node),
             match p with EmptyString => Raises (FS.enoent p) | _ => o end = o).
  { destruct p; [congruence|reflexivity]. }
  rewrite G.
  destruct (FS.lookup fs p) as [[wr sz|c0]|].
  - discriminate.
  - now intros [= <-].
  - destruct (FSW.check_parent fs p); [|discriminate]. now intros [= <-].
Qed.

(** One iteration either leaves the files alone, or writes one file
    named after the frame index into the output directory; a path is
    appended only for a file written with at least one byte. *)
Lemma process_frame_step (st : Loop) (i : nat) :
  let st' := process_frame output_dir frames_count st i in
  let path := FS.join output_dir (frame_name i (w_drawn (l_world st))) in
  (w_fs (l_world st') = w_fs (l_world st) /\ l_paths st' = l_paths st)
  \/ (exists bytes,
        w_fs (l_world st') = <[FS.norm path := FS.File bytes]> (w_fs (l_world st))
        /\ (l_paths st' = l_paths st
            \/ (l_paths st' = l_paths st ++ [path] /\ bytes <> ""))).
Proof.
  cbv zeta. unfold process_frame.
  destruct (if 1 <? frames_count then seek (l_img st) i else Returns (l_img st))
    as [img|]; [|now left].
  cbn [l_world l_paths l_img].
  destruct (copy (current img)) as [frame|]; [|now left].
  destruct (if String.eqb (mode frame) "RGBA" || String.eqb (mode frame) "P"
            then convert "RGB" frame else Returns frame) as [frame'|];
    [|now left].
  fold (frame_name i (w_drawn (l_world st))).
  set (path := FS.join output_dir (frame_name i (w_drawn (l_world st)))).
  destruct (save_jpeg (w_fs (l_world st)) (apply_enhancements frame') path)
    as [fs1|] eqn:Hsave; [|now left].
  unfold save_jpeg in Hsave.
  destruct (FSW.write_file (w_fs (l_world st)) path ""); [|discriminate].
  destruct (encode_jpeg 95 (apply_enhancements frame')) as [bytes|];
    [|discriminate].
  apply write_file_inserts in Hsave as [Hp ->].
  right. exists bytes.
  destruct (saved_ok _ path) as [[|]|] eqn:Hok; cbn [l_world l_paths w_fs];
    (split; [reflexivity|]); [right|now left|now left].
  split; [reflexivity|].
  unfold saved_ok, FS.exists_, FS.getsize in Hok.
  rewrite (lookup_insert_same _ _ _ Hp) in Hok. simpl in Hok.
  injection Hok as Hok. intros ->. discriminate.
Qed.

Lemma sorted_snoc (l : list nat) (x : nat) :
  StronglySorted lt l -> Forall (fun y => y < x) l ->
  StronglySorted lt (l ++ [x]).
Proof.
  induction 1 as [|y l Hl IH Hy]; intros Hx; simpl.
  - repeat constructor.
  - inversion Hx as [|? ? Hyx Hlx]; subst. constructor; [now apply IH|].
    apply List.Forall_app. split; [exact Hy|]. now constructor.
Qed.

Lemma loop_invariant_step (fs0 : gmap string FS.Node) (st : Loop) (i : nat) :
  loop_invariant output_dir fs0 i st ->
  loop_invariant output_dir fs0 (S i) (process_frame output_dir frames_count st i).
Proof.
  intros (js & Hpaths & Hsorted & Hlt & Hfiles & Hout).
  assert (Hlt' : Forall (fun jk : nat * nat => fst jk < S i) js).
  { eapply List.Forall_impl; [|exact Hlt]. simpl. intros; lia. }
  destruct (process_frame_step st i) as [[Efs Ep]|(bytes & Efs & Hp)];
    cbv zeta in *.
  - exists js. rewrite Efs, Ep. auto.
  - set (path := FS.join output_dir (frame_name i (w_drawn (l_world st)))) in *.
    destruct (frame_path_norm output_dir i (w_drawn (l_world st)))
      as [Hnorm Hne]. fold path in Hnorm, Hne.
    assert (Hkeep : Forall (nonempty_file
                              (w_fs (l_world
                                 (process_frame output_dir frames_count st i))))
                           (l_paths st)).
    { rewrite Efs, Hpaths. apply List.Forall_forall. intros p Hin.
      apply in_map_iff in Hin as (jk & <- & Hjk).
      rewrite Hpaths in Hfiles.
      rewrite List.Forall_forall in Hfiles, Hlt.
      destruct (Hfiles _ (in_map _ _ _ Hjk)) as (c & Hc & Hl).
      exists c. split; [exact Hc|].
      rewrite (lookup_after_insert _ _ _ _ Hne).
      rewrite bool_decide_eq_false_2; [exact Hl|].
      intros [_ E]. apply frame_path_index in E.
      specialize (Hlt _ Hjk). simpl in Hlt. lia. }
    assert (Hout' : forall q node, FS.lookup fs0 q = Some node ->
              (forall name, FS.norm q <> FS.norm (FS.join output_dir name)) ->
              FS.lookup (w_fs (l_world
                           (process_frame output_dir frames_count st i))) q
              = Some node).
    { intros q node Hq Hnot. rewrite Efs.
      rewrite (lookup_after_insert _ _ _ _ Hne).
      rewrite bool_decide_eq_false_2; [now apply Hout|].
      intros [_ E]. exact (Hnot _ E). }
    destruct Hp as [Ep|[Ep Hbytes]].
    + exists js. rewrite Ep. auto.
    + exists (js ++ [(i, w_drawn (l_world st))]).
      rewrite Ep, Hpaths, !map_app. simpl.
      split; [reflexivity|]. split.
      { apply sorted_snoc; [exact Hsorted|].
        apply List.Forall_forall. intros y Hy.
        apply in_map_iff in Hy as (jk & <- & Hjk).
        rewrite List.Forall_forall in Hlt. exact (Hlt _ Hjk). }
      split.
      { apply List.Forall_app. split; [exact Hlt'|]. repeat constructor. }
      split; [|exact Hout'].
      rewrite <- Hpaths. apply List.Forall_app. split; [exact Hkeep|].
      constructor; [|constructor].
      exists bytes. split; [exact Hbytes|].
      rewrite Efs. now apply lookup_insert_same.
Qed.

Lemma loop_invariant_fold (fs0 : gmap string FS.Node) (n a : nat) (st : Loop) :
  loop_invariant output_dir fs0 a st ->
  loop_invariant output_dir fs0 (a + n)
    (fold_left (process_frame output_dir frames_count) (seq a n) st).
Proof.
  revert a st. induction n as [|n IH]; intros a st Hinv; simpl.
  - now rewrite Nat.add_0_r.
  - replace (a + S n) with (S a + n) by lia.
    apply IH. now apply loop_invariant_step.
Qed.

End LoopFacts.

Section ExtractorExtras.
Context {Image : Type} `{!Codec Image} `{!Uuid}.

Local Open Scope list_scope.

Lemma mkdir_chain_keeps (ds : list string) (fs fs' : gmap string FS.Node)
    (o : outcome unit) :
  FSW.mkdir_chain fs ds = (fs', o) ->
  forall p m, FS.lookup fs p = Some m -> FS.lookup fs' p = Some m.
Proof.
  revert fs. induction ds as [|d ds IH]; intros fs; simpl.
  - now intros [= <- _].
  - destruct (FS.lookup fs d) as [[wr sz|c]|] eqn:Hd.
    + apply IH.
    + now intros [= <- _].
    + destruct (FSW.mkdir fs d) as [fs1|e] eqn:Hmk; [|now intros [= <- _]].
      intros Hch p m Hp. apply (IH _ Hch).
      destruct (mkdir_creates _ _ _ Hmk) as (_ & _ & Hkeep). now apply Hkeep.
Qed.

Lemma ensure_output_dir_keeps (fs fs' : gmap string FS.Node) (d : string)
    (o : outcome unit) :
  ensure_output_dir fs d = (fs', o) ->
  forall p m, FS.lookup fs p = Some m -> FS.lookup fs' p = Some m.
Proof.
  unfold ensure_output_dir, FSW.makedirs.
  destruct (negb (FS.exists_ fs d)).
  - apply mkdir_chain_keeps.
  - now intros [= <- _].
Qed.

Lemma lookup_after_delete (fs : gmap string FS.Node) (d p : string) :
  FS.lookup (delete (FS.norm d) fs) p
  = if bool_decide (FS.norm p = FS.norm d) then None else FS.lookup fs p.
Proof.
  unfold FS.lookup. destruct p as [|c p].
  - now case_bool_decide.
  - case_bool_decide as E.
    + rewrite E. apply lookup_delete_eq.
    + apply lookup_delete_ne. congruence.
Qed.

(** X8. The write probe touches nothing but its marker file
    ".write_test" in the output directory: every other entry is as
    before, whether the probe succeeds or fails; after a successful
    probe the marker does not exist, and if it did not exist before,
    the file system is exactly as it was. *)
Theorem probe_leaves_no_trace
    (fs fs' : gmap string FS.Node) (output_dir : string) (o : outcome unit)
    (Hprobe : probe_writable fs output_dir = (fs', o)) :
  let marker := FS.join output_dir ".write_test" in
  (forall q, FS.norm q <> FS.norm marker -> FS.lookup fs' q = FS.lookup fs q)
  /\ (o = Returns tt -> FS.lookup fs' marker = None)
  /\ (o = Returns tt -> FS.lookup fs marker = None -> fs' = fs).
Proof.
  cbv zeta. unfold probe_writable in Hprobe.
  set (marker := FS.join output_dir ".write_test") in *.
  destruct (FSW.write_file fs marker "test") as [fs1|e] eqn:Hw.
  - apply write_file_inserts in Hw as [Hne ->].
    destruct (FSW.remove _ marker) as [fs2|e] eqn:Hr.
    + apply remove_deletes in Hr as [_ ->]. injection Hprobe as <- <-.
      split; [|split].
      * intros q Hq. rewrite lookup_after_delete.
        rewrite bool_decide_eq_false_2 by exact Hq.
        rewrite (lookup_after_insert _ _ _ _ Hne).
        rewrite bool_decide_eq_false_2; [reflexivity|]. now intros [_ ?].
      * intros _. rewrite lookup_after_delete.
        now rewrite bool_decide_eq_true_2.
      * intros _ Hfree. rewrite delete_insert_eq. apply delete_id.
        unfold FS.lookup in Hfree. destruct marker; [congruence|exact Hfree].
    + injection Hprobe as <- <-. split; [|split]; try discriminate.
      intros q Hq. rewrite (lookup_after_insert _ _ _ _ Hne).
      rewrite bool_decide_eq_false_2; [reflexivity|]. now intros [_ ?].
  - injection Hprobe as <- <-. split; [|split]; try discriminate. auto.
Qed.

Lemma probe_keeps_outside
    (fs fs' : gmap string FS.Node) (output_dir : string) (o : outcome unit) :
  probe_writable fs output_dir = (fs', o) ->
  forall q, (forall name, FS.norm q <> FS.norm (FS.join output_dir name)) ->
            FS.lookup fs' q = FS.lookup fs q.
Proof.
  unfold probe_writable.
  set (marker := FS.join output_dir ".write_test").
  intros Hpr q Hq. specialize (Hq ".write_test"). fold marker in Hq.
  destruct (FSW.write_file fs marker "test") as [fs1|e] eqn:Hw.
  - apply write_file_inserts in Hw as [Hne ->].
    assert (E1 : FS.lookup (<[FS.norm marker:=FS.File "test"]> fs) q
                 = FS.lookup fs q).
    { rewrite (lookup_after_insert _ _ _ _ Hne).
      rewrite bool_decide_eq_false_2; [reflexivity|]. now intros [_ ?]. }
    destruct (FSW.remove _ marker) as [fs2|e] eqn:Hr.
    + apply remove_deletes in Hr as [_ ->]. injection Hpr as <- _.
      rewrite lookup_after_delete.
      now rewrite bool_decide_eq_false_2 by exact Hq.
    + injection Hpr as <- _. exact E1.
  - now injection Hpr as <- _.
Qed.

Lemma initial_invariant (fs0 fs2 : gmap string FS.Node) (output_dir : string)
    (drawn : nat) (img : Container Image) :
  (forall q node, FS.lookup fs0 q = Some node ->
     (forall name, FS.norm q <> FS.norm (FS.join output_dir name)) ->
     FS.lookup fs2 q = Some node) ->
  loop_invariant output_dir fs0 0 (MkLoop (MkWorld fs2 drawn) img []).
Proof.
  intros Hout. exists []. simpl. repeat split; try constructor. exact Hout.
Qed.

(** What a run that reaches the frame loop looks like. *)
Lemma extract_reaches_loop (w w' : World) (image_path output_dir : string)
    (paths : list string) :
  extract_frames_from_image w image_path output_dir = (w', Returns paths) ->
  exists fs1 fs2 img,
    ensure_output_dir (w_fs w) output_dir = (fs1, Returns tt)
    /\ probe_writable fs1 output_dir = (fs2, Returns tt)
    /\ image_open fs2 image_path = Returns img
    /\ paths <> []
    /\ let st := fold_left (process_frame output_dir (n_frames_or_1 img))
                   (range (n_frames_or_1 img))
                   (MkLoop (MkWorld fs2 (w_drawn w)) img []) in
       paths = l_paths st /\ w' = l_world st.
Proof.
  unfold extract_frames_from_image.
  destruct (negb (FS.exists_ (w_fs w) image_path)); [discriminate|].
  destruct (FS.getsize (w_fs w) image_path) as [sz|]; [|discriminate].
  destruct (sz =? 0); [discriminate|].
  destruct (ensure_output_dir (w_fs w) output_dir) as [fs1 o1] eqn:Hdir.
  destruct o1 as [[]|]; [|discriminate].
  unfold probe_and_extract. cbn [w_fs w_drawn].
  destruct (probe_writable fs1 output_dir) as [fs2 o2] eqn:Hprobe.
  destruct o2 as [[]|]; [|discriminate].
  unfold open_and_process. cbn [w_fs w_drawn].
  destruct (image_open fs2 image_path) as [img|] eqn:Hopen; [|discriminate].
  destruct (0 <? length (l_paths _)) eqn:Hlen; [|discriminate].
  cbn [as_invalid_image]. intros [= <- <-].
  exists fs1, fs2, img. do 3 (split; [first [reflexivity|assumption]|]).
  split; [|split; reflexivity].
  apply Nat.ltb_lt in Hlen. intros E. rewrite E in Hlen.
  simpl in Hlen. lia.
Qed.

Lemma extract_final_invariant (w w' : World) (image_path output_dir : string)
    (paths : list string) :
  extract_frames_from_image w image_path output_dir = (w', Returns paths) ->
  exists fs2 img,
    image_open fs2 image_path = Returns img
    /\ paths <> []
    /\ exists st : @Loop Image, paths = l_paths st /\ w' = l_world st
         /\ loop_invariant output_dir (w_fs w) (n_frames_or_1 img) st.
Proof.
  intros Hrun.
  destruct (extract_reaches_loop _ _ _ _ _ Hrun)
    as (fs1 & fs2 & img & Hdir & Hprobe & Hopen & Hne & Hp & Hw).
  exists fs2, img. split; [exact Hopen|]. split; [exact Hne|].
  eexists. split; [exact Hp|]. split; [exact Hw|].
  apply (loop_invariant_fold output_dir (n_frames_or_1 img) (w_fs w)
           (n_frames_or_1 img) 0).
  apply initial_invariant. intros q node Hq Hout.
  rewrite (probe_keeps_outside _ _ _ _ Hprobe q Hout).
  apply (ensure_output_dir_keeps _ _ _ _ Hdir). exact Hq.
Qed.

Lemma sorted_nodup (l : list nat) : StronglySorted lt l -> List.NoDup l.
Proof.
  induction 1 as [|x l Hl IH Hx]; constructor; [|exact IH].
  intros Hin. rewrite List.Forall_forall in Hx. specialize (Hx _ Hin). lia.
Qed.


Lemma nodup_map_by {A B C : Type} (f : A -> B) (g : A -> C) (l : list A) :
  (forall x y, f x = f y -> g x = g y) ->
  List.NoDup (map g l) -> List.NoDup (map f l).
Proof.
  intros Hfg. induction l as [|x l IH]; simpl; [constructor|].
  intros Hnd. inversion Hnd as [|? ? Hx Hl]; subst.
  constructor; [|now apply IH].
  intros Hin. apply in_map_iff in Hin as (y & E & Hy).
  apply Hx. apply in_map_iff. exists y. split; [|exact Hy].
  symmetry. apply Hfg. now symmetry.
Qed.

(** X9. When the extraction succeeds, every returned path names a
    regular file with at least one byte in the file system the call
    leaves behind; the file lies directly in the output directory
    under a name frame_<index>_<identifier>.jpg; and the returned
    paths are pairwise distinct. *)
Theorem extracted_frames_are_saved_files
    (w w' : World) (image_path output_dir : string) (paths : list string)
    (Hrun : extract_frames_from_image w image_path output_dir
            = (w', Returns paths)) :
  Forall (nonempty_file (w_fs w')) paths
  /\ Forall (fun p => exists frame_idx drawn,
                 p = FS.join output_dir (frame_name frame_idx drawn)) paths
  /\ List.NoDup paths.
Proof.
  destruct (extract_final_invariant _ _ _ _ _ Hrun)
    as (fs2 & img & _ & _ & st & -> & -> & js & Hp & Hsorted & _ & Hfiles & _).
  split; [exact Hfiles|]. rewrite Hp. split.
  - apply List.Forall_forall. intros p Hin.
    apply in_map_iff in Hin as ([j k] & <- & _). exists j, k. reflexivity.
  - apply (nodup_map_by _ fst).
    + intros [j k] [j' k'] E. simpl in *.
      apply join_inj in E. now apply frame_name_index in E.
    + now apply sorted_nodup.
Qed.



End ExtractorExtras.

(** * Properties of the upload filter *)

Section AllowedFile.
Import PyStr App.

Local Open Scope list_scope.
Local Arguments String.append : simpl nomatch.

Lemma lower_char_dot (c : ascii) :
  Ascii.eqb (lower_char c) dot = Ascii.eqb c dot.
Proof. destruct c as [[] [] [] [] [] [] [] []]; reflexivity. Qed.

Lemma lower_char_idem (c : ascii) : lower_char (lower_char c) = lower_char c.
Proof. destruct c as [[] [] [] [] [] [] [] []]; reflexivity. Qed.

Lemma lower_idem (s : string) : lower (lower s) = lower s.
Proof.
  induction s as [|c s IH]; simpl; [reflexivity|].
  now rewrite lower_char_idem, IH.
Qed.

Lemma contains_lower (s : string) : contains dot (lower s) = contains dot s.
Proof.
  induction s as [|c s IH]; simpl; [reflexivity|].
  now rewrite lower_char_dot, IH.
Qed.

Lemma rsplit_last_lower (s : string) :
  rsplit_last dot (lower s)
  = match rsplit_last dot s with
    | Some (a, b) => Some (lower a, lower b)
    | None => None
    end.
Proof.
  induction s as [|c s IH]; simpl; [reflexivity|].
  rewrite IH, lower_char_dot.
  destruct (rsplit_last dot s) as [[a b]|]; [reflexivity|].
  now destruct (Ascii.eqb c dot).
Qed.

Lemma rsplit_last_none (s : string) :
  contains dot s = false <-> rsplit_last dot s = None.
Proof.
  induction s as [|c s IH]; simpl; [tauto|].
  destruct (rsplit_last dot s) as [[a b]|].
  - split; [|discriminate]. intros H. apply orb_false_iff in H as [_ H].
    apply IH in H. discriminate.
  - destruct (Ascii.eqb c dot); simpl; [split; discriminate|].
    split; [reflexivity|]. intros _. now apply IH.
Qed.

Lemma rsplit_last_app (base ext : string) :
  contains dot ext = false ->
  rsplit_last dot (base ++ "." ++ ext) = Some (base, ext).
Proof.
  intros Hext. apply rsplit_last_none in Hext.
  induction base as [|c base IH]; simpl in *.
  - now rewrite Hext.
  - now rewrite IH.
Qed.

Lemma contains_app_dot (base ext : string) :
  contains dot (base ++ "." ++ ext) = true.
Proof.
  induction base as [|c base IH]; simpl in *; [reflexivity|].
  rewrite IH. apply orb_true_r.
Qed.

Lemma allowed_file_eq (name : string) :
  allowed_file name
  = Returns (match rsplit_last dot name with
             | Some (_, ext) =>
                 existsb (String.eqb (lower ext)) ALLOWED_EXTENSIONS
             | None => false
             end).
Proof.
  unfold allowed_file, rsplit1, index.
  destruct (contains dot name) eqn:Hdot.
  - destruct (rsplit_last dot name) as [[a b]|] eqn:E; [reflexivity|].
    apply rsplit_last_none in E. congruence.
  - apply rsplit_last_none in Hdot. now rewrite Hdot.
Qed.

(** X12. [allowed_file] never raises; it rejects a name without a
    dot; and for a name with a dot only the text after the last dot
    counts: the name is accepted exactly when that text, in lower
    case, is gif, jpg, jpeg, png or avif. *)
Theorem allowed_file_checks_last_extension :
  (forall name, returned (allowed_file name) = true)
  /\ (forall name, contains dot name = false ->
        allowed_file name = Returns false)
  /\ (forall base ext, contains dot ext = false ->
        allowed_file (base ++ "." ++ ext)
        = Returns (existsb (String.eqb (lower ext))
                     ["gif"; "jpg"; "jpeg"; "png"; "avif"])).
Proof.
  split; [|split].
  - intros name. now rewrite allowed_file_eq.
  - intros name H. unfold allowed_file. now rewrite H.
  - intros base ext H. rewrite allowed_file_eq.
    now rewrite (rsplit_last_app base ext H).
Qed.

(** X13. [allowed_file] does not depend on the case of the letters:
    two names with the same lower-case form get the same answer. *)
Theorem allowed_file_ignores_case (a b : string)
    (Hcase : lower a = lower b) :
  allowed_file a = allowed_file b.
Proof.
  assert (G : forall s, allowed_file s = allowed_file (lower s)).
  { intros s. rewrite !allowed_file_eq, rsplit_last_lower.
    destruct (rsplit_last dot s) as [[x ext]|]; [|reflexivity].
    now rewrite lower_idem. }
  now rewrite (G a), (G b), Hcase.
Qed.

End AllowedFile.

(** * Properties of the diagnostics *)

Section DiagnosticsFacts.
Import PyStr Diagnostics.
Context {Image : Type} `{!Tesseract Image}.

Local Open Scope list_scope.

Lemma splitlines_from_nil (cur s : string) :
  splitlines_from cur s = [] <-> cur = "" /\ s = "".
Proof.
  revert cur. induction s as [|c s IH]; intros cur; simpl.
  - destruct cur; split; try tauto; try discriminate.
    intros [? _]. discriminate.
  - destruct (is_linebreak c).
    + split; [discriminate|intros [_ ?]; discriminate].
    + rewrite IH. split; [|intros [_ ?]; discriminate].
      intros [E _]. destruct cur; discriminate.
Qed.

(** [splitlines] finds no line exactly in the empty string: the test
    of [check_tesseract] on the first line of the version output. *)
Lemma splitlines_nil (s : string) : splitlines s = [] <-> s = "".
Proof. unfold splitlines. rewrite splitlines_from_nil. tauto. Qed.

Lemma probe_implies_installed :
  check_tesseract = true -> installed check_tesseract_installation = true.
Proof.
  unfold check_tesseract, check_tesseract_installation.
  destruct run_version as [result|]; [|discriminate].
  destruct (returncode result =? 0)%Z; [|discriminate].
  destruct (Py.truthy (stdout result)); [|discriminate].
  destruct run_list_langs as [lang_result|]; [|discriminate].
  intros _. unfold with_languages.
  destruct (returncode lang_result =? 0)%Z; [|reflexivity].
  now destruct (1 <? length _).
Qed.

(** X14. The probe of the pipeline is the stricter one: whenever
    [check_tesseract] answers True, the diagnostics report the engine
    as installed, with a version line; and the diagnostics report it
    as installed exactly when the version command returned with exit
    code 0, also when the language listing then failed. *)
Theorem pipeline_probe_implies_installed :
  (check_tesseract = true ->
     installed check_tesseract_installation = true
     /\ exists v, version check_tesseract_installation = Some v)
  /\ (installed check_tesseract_installation = true
      <-> exists result, run_version = Returns result
                         /\ returncode result = 0%Z).
Proof.
  unfold check_tesseract, check_tesseract_installation. split.
  - destruct run_version as [result|]; [|discriminate].
    destruct (returncode result =? 0)%Z; [|discriminate].
    destruct (Py.truthy (stdout result)) eqn:Hout; [|discriminate].
    assert (Hv : exists v rest, splitlines (stdout result) = v :: rest).
    { destruct (splitlines (stdout result)) as [|v rest] eqn:E; [|eauto].
      apply splitlines_nil in E. rewrite E in Hout. discriminate. }
    destruct Hv as (v & rest & ->).
    destruct run_list_langs as [lang_result|]; [|discriminate].
    intros _. unfold with_languages. simpl.
    destruct (returncode lang_result =? 0)%Z; [|simpl; eauto].
    destruct (1 <? length _); simpl; eauto.
  - destruct run_version as [result|e].
    + destruct (returncode result =? 0)%Z eqn:Hrc.
      * apply Z.eqb_eq in Hrc. split; [eauto|]. intros _.
        destruct run_list_langs as [lang_result|]; [|reflexivity].
        unfold with_languages.
        destruct (returncode lang_result =? 0)%Z; [|reflexivity].
        now destruct (1 <? length _).
      * apply Z.eqb_neq in Hrc. split; [discriminate|].
        intros (r & [= <-] & Hr). congruence.
    + split; [discriminate|]. intros (r & Hr & _). discriminate.
Qed.

(** X15. The report has no 'error' key exactly when it lists at
    least one language pack; then the engine is reported as
    installed, 'num_languages' is the length of the list,
    'has_english' tells whether "eng" is in it, and no listed name is
    empty. *)
Theorem no_error_iff_languages_found :
  let info := check_tesseract_installation in
  (error info = None
   <-> exists langs, languages info = Some langs /\ langs <> [])
  /\ (error info = None ->
      installed info = true
      /\ exists langs,
           languages info = Some langs
           /\ num_languages info = Some (length langs)
           /\ has_english info = Some (existsb (String.eqb "eng") langs)
           /\ Forall (fun l => l <> "") langs).
Proof.
  cbv zeta. unfold check_tesseract_installation.
  destruct run_version as [result|e].
  2:{ simpl. split; [split; [discriminate|intros (l & ? & _); discriminate]|].
      discriminate. }
  destruct (returncode result =? 0)%Z.
  2:{ simpl. split; [split; [discriminate|intros (l & ? & _); discriminate]|].
      discriminate. }
  destruct run_list_langs as [lang_result|e].
  2:{ simpl. split; [split; [discriminate|intros (l & ? & _); discriminate]|].
      discriminate. }
  unfold with_languages.
  destruct (returncode lang_result =? 0)%Z.
  2:{ simpl. split; [split; [discriminate|intros (l & ? & _); discriminate]|].
      discriminate. }
  set (langs := List.filter Py.truthy
                  (map Py.strip (splitlines (stdout lang_result)))).
  assert (Hne : Forall (fun l => l <> "") langs).
  { apply List.Forall_forall. intros l Hl. apply filter_In in Hl as [_ Hl].
    now apply truthy_nonempty. }
  destruct (1 <? length langs) eqn:Hlen; simpl.
  - apply Nat.ltb_lt in Hlen.
    destruct langs as [|h [|l rest]]; simpl in Hlen; try lia.
    simpl. split.
    + split; [intros _; eexists; split; [reflexivity|discriminate]|reflexivity].
    + intros _. split; [reflexivity|]. eexists. repeat split.
      inversion Hne; assumption.
  - split; [|discriminate].
    split; [discriminate|]. intros (l & [= <-] & Hl). congruence.
Qed.

End DiagnosticsFacts.

Section PermissionFacts.
Import Diagnostics.
Variable os_listdir : string -> outcome (list string).

Local Open Scope list_scope.

(** X16. In the report of [check_file_permissions], 'writable' or
    'readable' implies 'is_dir', which implies 'exists'; a path that
    is no directory leaves the files untouched; the write test only
    touches its marker ".permission_test", and when 'writable' is
    True the marker is gone afterwards. *)
Theorem permission_flags_are_consistent
    (fs : gmap string FS.Node) (directory_path : string) :
  let out := check_file_permissions os_listdir fs directory_path in
  let fs' := fst out in
  let p := snd out in
  let marker := FS.join directory_path ".permission_test" in
  (p_writable p = true -> p_is_dir p = true)
  /\ (p_readable p = true -> p_is_dir p = true)
  /\ (p_is_dir p = true -> p_exists p = true)
  /\ p_exists p = FS.exists_ fs directory_path
  /\ (p_is_dir p = false -> fs' = fs)
  /\ (forall q, FS.norm q <> FS.norm marker ->
        FS.lookup fs' q = FS.lookup fs q)
  /\ (p_writable p = true -> FS.lookup fs' marker = None)
  /\ (p_writable p = false -> p_is_dir p = true -> p_write_error p <> None).
Proof.
  cbv zeta. unfold check_file_permissions.
  destruct (FS.exists_ fs directory_path) eqn:He.
  2:{ cbn [fst snd p_writable p_readable p_is_dir p_exists p_write_error]. repeat split; auto; discriminate. }
  destruct (FSW.is_dir fs directory_path) eqn:Hd.
  2:{ cbn [fst snd p_writable p_readable p_is_dir p_exists p_write_error]. repeat split; auto; discriminate. }
  destruct (os_listdir directory_path) as [names|e].
  - unfold write_test.
    set (marker := FS.join directory_path ".permission_test").
    destruct (FSW.write_file fs marker "test") as [fs1|e] eqn:Hw.
    + apply write_file_inserts in Hw as [Hne ->].
      assert (E1 : forall q, FS.norm q <> FS.norm marker ->
                FS.lookup (<[FS.norm marker:=FS.File "test"]> fs) q
                = FS.lookup fs q).
      { intros q Hq. rewrite (lookup_after_insert _ _ _ _ Hne).
        rewrite bool_decide_eq_false_2; [reflexivity|]. now intros [_ ?]. }
      destruct (FSW.remove _ marker) as [fs2|e] eqn:Hr.
      * apply remove_deletes in Hr as [_ ->]. cbn [fst snd p_writable p_readable p_is_dir p_exists p_write_error].
        repeat split; auto; try discriminate.
        -- intros q Hq. rewrite lookup_after_delete.
           rewrite bool_decide_eq_false_2 by exact Hq. now apply E1.
        -- intros _. rewrite lookup_after_delete.
           now rewrite bool_decide_eq_true_2.
      * cbn [fst snd p_writable p_readable p_is_dir p_exists p_write_error]. repeat split; auto; discriminate.
    + cbn [fst snd p_writable p_readable p_is_dir p_exists p_write_error]. repeat split; auto; discriminate.
  - unfold write_test.
    set (marker := FS.join directory_path ".permission_test").
    destruct (FSW.write_file fs marker "test") as [fs1|e'] eqn:Hw.
    + apply write_file_inserts in Hw as [Hne ->].
      assert (E1 : forall q, FS.norm q <> FS.norm marker ->
                FS.lookup (<[FS.norm marker:=FS.File "test"]> fs) q
                = FS.lookup fs q).
      { intros q Hq. rewrite (lookup_after_insert _ _ _ _ Hne).
        rewrite bool_decide_eq_false_2; [reflexivity|]. now intros [_ ?]. }
      destruct (FSW.remove _ marker) as [fs2|e'] eqn:Hr.
      * apply remove_deletes in Hr as [_ ->]. cbn [fst snd p_writable p_readable p_is_dir p_exists p_write_error].
        repeat split; auto; try discriminate.
        -- intros q Hq. rewrite lookup_after_delete.
           rewrite bool_decide_eq_false_2 by exact Hq. now apply E1.
        -- intros _. rewrite lookup_after_delete.
           now rewrite bool_decide_eq_true_2.
      * cbn [fst snd p_writable p_readable p_is_dir p_exists p_write_error]. repeat split; auto; discriminate.
    + cbn [fst snd p_writable p_readable p_is_dir p_exists p_write_error]. repeat split; auto; discriminate.
Qed.

End PermissionFacts.

(** * Properties of the processing handler *)

Section HandlerFacts.
Import App.
Context {Image : Type} `{!Codec Image} `{!Tesseract Image}.
Variable fs : gmap string FS.Node.

Local Open Scope list_scope.

Lemma capped_ocr_eq (frames_paths : list string) :
  capped_ocr fs frames_paths
  = perform_ocr_on_frames fs (firstn 30 frames_paths) ++ skipped frames_paths.
Proof.
  unfold capped_ocr, skipped.
  destruct (Nat.le_gt_cases (length frames_paths) 30) as [Hle|Hgt].
  - rewrite Nat.min_l by exact Hle. rewrite Nat.ltb_irrefl.
    rewrite firstn_all2 by exact Hle.
    replace (length frames_paths - 30) with 0 by lia.
    simpl. now rewrite app_nil_r.
  - rewrite Nat.min_r by lia.
    now rewrite (proj2 (Nat.ltb_lt _ _) Hgt).
Qed.

Lemma batch_length (paths : list string) :
  length paths <= length (perform_ocr_on_frames fs paths) <= length paths + 1.
Proof.
  unfold perform_ocr_on_frames.
  rewrite batch_decomposition, length_app, length_map, enumerate_length.
  destruct (synthetic_shape (fun p => Returns (perform_ocr_on_frame fs p)) paths)
    as [E|[run E]]; cbv zeta in E; rewrite E; simpl; lia.
Qed.

Lemma capped_ocr_length (frames_paths : list string) :
  length frames_paths <= length (capped_ocr fs frames_paths)
  <= length frames_paths + 1.
Proof.
  rewrite capped_ocr_eq, length_app. unfold skipped.
  rewrite length_map, length_seq.
  pose proof (batch_length (firstn 30 frames_paths)) as L.
  rewrite length_firstn in L. lia.
Qed.

Lemma error_not_empty (t : string) :
  Py.startswith "Error:" t = true ->
  negb (Py.truthy t) || String.eqb t "No text detected" = false.
Proof.
  intros H. destruct t as [|c t]; [discriminate|]. cbn [Py.truthy negb orb].
  apply String.eqb_neq. intros E. rewrite E in H. discriminate.
Qed.

Lemma counts_bounded (l : list Rec) :
  count_errors l + count_empty l <= length l.
Proof.
  unfold count_errors, count_empty.
  induction l as [|r l IH]; simpl; [lia|].
  destruct (Py.startswith "Error:" (text r)) eqn:E.
  - rewrite (error_not_empty _ E). simpl. lia.
  - destruct (negb (Py.truthy (text r)) || String.eqb (text r) "No text detected");
      simpl; lia.
Qed.

Lemma counts_app (a b : list Rec) :
  count_errors (a ++ b) = count_errors a + count_errors b
  /\ count_empty (a ++ b) = count_empty a + count_empty b.
Proof.
  unfold count_errors, count_empty.
  now rewrite !List.filter_app, !length_app.
Qed.

Lemma skipped_counts (frames_paths : list string) :
  count_errors (skipped frames_paths) = 0
  /\ count_empty (skipped frames_paths) = 0
  /\ length (skipped frames_paths) = length frames_paths - 30.
Proof.
  unfold skipped. rewrite length_map, length_seq.
  unfold count_errors, count_empty.
  induction (seq 30 (length frames_paths - 30)) as [|i l IH]; simpl; [auto|].
  tauto.
Qed.

Lemma process_frames_reaches_ocr (cfg : Config) (session : Session)
    (sid : string) (paths : list string) :
  s_session_id session = Some sid ->
  s_frames_paths session = Some paths ->
  paths <> [] ->
  check_tesseract = true ->
  process_frames cfg fs session
  = (fst (summarize session (capped_ocr fs paths)),
     snd (summarize session (capped_ocr fs paths)),
     if DEBUG_MODE cfg && negb (OCR_CHECKED cfg)
     then MkConfig (DEBUG_MODE cfg) true else cfg).
Proof.
  intros Hsid Hpaths Hne Hprobe. unfold process_frames.
  rewrite Hsid, Hpaths, Hprobe, (probe_implies_installed Hprobe).
  destruct paths as [|p ps]; [congruence|].
  cbn [negb]. rewrite andb_false_r.
  now destruct (summarize session (capped_ocr fs (p :: ps))).
Qed.

Lemma summarize_nonempty (session : Session) (l : list Rec) :
  l <> [] ->
  status (fst (summarize session l)) = 200
  /\ success (fst (summarize session l)) = Some true
  /\ results (fst (summarize session l)) = Some l
  /\ snd (summarize session l)
     = MkSession (s_session_id session) (s_original_filename session)
                 (s_file_path session) (s_frames_paths session) (Some l).
Proof.
  intros Hne. unfold summarize.
  destruct l as [|r l]; [congruence|]. cbn [length Nat.eqb].
  destruct (0 <? count_success (r :: l))%Z; [auto|].
  destruct (0 <? count_errors (r :: l)); auto.
Qed.

(** X17. With a session that holds frames and an engine that is
    available, the handler answers 200 with success True; the results
    are the records of the batch for the first 30 frames, followed by
    one "(Frame skipped to improve performance)" record for every
    further frame, numbered by its position; there is one record per
    frame and at most one more; and the same list is stored in the
    session under 'ocr_results', the other keys being kept. *)
Theorem process_frames_caps_at_30
    (cfg : Config) (session : Session) (sid : string) (paths : list string)
    (Hsid : s_session_id session = Some sid)
    (Hpaths : s_frames_paths session = Some paths)
    (Hne : paths <> [])
    (Hprobe : check_tesseract = true) :
  let out := process_frames cfg fs session in
  let expected :=
    perform_ocr_on_frames fs (firstn 30 paths)
    ++ map (fun idx => MkRec (idx + 1) (nth idx paths "")
                         "(Frame skipped to improve performance)")
           (seq 30 (length paths - 30)) in
  status (fst (fst out)) = 200
  /\ success (fst (fst out)) = Some true
  /\ results (fst (fst out)) = Some expected
  /\ snd (fst out)
     = MkSession (s_session_id session) (s_original_filename session)
                 (s_file_path session) (s_frames_paths session) (Some expected)
  /\ length paths <= length expected <= length paths + 1.
Proof.
  cbv zeta.
  rewrite (process_frames_reaches_ocr cfg session sid paths Hsid Hpaths Hne Hprobe).
  cbn [fst snd].
  pose proof (capped_ocr_length paths) as L.
  assert (Hl : capped_ocr fs paths <> []).
  { intros E. rewrite E in L. destruct paths; [congruence|simpl in L; lia]. }
  destruct (summarize_nonempty session _ Hl) as (H1 & H2 & H3 & H4).
  rewrite capped_ocr_eq in *. unfold skipped in *. auto.
Qed.

(** X18. With more than 30 frames every skipped frame is counted as
    a frame with text: the message of the answer is "OCR processing
    complete. Found text in k frames." with k at least the number of
    skipped frames, whatever the engine found in the first 30. *)
Theorem skipped_frames_count_as_text
    (cfg : Config) (session : Session) (sid : string) (paths : list string)
    (Hsid : s_session_id session = Some sid)
    (Hpaths : s_frames_paths session = Some paths)
    (Hmany : 30 < length paths)
    (Hprobe : check_tesseract = true) :
  exists k : Z,
    message (fst (fst (process_frames cfg fs session)))
    = Some ("OCR processing complete. Found text in "
              ++ PyStr.str_int k ++ " frames.")%string
    /\ (Z.of_nat (length paths - 30) <= k)%Z.
Proof.
  assert (Hne : paths <> []) by (intros ->; simpl in Hmany; lia).
  rewrite (process_frames_reaches_ocr cfg session sid paths Hsid Hpaths Hne Hprobe).
  cbn [fst]. exists (count_success (capped_ocr fs paths)).
  assert (Hk : (Z.of_nat (length paths - 30)
                <= count_success (capped_ocr fs paths))%Z).
  { unfold count_success. rewrite capped_ocr_eq, length_app.
    destruct (counts_app (perform_ocr_on_frames fs (firstn 30 paths))
                (skipped paths)) as [-> ->].
    destruct (skipped_counts paths) as (-> & -> & ->).
    pose proof (counts_bounded (perform_ocr_on_frames fs (firstn 30 paths))).
    lia. }
  split; [|exact Hk].
  unfold summarize.
  pose proof (capped_ocr_length paths) as L.
  destruct (length (capped_ocr fs paths) =? 0) eqn:E0.
  { apply Nat.eqb_eq in E0. lia. }
  rewrite (proj2 (Z.ltb_lt 0 _)) by lia. reflexivity.
Qed.

(** X19. With more than 30 frames, when the batch appends its
    synthetic record for the first 30, two records of the answer
    carry the frame number 31: the synthetic one at position 30 and
    the record of the first skipped frame right after it. *)
Theorem frame_number_31_twice
    (cfg : Config) (session : Session) (sid : string) (paths : list string)
    (Hsid : s_session_id session = Some sid)
    (Hpaths : s_frames_paths session = Some paths)
    (Hmany : 30 < length paths)
    (Hprobe : check_tesseract = true)
    (Hsynthetic : length (perform_ocr_on_frames fs (firstn 30 paths)) = 31) :
  exists l t,
    results (fst (fst (process_frames cfg fs session))) = Some l
    /\ nth_error l 30 = Some (MkRec 31 "combined_analysis" t)
    /\ nth_error l 31
       = Some (MkRec 31 (nth 30 paths "")
                 "(Frame skipped to improve performance)").
Proof.
  assert (Hne : paths <> []) by (intros ->; simpl in Hmany; lia).
  rewrite (process_frames_reaches_ocr cfg session sid paths Hsid Hpaths Hne Hprobe).
  cbn [fst].
  pose proof (capped_ocr_length paths) as L.
  assert (Hl : capped_ocr fs paths <> []).
  { intros E. rewrite E in L. simpl in L. lia. }
  destruct (summarize_nonempty session _ Hl) as (_ & _ & H3 & _).
  rewrite H3, capped_ocr_eq.
  assert (Hlen : length (firstn 30 paths) = 30)
    by (rewrite length_firstn; lia).
  revert Hsynthetic. unfold perform_ocr_on_frames.
  rewrite batch_decomposition.
  destruct (synthetic_shape (fun p => Returns (perform_ocr_on_frame fs p))
              (firstn 30 paths)) as [E|[run E]]; cbv zeta in E; rewrite E.
  { rewrite app_nil_r, length_map, enumerate_length, Hlen. discriminate. }
  intros _. rewrite Hlen.
  set (real := map (real_record (fun p => Returns (perform_ocr_on_frame fs p)))
                   (Py.enumerate (firstn 30 paths))).
  assert (Hreal : length real = 30).
  { unfold real. now rewrite length_map, enumerate_length. }
  eexists. eexists. split; [reflexivity|]. split.
  - rewrite <- app_assoc, nth_error_app2 by lia.
    rewrite Hreal. reflexivity.
  - rewrite nth_error_app2 by (rewrite length_app, Hreal; simpl; lia).
    rewrite length_app, Hreal. simpl length.
    unfold skipped.
    destruct (length paths - 30) as [|n] eqn:En; [lia|]. reflexivity.
Qed.

End HandlerFacts.

(** * Properties of the export *)

Section ExportFacts.
Import ExportUtil.
Context `{!Pandas}.

Local Open Scope list_scope.

Lemma clean_item_of_rec (r : Rec) : clean (item_of_rec r) = [row_of_rec r].
Proof. reflexivity. Qed.

Lemma cleaned_results_of_recs (recs : list Rec) :
  cleaned_results (map item_of_rec recs) = map row_of_rec recs.
Proof.
  unfold cleaned_results. induction recs as [|r recs IH]; [reflexivity|].
  simpl map. cbn [flat_map]. rewrite IH, clean_item_of_rec. reflexivity.
Qed.

(** X20. For the records of the pipeline, a successful export writes
    a table with one row per record, in order, with the two columns
    frame_number and text: no record is dropped and the frame path is
    not exported.  The file holds what the writer renders for this
    table, and the function returns True. *)
Theorem export_writes_one_row_per_record
    (fmt : Format) (fs fs1 fs2 : gmap string FS.Node) (recs : list Rec)
    (output_path bytes : string)
    (Hsome : recs <> [])
    (Hdir : FSW.makedirs fs (FS.dirname output_path) = (fs1, Returns tt))
    (Hrender : rendered fmt (sheet_of fmt)
                 (map (fun r => [("frame_number", CInt (frame_number r));
                                 ("text", CStr (text r))]) recs)
               = Returns bytes)
    (Hwrite : FSW.write_file fs1 output_path bytes = Returns fs2) :
  export_to fmt fs (map item_of_rec recs) output_path = (fs2, Returns true)
  /\ FS.read fs2 output_path = Returns bytes.
Proof.
  unfold export_to, export_body. rewrite Hdir.
  assert (Hrows : match map item_of_rec recs with
                  | [] => placeholder_rows
                  | _ :: _ => cleaned_results (map item_of_rec recs)
                  end = map row_of_rec recs).
  { rewrite cleaned_results_of_recs. destruct recs; [congruence|reflexivity]. }
  rewrite Hrows. cbv zeta. unfold write_frame.
  change (map row_of_rec recs)
    with (map (fun r => [("frame_number", CInt (frame_number r));
                         ("text", CStr (text r))]) recs).
  rewrite Hrender, Hwrite. split; [reflexivity|].
  apply write_file_inserts in Hwrite as [Hp ->].
  unfold FS.read. now rewrite (lookup_insert_same _ _ _ Hp).
Qed.

Lemma makedirs_empty (fs : gmap string FS.Node) :
  FSW.makedirs fs "" = (fs, Raises (FS.enoent "")).
Proof. reflexivity. Qed.

(** X21. For an output path without a directory part, such as
    "results.csv", the export never writes the results: creating the
    directory fails first, the file gets the one-cell table "Failed
    to export results: [Errno 2] No such file or directory: ''", and
    the function returns True all the same. *)
Theorem export_without_directory_writes_error_table
    (fmt : Format) (fs fs2 : gmap string FS.Node) (ocr_results : list Item)
    (output_path bytes : string)
    (Hnodir : FS.dirname output_path = "")
    (Hrender : rendered fmt None
                 [[("Error",
                    CStr "Failed to export results: [Errno 2] No such file or directory: ''")]]
               = Returns bytes)
    (Hwrite : FSW.write_file fs output_path bytes = Returns fs2) :
  export_to fmt fs ocr_results output_path = (fs2, Returns true)
  /\ FS.read fs2 output_path = Returns bytes.
Proof.
  unfold export_to, export_body. rewrite Hnodir, makedirs_empty.
  unfold write_frame.
  change (error_rows (FS.enoent ""))
    with [[("Error",
            CStr "Failed to export results: [Errno 2] No such file or directory: ''")]].
  rewrite Hrender, Hwrite. split; [reflexivity|].
  apply write_file_inserts in Hwrite as [Hp ->].
  unfold FS.read. now rewrite (lookup_insert_same _ _ _ Hp).
Qed.

End ExportFacts.

(** * Properties of the cleanup *)

Section CleanupFacts.
Import FS FSW OS App.

Local Open Scope list_scope.

Lemma lookup_key (fs : gmap string Node) (p : string) :
  p <> "" -> lookup fs p = fs !! norm p.
Proof. destruct p; [congruence|reflexivity]. Qed.

Lemma lookup_some_key (fs : gmap string Node) (p : string) (n : Node) :
  lookup fs p = Some n -> p <> "" /\ fs !! norm p = Some n.
Proof. destruct p; [discriminate|]. intros H. split; [discriminate|exact H]. Qed.

Lemma parent_nonempty (p : string) : parent p <> "".
Proof. unfold parent. destruct (dirname p); discriminate. Qed.

Lemma check_parent_ok (fs : gmap string Node) (p : string) :
  check_parent fs p = Returns tt
  <-> exists sz, fs !! norm (parent p) = Some (Dir true sz).
Proof.
  unfold check_parent. rewrite (lookup_key _ _ (parent_nonempty p)).
  destruct (fs !! norm (parent p)) as [[[|] sz|c]|]; split;
    try discriminate; try (intros [sz' H]; discriminate).
  - intros _. now exists sz.
  - reflexivity.
Qed.

Lemma remove_deletes_file (fs fs' : gmap string Node) (p : string) :
  remove fs p = Returns fs' ->
  (exists c, fs !! norm p = Some (File c)) /\ fs' = delete (norm p) fs.
Proof.
  unfold remove. destruct (lookup fs p) as [[wr sz|c]|] eqn:E;
    try discriminate.
  destruct (check_parent fs p); [|discriminate].
  intros [= <-]. split; [|reflexivity].
  exists c. now apply lookup_some_key in E.
Qed.

Lemma shrinks_refl (fs : gmap string Node) : shrinks fs fs.
Proof. split; auto. Qed.

Lemma shrinks_trans (a b c : gmap string Node) :
  shrinks a b -> shrinks b c -> shrinks a c.
Proof. intros [A1 A2] [B1 B2]. split; eauto. Qed.

Lemma shrinks_delete_file (fs : gmap string Node) (k : string) (c : string) :
  fs !! k = Some (File c) -> shrinks fs (delete k fs).
Proof.
  intros Hk. split.
  - intros k' n H. apply lookup_delete_Some in H. tauto.
  - intros k' w sz H. rewrite lookup_delete_ne; [exact H|]. congruence.
Qed.

Lemma shrinks_lookup_none (fs cur : gmap string Node) (p : string) :
  shrinks fs cur -> lookup fs p = None -> lookup cur p = None.
Proof.
  intros [A _] H. destruct p as [|a p]; [reflexivity|].
  unfold lookup in *. destruct (cur !! norm (String a p)) eqn:E; [|reflexivity].
  apply A in E. congruence.
Qed.

Lemma removable_shrinks (fs cur : gmap string Node) (p : string) :
  shrinks fs cur -> removable fs p -> removable cur p.
Proof.
  intros Hs [Hnone|[[c Hc] Hpar]].
  - left. now apply (shrinks_lookup_none fs).
  - destruct (lookup cur p) as [n|] eqn:E; [|now left]. right.
    destruct Hs as [A B]. split.
    + apply lookup_some_key in E as [Hp E]. pose proof (A _ _ E) as E'.
      rewrite (lookup_key _ _ Hp) in Hc. exists c.
      rewrite (lookup_key _ _ Hp). congruence.
    + apply check_parent_ok in Hpar as [sz Hsz].
      apply check_parent_ok. exists sz. now apply B.
Qed.

Lemma remove_frames_shrinks (frames : list string) :
  forall (cur cur' : gmap string Node) (o : outcome unit),
    remove_frames cur frames = (cur', o) ->
    shrinks cur cur'
    /\ (forall k, (forall p, In p frames -> k <> norm p) ->
          cur' !! k = cur !! k).
Proof.
  induction frames as [|p rest IH]; intros cur cur' o; cbn [remove_frames].
  - intros [= <- _]. split; [apply shrinks_refl|reflexivity].
  - destruct (exists_ cur p).
    + destruct (remove cur p) as [fs1|e] eqn:Hr.
      * intros Hrest. apply remove_deletes_file in Hr as [[c Hc] ->].
        destruct (IH _ _ _ Hrest) as [Hs Hk]. split.
        -- eapply shrinks_trans; [|exact Hs].
           now apply (shrinks_delete_file _ _ c).
        -- intros k Hne. rewrite Hk by (intros q Hq; apply Hne; now right).
           apply lookup_delete_ne. intros E. apply (Hne p); [now left|].
           now symmetry.
      * intros [= <- _]. split; [apply shrinks_refl|reflexivity].
    + intros Hrest. destruct (IH _ _ _ Hrest) as [Hs Hk]. split; [exact Hs|].
      intros k Hne. apply Hk. intros q Hq. apply Hne. now right.
Qed.

Lemma remove_frames_all (frames : list string) :
  forall cur : gmap string Node,
    (forall p, In p frames -> removable cur p) ->
    exists cur',
      remove_frames cur frames = (cur', Returns tt)
      /\ forall p, In p frames -> lookup cur' p = None.
Proof.
  induction frames as [|p rest IH]; intros cur Hall; cbn [remove_frames].
  - exists cur. split; [reflexivity|]. intros p [].
  - destruct (exists_ cur p) eqn:He.
    + destruct (Hall p (or_introl eq_refl)) as [Hnone|[[c Hc] Hpar]].
      { unfold exists_ in He. rewrite Hnone in He. discriminate. }
      assert (Hr : remove cur p = Returns (delete (norm p) cur)).
      { unfold remove. now rewrite Hc, Hpar. }
      rewrite Hr.
      apply lookup_some_key in Hc as [Hp Hc].
      pose proof (shrinks_delete_file _ _ _ Hc) as Hs.
      destruct (IH (delete (norm p) cur)) as (cur' & Hrun & Hgone).
      { intros q Hq. apply (removable_shrinks cur); [exact Hs|].
        apply Hall. now right. }
      exists cur'. split; [exact Hrun|].
      intros q [<-|Hq]; [|now apply Hgone].
      apply (shrinks_lookup_none (delete (norm p) cur)).
      * exact (proj1 (remove_frames_shrinks _ _ _ _ Hrun)).
      * rewrite (lookup_key _ _ Hp). apply lookup_delete_eq.
    + destruct (IH cur) as (cur' & Hrun & Hgone).
      { intros q Hq. apply Hall. now right. }
      exists cur'. split; [exact Hrun|].
      intros q [<-|Hq]; [|now apply Hgone].
      apply (shrinks_lookup_none cur).
      * exact (proj1 (remove_frames_shrinks _ _ _ _ Hrun)).
      * unfold exists_ in He. now destruct (lookup cur p).
Qed.

Lemma rmdir_deletes (fs fs' : gmap string Node) (p : string) :
  rmdir fs p = Returns fs' ->
  has_entries fs p = false /\ fs' = delete (norm p) fs
  /\ exists w sz, fs !! norm p = Some (Dir w sz).
Proof.
  unfold rmdir. destruct (lookup fs p) as [[w sz|c]|] eqn:E; try discriminate.
  destruct (check_parent fs p); [|discriminate].
  destruct (has_entries fs p); [discriminate|].
  intros [= <-]. split; [reflexivity|]. split; [reflexivity|].
  exists w, sz. now apply lookup_some_key in E.
Qed.

(** The state of the files before the directory is removed. *)
Lemma cleanup_files_shrinks (upload_folder : string) (fs : gmap string Node)
    (session : Session) (session_id : string) :
  s_session_id session = Some session_id ->
  let fs' := cleanup_files upload_folder fs session session_id in
  (forall k n, fs' !! k = Some n -> fs !! k = Some n)
  /\ (forall k, (forall t, In t (targets upload_folder session) ->
                   k <> norm t) ->
        fs' !! k = fs !! k).
Proof.
  intros Hsid. cbv zeta. unfold cleanup_files, targets. rewrite Hsid.
  set (fd := frames_dir_of upload_folder session_id).
  assert (Hstep : forall fs1 : gmap string Node,
             shrinks fs fs1 ->
             (forall k, (forall t, In t (match s_file_path session with
                                         | Some file_path => [file_path]
                                         | None => []
                                         end ++ frames_of session ++ [fd]) ->
                           k <> norm t) ->
                fs1 !! k = fs !! k) ->
             let out :=
               if exists_ fs1 fd
               then match remove_frames fs1 (frames_of session) with
                    | (fs2, Raises _) => fs2
                    | (fs2, Returns _) =>
                        match rmdir fs2 fd with
                        | Raises _ => fs2
                        | Returns fs3 => fs3
                        end
                    end
               else fs1 in
             (forall k n, out !! k = Some n -> fs !! k = Some n)
             /\ (forall k, (forall t, In t (match s_file_path session with
                                            | Some file_path => [file_path]
                                            | None => []
                                            end ++ frames_of session ++ [fd]) ->
                              k <> norm t) ->
                   out !! k = fs !! k)).
  { intros fs1 Hs1 Hk1. cbv zeta.
    destruct (exists_ fs1 fd); [|split; [exact (proj1 Hs1)|exact Hk1]].
    destruct (remove_frames fs1 (frames_of session)) as [fs2 o] eqn:Hrun.
    destruct (remove_frames_shrinks _ _ _ _ Hrun) as [Hs2 Hk2].
    assert (Hs : shrinks fs fs2) by (eapply shrinks_trans; eassumption).
    assert (Hk : forall k,
               (forall t, In t (match s_file_path session with
                                | Some file_path => [file_path]
                                | None => []
                                end ++ frames_of session ++ [fd]) ->
                  k <> norm t) ->
               fs2 !! k = fs !! k).
    { intros k Hne. rewrite Hk2; [now apply Hk1|].
      intros p Hp. apply Hne. apply in_or_app. right.
      apply in_or_app. now left. }
    destruct o as [[]|e]; [|split; [exact (proj1 Hs)|exact Hk]].
    destruct (rmdir fs2 fd) as [fs3|e] eqn:Hrm;
      [|split; [exact (proj1 Hs)|exact Hk]].
    apply rmdir_deletes in Hrm as (_ & -> & _). split.
    - intros k n H. apply lookup_delete_Some in H as [_ H].
      now apply (proj1 Hs).
    - intros k Hne. rewrite lookup_delete_ne; [now apply Hk|].
      intros E. apply (Hne fd); [|now symmetry].
      apply in_or_app. right. apply in_or_app. right. now left. }
  destruct (s_file_path session) as [file_path|];
    [|apply Hstep; [apply shrinks_refl|reflexivity]].
  destruct (exists_ fs file_path);
    [|apply Hstep; [apply shrinks_refl|reflexivity]].
  destruct (remove fs file_path) as [fs1|e] eqn:Hr.
  - apply remove_deletes_file in Hr as [[c Hc] ->].
    apply Hstep; [now apply (shrinks_delete_file _ _ c)|].
    intros k Hne. apply lookup_delete_ne. intros E.
    apply (Hne file_path); [now left|now symmetry].
  - split; auto.
Qed.

(** The hypothesis that the frames directory holds nothing but the
    given paths, in a form that can be decided on a given file
    system. *)
Lemma closed_by_decision (fs : gmap string Node) (fd : string)
    (listed : list string) :
  map_Forall (fun k _ =>
                k <> norm fd -> norm (parent k) = norm fd ->
                Exists (fun p => p <> "" /\ k = norm p) listed) fs ->
  forall k n, fs !! k = Some n -> k <> norm fd ->
              norm (parent k) = norm fd ->
              exists p, p <> "" /\ k = norm p /\ In p listed.
Proof.
  intros Hall k n Hk Hne Hpar.
  pose proof (Hall k n Hk Hne Hpar) as Hex.
  apply List.Exists_exists in Hex as (p & Hin & Hp & E).
  exists p. auto.
Qed.

(** X22. [cleanup] only deletes, and only what belongs to the
    session: every entry that exists afterwards existed before with
    the same content, and every path other than the uploaded file,
    the listed frames and the frames directory of the session is as
    it was; without a session identifier nothing is touched. *)
Theorem cleanup_only_deletes
    (upload_folder : string) (fs : gmap string Node) (session : Session) :
  let fs' := fst (fst (cleanup upload_folder fs session)) in
  (forall q node, lookup fs' q = Some node -> lookup fs q = Some node)
  /\ (forall q,
        (forall t, In t (targets upload_folder session) -> norm q <> norm t) ->
        lookup fs' q = lookup fs q)
  /\ (s_session_id session = None -> fs' = fs).
Proof.
  cbv zeta. unfold cleanup. cbn [fst].
  destruct (s_session_id session) as [sid|] eqn:Hsid.
  - destruct (cleanup_files_shrinks upload_folder fs session sid Hsid)
      as [Hsub Hkeep].
    split; [|split; [|discriminate]].
    + intros q node H. apply lookup_some_key in H as [Hq H].
      rewrite (lookup_key _ _ Hq). now apply Hsub.
    + intros q Hne. destruct q as [|a q]; [reflexivity|].
      unfold lookup. now apply Hkeep.
  - split; [auto|]. split; [reflexivity|reflexivity].
Qed.

(** X23. When the uploaded file and the listed frames can be removed
    (each is a regular file in a writable directory, or is already
    gone), the frames directory is a directory in a writable
    directory, and everything that lies in it is the uploaded file or
    a listed frame, then after [cleanup] none of them exists: the
    upload, the frames and the directory are gone. *)
Theorem cleanup_removes_session_files
    (upload_folder : string) (fs : gmap string Node) (session : Session)
    (session_id : string)
    (Hsid : s_session_id session = Some session_id)
    (Hfile : forall file_path, s_file_path session = Some file_path ->
                               removable fs file_path)
    (Hframes : forall p, In p (frames_of session) -> removable fs p)
    (Hdir : exists w sz,
        lookup fs (frames_dir_of upload_folder session_id) = Some (Dir w sz))
    (Hparent : check_parent fs (frames_dir_of upload_folder session_id)
               = Returns tt)
    (Hclosed : forall k n,
        fs !! k = Some n ->
        k <> norm (frames_dir_of upload_folder session_id) ->
        norm (parent k) = norm (frames_dir_of upload_folder session_id) ->
        exists p, p <> "" /\ k = norm p
                  /\ (In p (frames_of session)
                      \/ s_file_path session = Some p)) :
  let fs' := fst (fst (cleanup upload_folder fs session)) in
  exists_ fs' (frames_dir_of upload_folder session_id) = false
  /\ (forall p, In p (frames_of session) -> exists_ fs' p = false)
  /\ (forall file_path, s_file_path session = Some file_path ->
                        exists_ fs' file_path = false).
Proof.
  cbv zeta. unfold cleanup. rewrite Hsid. cbn [fst].
  unfold cleanup_files.
  set (fd := frames_dir_of upload_folder session_id) in *.
  destruct Hdir as (w & sz & Hdir).
  apply lookup_some_key in Hdir as [Hfd Hdir].
  (* the uploaded file *)
  assert (Hstep1 : exists fs1,
             match s_file_path session with
             | Some file_path =>
                 if exists_ fs file_path then remove fs file_path
                 else Returns fs
             | None => Returns fs
             end = Returns fs1
             /\ shrinks fs fs1
             /\ forall file_path, s_file_path session = Some file_path ->
                                  lookup fs1 file_path = None).
  { destruct (s_file_path session) as [file_path|] eqn:Hfp.
    - destruct (exists_ fs file_path) eqn:He.
      + destruct (Hfile file_path eq_refl) as [Hnone|[[c Hc] Hpar]].
        { unfold exists_ in He. rewrite Hnone in He. discriminate. }
        exists (delete (norm file_path) fs). split.
        { unfold remove. now rewrite Hc, Hpar. }
        apply lookup_some_key in Hc as [Hp Hc].
        split; [now apply (shrinks_delete_file _ _ c)|].
        intros p [= <-]. rewrite (lookup_key _ _ Hp). apply lookup_delete_eq.
      + exists fs. split; [reflexivity|]. split; [apply shrinks_refl|].
        intros p [= <-]. unfold exists_ in He.
        now destruct (lookup fs file_path).
    - exists fs. split; [reflexivity|]. split; [apply shrinks_refl|].
      discriminate. }
  destruct Hstep1 as (fs1 & -> & Hs1 & Hgone1).
  assert (He : exists_ fs1 fd = true).
  { unfold exists_. rewrite (lookup_key _ _ Hfd).
    now rewrite (proj2 Hs1 _ _ _ Hdir). }
  rewrite He.
  (* the frames *)
  destruct (remove_frames_all (frames_of session) fs1) as (fs2 & Hrun & Hgone2).
  { intros p Hp. apply (removable_shrinks fs); [exact Hs1|now apply Hframes]. }
  rewrite Hrun.
  pose proof (proj1 (remove_frames_shrinks _ _ _ _ Hrun)) as Hs12.
  assert (Hs2 : shrinks fs fs2) by (eapply shrinks_trans; eassumption).
  (* the directory *)
  assert (Hempty : has_entries fs2 fd = false).
  { unfold has_entries. apply bool_decide_eq_false_2.
    intros Hex. apply map_Exists_lookup in Hex as (k & n & Hk & Hne & Hpar).
    destruct (Hclosed k n (proj1 Hs2 _ _ Hk) Hne Hpar)
      as (p & Hp & -> & [Hin|Hup]).
    - pose proof (Hgone2 p Hin) as Hnone.
      rewrite (lookup_key _ _ Hp) in Hnone. congruence.
    - pose proof (shrinks_lookup_none _ _ p Hs12 (Hgone1 p Hup)) as Hnone.
      rewrite (lookup_key _ _ Hp) in Hnone. congruence. }
  assert (Hrm : rmdir fs2 fd = Returns (delete (norm fd) fs2)).
  { unfold rmdir. rewrite (lookup_key _ _ Hfd), (proj2 Hs2 _ _ _ Hdir).
    apply check_parent_ok in Hparent as [sz' Hsz'].
    rewrite (proj2 (check_parent_ok fs2 fd)) by (exists sz'; now apply Hs2).
    now rewrite Hempty. }
  rewrite Hrm.
  assert (Hdel : forall p, lookup fs2 p = None ->
                           exists_ (delete (norm fd) fs2) p = false).
  { intros p Hnone. unfold exists_.
    destruct p as [|a p]; [reflexivity|]. unfold lookup in *.
    destruct (decide (norm (String a p) = norm fd)) as [->|Hne].
    - now rewrite lookup_delete_eq.
    - now rewrite lookup_delete_ne, Hnone by congruence. }
  split; [|split].
  - unfold exists_. rewrite (lookup_key _ _ Hfd). now rewrite lookup_delete_eq.
  - intros p Hp. apply Hdel. now apply Hgone2.
  - intros p Hp. apply Hdel.
    apply (shrinks_lookup_none fs1); [exact Hs12|now apply Hgone1].
Qed.

(** X24. A file that lies in the frames directory and is neither the
    uploaded file nor a listed frame is kept, and with it the frames
    directory: [cleanup] leaves both in place, clears the session and
    answers success True all the same. *)
Theorem leftover_keeps_frames_dir
    (upload_folder : string) (fs : gmap string Node) (session : Session)
    (session_id : string) (k : string) (n : Node)
    (Hsid : s_session_id session = Some session_id)
    (Hdir : is_dir fs (frames_dir_of upload_folder session_id) = true)
    (Hleft : fs !! k = Some n)
    (Hinside : norm (parent k)
               = norm (frames_dir_of upload_folder session_id))
    (Hother : forall t, In t (targets upload_folder session) -> k <> norm t) :
  let out := cleanup upload_folder fs session in
  fst (fst out) !! k = Some n
  /\ is_dir (fst (fst out)) (frames_dir_of upload_folder session_id) = true
  /\ success (snd (fst out)) = Some true
  /\ snd out = empty_session.
Proof.
  cbv zeta.
  set (fd := frames_dir_of upload_folder session_id) in *.
  assert (Hfdt : k <> norm fd).
  { apply Hother. unfold targets. rewrite Hsid.
    apply in_or_app. right. apply in_or_app. right. now left. }
  unfold is_dir in Hdir.
  destruct (lookup fs fd) as [[w sz|c]|] eqn:Hfd; try discriminate.
  apply lookup_some_key in Hfd as [Hne Hfd].
  unfold cleanup. rewrite Hsid. cbn [fst snd success].
  split; [|split; [|split; reflexivity]].
  - rewrite (proj2 (cleanup_files_shrinks upload_folder fs session session_id
                      Hsid) k Hother). exact Hleft.
  - (* the directory is still there: it is not a regular file, and it
       is not empty when its removal is attempted *)
    unfold cleanup_files. fold fd.
    assert (Hstep : forall fs1 : gmap string Node,
               shrinks fs fs1 -> fs1 !! k = Some n ->
               is_dir (if exists_ fs1 fd
                       then match remove_frames fs1 (frames_of session) with
                            | (fs2, Raises _) => fs2
                            | (fs2, Returns _) =>
                                match rmdir fs2 fd with
                                | Raises _ => fs2
                                | Returns fs3 => fs3
                                end
                            end
                       else fs1) fd = true).
    { intros fs1 Hs1 Hk1.
      assert (Hkeep : forall cur, shrinks fs cur -> is_dir cur fd = true).
      { intros cur Hs. unfold is_dir.
        now rewrite (lookup_key _ _ Hne), (proj2 Hs _ _ _ Hfd). }
      destruct (exists_ fs1 fd); [|now apply Hkeep].
      destruct (remove_frames fs1 (frames_of session)) as [fs2 o] eqn:Hrun.
      destruct (remove_frames_shrinks _ _ _ _ Hrun) as [Hs12 Hk12].
      assert (Hs2 : shrinks fs fs2) by (eapply shrinks_trans; eassumption).
      destruct o as [[]|e]; [|now apply Hkeep].
      destruct (rmdir fs2 fd) as [fs3|e] eqn:Hrm; [|now apply Hkeep].
      exfalso. apply rmdir_deletes in Hrm as (Hempty & _ & _).
      unfold has_entries in Hempty. apply bool_decide_eq_false_1 in Hempty.
      apply Hempty. apply map_Exists_lookup. exists k, n.
      split; [|split; [exact Hfdt|exact Hinside]].
      rewrite Hk12; [exact Hk1|].
      intros p Hp. apply Hother. unfold targets. rewrite Hsid.
      apply in_or_app. right. apply in_or_app. now left. }
    destruct (s_file_path session) as [file_path|] eqn:Hfp;
      [|apply Hstep; [apply shrinks_refl|exact Hleft]].
    destruct (exists_ fs file_path);
      [|apply Hstep; [apply shrinks_refl|exact Hleft]].
    destruct (remove fs file_path) as [fs1|e] eqn:Hr.
    + apply remove_deletes_file in Hr as [[c Hc] ->].
      apply Hstep; [now apply (shrinks_delete_file _ _ c)|].
      rewrite lookup_delete_ne; [exact Hleft|].
      intros E. apply (Hother file_path); [|now symmetry].
      unfold targets. rewrite Hsid, Hfp. now left.
    + unfold is_dir. now rewrite (lookup_key _ _ Hne), Hfd.
Qed.

End CleanupFacts.

(** * Extraction followed by recognition *)

Section UploadThenProcess.
Context {Image : Type} `{!Codec Image} `{!Tesseract Image} `{!Uuid}.

Local Open Scope list_scope.

Lemma saved_frame_reaches_decoder (fs : gmap string FS.Node) (p : string) :
  check_tesseract = true ->
  nonempty_file fs p ->
  perform_ocr_on_frame fs p
  = match image_open fs p with
    | Raises img_err => ("Error: Invalid image file: " ++ exc_str img_err)%string
    | Returns c => choose_best (attempt_results (current c))
    end.
Proof.
  intros Hprobe (bytes & Hne & Hfile).
  unfold perform_ocr_on_frame, perform_ocr_on_frame_traced.
  unfold FS.exists_, FS.getsize. rewrite Hprobe, Hfile. cbn [negb].
  destruct bytes as [|a bytes]; [congruence|]. cbn [String.length Nat.eqb].
  now destruct (image_open fs p).
Qed.

(** X25. The frames a successful extraction returns are never
    reported as missing or empty by the recognition that follows on
    the file system the extraction left: with the engine available,
    the record of every frame, at its position and with its number,
    carries the result of the recognition attempts, or "Error: Invalid
    image file: ..." when the saved file does not open as an image. *)
Theorem extracted_frames_reach_the_decoder
    (w w' : World) (image_path output_dir : string) (paths : list string)
    (Hrun : extract_frames_from_image w image_path output_dir
            = (w', Returns paths))
    (Hprobe : check_tesseract = true) :
  forall i p,
    nth_error paths i = Some p ->
    nth_error (perform_ocr_on_frames (w_fs w') paths) i
    = Some (MkRec (i + 1) p
              match image_open (w_fs w') p with
              | Raises img_err =>
                  ("Error: Invalid image file: " ++ exc_str img_err)%string
              | Returns c => choose_best (attempt_results (current c))
              end).
Proof.
  intros i p Hi.
  destruct (extract_final_invariant _ _ _ _ _ Hrun)
    as (fs2 & img & _ & _ & st & -> & -> & Hinv).
  destruct Hinv as (js & _ & _ & _ & Hfiles & _).
  rewrite List.Forall_forall in Hfiles.
  pose proof (Hfiles p (nth_error_In _ _ Hi)) as Hp.
  unfold perform_ocr_on_frames.
  rewrite batch_decomposition, nth_error_app1.
  - rewrite (real_record_nth _ _ _ _ Hi). unfold real_record. simpl.
    now rewrite (saved_frame_reaches_decoder _ _ Hprobe Hp).
  - rewrite length_map, enumerate_length. apply nth_error_Some.
    now rewrite Hi.
Qed.

End UploadThenProcess.

(** * Instances of the further properties *)

Section ExtraInstances.
Import Sym Demo.

Local Open Scope list_scope.

(** The sparse-text attempt raises and the attempt on the enhanced
    image finds only blanks: the answer of the first attempt is
    returned, trimmed. *)
Lemma failing_attempts_are_left_out_witness :
  let T := engine read_flaky in
  let c := MkContainer "PNG" None (Raster "RGB" "IMG0") [] 0 in
  @check_tesseract Img T = true
  /\ FS.exists_ fs0 "/tmp/in.png" = true
  /\ FS.getsize fs0 "/tmp/in.png" = Returns 4
  /\ @image_open Img still fs0 "/tmp/in.png" = Returns c
  /\ map (@run_call Img T) (@attempt_calls Img still (current c))
     = [Returns " hello "; Returns "  ";
        Raises (MkExc RuntimeError "tesseract failed")]
  /\ @perform_ocr_on_frame Img still T fs0 "/tmp/in.png" = "hello"
  /\ exists i, i < 3
       /\ @perform_ocr_on_frame Img still T fs0 "/tmp/in.png"
          = nth i ["hello"; ""; ""] "".
Proof.
  cbv zeta. do 6 (split; [reflexivity|]).
  destruct (@failing_attempts_are_left_out Img still (engine read_flaky)
              fs0 "/tmp/in.png"
              (MkContainer "PNG" None (Raster "RGB" "IMG0") [] 0)
              (Returns " hello ") (Returns "  ")
              (Raises (MkExc RuntimeError "tesseract failed"))
              eq_refl eq_refl (ex_intro _ 3 eq_refl) eq_refl eq_refl)
    as [_ Hsome].
  destruct Hsome as (i & Hi & Hres & _).
  { apply Exists_cons_hd. discriminate. }
  exists i. split; [exact Hi|exact Hres].
Defined.

Lemma undecodable_frame_is_error_text_witness :
  @check_tesseract Img (engine read_tie) = true
  /\ FS.exists_ fs0 "/tmp/bad.png" = true
  /\ FS.getsize fs0 "/tmp/bad.png" = Returns 7
  /\ @image_open Img still fs0 "/tmp/bad.png"
     = Raises (MkExc OSError "cannot identify image file")
  /\ @perform_ocr_on_frame_traced Img still (engine read_tie) fs0 "/tmp/bad.png"
     = ([], "Error: Invalid image file: cannot identify image file")
  /\ nth_error (@perform_ocr_on_frames Img still (engine read_tie) fs0
                  ["/tmp/in.png"; "/tmp/bad.png"]) 1
     = Some (MkRec 2 "/tmp/bad.png"
               "Error: Invalid image file: cannot identify image file").
Proof.
  do 4 (split; [reflexivity|]).
  destruct (@undecodable_frame_is_error_text Img still (engine read_tie)
              fs0 "/tmp/bad.png" (MkExc OSError "cannot identify image file")
              eq_refl eq_refl (ex_intro _ 6 eq_refl) eq_refl)
    as (Htrace & _ & Hbatch).
  split; [exact Htrace|].
  exact (Hbatch ["/tmp/in.png"; "/tmp/bad.png"] 1 eq_refl).
Defined.

(** A palette image goes through the RGB conversion and the four
    steps; when the sharpness step fails, the RGB conversion is what
    comes back, not the palette image. *)
Lemma enhance_image_for_ocr_cases_witness :
  let img := Raster "P" "IMG0" in
  @enhance_image_for_ocr Img still img
  = Blurred (1 # 2)
      (Enhanced Sharpness 2
         (Enhanced Contrast 2 (Converted "L" (Converted "RGB" img))))
  /\ @enhance_image_for_ocr Img blunt img = Converted "RGB" img.
Proof.
  cbv zeta. split.
  - destruct (@enhance_image_for_ocr_cases Img still (Raster "P" "IMG0"))
      as [_ Hp].
    destruct (Hp eq_refl) as [_ Hrgb].
    destruct (Hrgb (Converted "RGB" (Raster "P" "IMG0")) eq_refl) as [Hpipe _].
    apply Hpipe.
    exists (Converted "L" (Converted "RGB" (Raster "P" "IMG0"))),
           (Enhanced Contrast 2
              (Converted "L" (Converted "RGB" (Raster "P" "IMG0")))),
           (Enhanced Sharpness 2
              (Enhanced Contrast 2
                 (Converted "L" (Converted "RGB" (Raster "P" "IMG0"))))).
    repeat split.
  - destruct (@enhance_image_for_ocr_cases Img blunt (Raster "P" "IMG0"))
      as [_ Hp].
    destruct (Hp eq_refl) as [_ Hrgb].
    destruct (Hrgb (Converted "RGB" (Raster "P" "IMG0")) eq_refl) as [_ Hfail].
    apply Hfail.
    intros b (g & c & s & Hg & Hc & Hs & _).
    injection Hg as <-. injection Hc as <-. discriminate Hs.
Defined.

Lemma combined_record_iff_four_alnum_witness :
  length (perform_ocr_on_frames_with (table [("a", "hello"); ("b", "abc")])
            ["a"; "b"]) = 3
  /\ length (perform_ocr_on_frames_with (table [("a", "a-b"); ("b", "abc")])
               ["a"; "b"]) = 2.
Proof.
  split.
  - apply (proj1 (proj1 (combined_record_iff_four_alnum
                           (table [("a", "hello"); ("b", "abc")])
                           ["a"; "b"]))).
    exists (MkRec 1 "a" "hello"). split; [left; reflexivity|].
    split; [reflexivity|]. exists "", "hell", "o". repeat split.
  - apply (proj1 (proj2 (combined_record_iff_four_alnum
                           (table [("a", "a-b"); ("b", "abc")])
                           ["a"; "b"]))).
    intros (r & Hin & _ & (a & w & b & E & Hlen & _)).
    assert (Hshort : String.length (text r) < 4).
    { destruct Hin as [<-|[<-|[]]]; simpl; lia. }
    rewrite E, !string_length_app in Hshort. lia.
Defined.

Lemma engine_unavailable_marks_every_frame_witness :
  @check_tesseract Img no_engine = false
  /\ @perform_ocr_on_frames Img still no_engine fs0
       ["/tmp/in.png"; "/tmp/gone.jpg"]
     = [MkRec 1 "/tmp/in.png" "Error: Tesseract OCR is not available";
        MkRec 2 "/tmp/gone.jpg" "Error: Tesseract OCR is not available"].
Proof.
  split; [reflexivity|].
  rewrite (@engine_unavailable_marks_every_frame Img still no_engine fs0
             ["/tmp/in.png"; "/tmp/gone.jpg"] eq_refl).
  reflexivity.
Defined.


Lemma probe_leaves_no_trace_witness :
  snd (probe_writable fs0 "/tmp") = Returns tt
  /\ FS.lookup fs0 "/tmp/.write_test" = None
  /\ fst (probe_writable fs0 "/tmp") = fs0.
Proof.
  do 2 (split; [reflexivity|]).
  destruct (probe_leaves_no_trace fs0 (fst (probe_writable fs0 "/tmp"))
              "/tmp" (Returns tt) eq_refl) as (_ & _ & Hsame).
  exact (Hsame eq_refl eq_refl).
Defined.

(** The animation of three frames whose second frame does not encode:
    two frames are returned. *)
Lemma extracted_frames_are_saved_files_witness :
  let run := @extract_frames_from_image Img animated uuid w1
               "/tmp/a.gif" "/tmp/out" in
  let paths := ["/tmp/out/frame_0_u0.jpg"; "/tmp/out/frame_2_u2.jpg"] in
  snd run = Returns paths
  /\ Forall (nonempty_file (w_fs (fst run))) paths
  /\ List.NoDup paths.
Proof.
  cbv zeta.
  assert (Hrun : @extract_frames_from_image Img animated uuid w1
                   "/tmp/a.gif" "/tmp/out"
                 = (fst (@extract_frames_from_image Img animated uuid w1
                           "/tmp/a.gif" "/tmp/out"),
                    Returns ["/tmp/out/frame_0_u0.jpg";
                             "/tmp/out/frame_2_u2.jpg"])).
  { vm_compute. reflexivity. }
  split; [vm_compute; reflexivity|].
  destruct (@extracted_frames_are_saved_files Img animated uuid w1 _
              "/tmp/a.gif" "/tmp/out" _ Hrun) as (Hfiles & _ & Hdistinct).
  split; [exact Hfiles|exact Hdistinct].
Defined.



Lemma allowed_file_checks_last_extension_witness :
  App.allowed_file "archive.tar.GIF" = Returns true
  /\ App.allowed_file "gif" = Returns false
  /\ App.allowed_file "scan.gif.txt" = Returns false.
Proof.
  destruct allowed_file_checks_last_extension as (_ & Hnodot & Hlast).
  split; [exact (Hlast "archive.tar" "GIF" eq_refl)|].
  split; [exact (Hnodot "gif" eq_refl)|].
  exact (Hlast "scan.gif" "txt" eq_refl).
Defined.

Lemma allowed_file_ignores_case_witness :
  PyStr.lower "Scan.JPeG" = PyStr.lower "scan.jpeg"
  /\ App.allowed_file "Scan.JPeG" = App.allowed_file "scan.jpeg".
Proof.
  split; [reflexivity|].
  exact (allowed_file_ignores_case "Scan.JPeG" "scan.jpeg" eq_refl).
Defined.

Lemma pipeline_probe_implies_installed_witness :
  @check_tesseract Img (engine read_word) = true
  /\ Diagnostics.installed
       (@Diagnostics.check_tesseract_installation Img (engine read_word))
     = true.
Proof.
  split; [reflexivity|].
  exact (proj1 (proj1 (@pipeline_probe_implies_installed Img
                         (engine read_word)) eq_refl)).
Defined.

Lemma no_error_iff_languages_found_witness :
  Diagnostics.error
    (@Diagnostics.check_tesseract_installation Img tesseract_eng) = None
  /\ Diagnostics.installed
       (@Diagnostics.check_tesseract_installation Img tesseract_eng) = true
  /\ Diagnostics.error
       (@Diagnostics.check_tesseract_installation Img (engine read_word))
     <> None.
Proof.
  split; [reflexivity|]. split.
  - exact (proj1 (proj2 (@no_error_iff_languages_found Img tesseract_eng)
                    eq_refl)).
  - intros Hnone.
    destruct (proj1 (proj1 (@no_error_iff_languages_found Img
                              (engine read_word))) Hnone)
      as (langs & Hl & Hne).
    apply Hne. vm_compute in Hl. congruence.
Defined.

Lemma permission_flags_are_consistent_witness :
  let out := Diagnostics.check_file_permissions listdir_ok fs0 "/tmp" in
  Diagnostics.p_writable (snd out) = true
  /\ FS.lookup (fst out) "/tmp/.permission_test" = None
  /\ FS.lookup (fst out) "/tmp/in.png" = FS.lookup fs0 "/tmp/in.png".
Proof.
  cbv zeta. split; [reflexivity|].
  destruct (permission_flags_are_consistent listdir_ok fs0 "/tmp")
    as (_ & _ & _ & _ & _ & Hframe & Hgone & _).
  split; [exact (Hgone eq_refl)|].
  apply Hframe. vm_compute. discriminate.
Defined.

(** A session of 32 frames: 30 are recognised, the synthetic record
    follows, then the two skipped frames. *)
Lemma process_frames_caps_at_30_witness :
  let out := @App.process_frames Img still (engine read_word)
               (App.MkConfig true false) fs0 session32 in
  App.s_session_id session32 = Some "s1"
  /\ App.s_frames_paths session32 = Some frames32
  /\ frames32 <> []
  /\ @check_tesseract Img (engine read_word) = true
  /\ App.status (fst (fst out)) = 200
  /\ App.success (fst (fst out)) = Some true
  /\ App.s_ocr_results (snd (fst out)) = App.results (fst (fst out))
  /\ option_map (@length Rec) (App.results (fst (fst out))) = Some 33.
Proof.
  cbv zeta. do 2 (split; [reflexivity|]).
  assert (Hne : frames32 <> []) by discriminate.
  split; [exact Hne|]. split; [reflexivity|].
  destruct (@process_frames_caps_at_30 Img still (engine read_word) fs0
              (App.MkConfig true false) session32 "s1" frames32
              eq_refl eq_refl Hne eq_refl)
    as (Hstatus & Hsuccess & Hresults & Hsession & _).
  split; [exact Hstatus|]. split; [exact Hsuccess|].
  split; [now rewrite Hsession, Hresults|].
  rewrite Hresults. vm_compute. reflexivity.
Defined.

(** The engine finds no text in any of the 30 frames it is given,
    and the answer reports text in two frames: the skipped ones. *)
Lemma skipped_frames_count_as_text_witness :
  let out := @App.process_frames Img still (engine read_nothing)
               (App.MkConfig false false) fs0 session32 in
  30 < length frames32
  /\ @check_tesseract Img (engine read_nothing) = true
  /\ Forall (fun r => text r = "No text detected")
       (@perform_ocr_on_frames Img still (engine read_nothing) fs0
          (firstn 30 frames32))
  /\ App.message (fst (fst out))
     = Some "OCR processing complete. Found text in 2 frames."
  /\ exists k : Z,
       App.message (fst (fst out))
       = Some ("OCR processing complete. Found text in "
                 ++ PyStr.str_int k ++ " frames.")%string
       /\ (Z.of_nat (length frames32 - 30) <= k)%Z.
Proof.
  cbv zeta.
  assert (Hmany : 30 < length frames32) by (vm_compute; lia).
  split; [exact Hmany|]. split; [reflexivity|].
  split; [vm_compute; repeat constructor|].
  split; [vm_compute; reflexivity|].
  exact (@skipped_frames_count_as_text Img still (engine read_nothing) fs0
           (App.MkConfig false false) session32 "s1" frames32
           eq_refl eq_refl Hmany eq_refl).
Defined.

Lemma frame_number_31_twice_witness :
  30 < length frames32
  /\ length (@perform_ocr_on_frames Img still (engine read_word) fs0
               (firstn 30 frames32)) = 31
  /\ exists l t,
       App.results
         (fst (fst (@App.process_frames Img still (engine read_word)
                      (App.MkConfig false false) fs0 session32))) = Some l
       /\ map frame_number (firstn 2 (skipn 30 l)) = [31; 31]
       /\ nth_error l 30 = Some (MkRec 31 "combined_analysis" t).
Proof.
  assert (Hmany : 30 < length frames32) by (vm_compute; lia).
  assert (Hsyn : length (@perform_ocr_on_frames Img still (engine read_word)
                           fs0 (firstn 30 frames32)) = 31).
  { vm_compute. reflexivity. }
  split; [exact Hmany|]. split; [exact Hsyn|].
  destruct (@frame_number_31_twice Img still (engine read_word) fs0
              (App.MkConfig false false) session32 "s1" frames32
              eq_refl eq_refl Hmany eq_refl Hsyn)
    as (l & t & Hres & H30 & H31).
  exists l, t. split; [exact Hres|]. split; [|exact H30].
  assert (E : firstn 2 (skipn 30 l)
              = [MkRec 31 "combined_analysis" t;
                 MkRec 31 (nth 30 frames32 "")
                   "(Frame skipped to improve performance)"]).
  { clear Hres.
    do 30 (destruct l as [|? l]; [discriminate|]; simpl in H30, H31).
    destruct l as [|a l]; [discriminate|]. injection H30 as ->.
    destruct l as [|b l]; [discriminate|]. injection H31 as ->.
    reflexivity. }
  rewrite E. reflexivity.
Defined.

Lemma export_writes_one_row_per_record_witness :
  let recs := [MkRec 1 "/tmp/f/frame_0_u0.jpg" "hello";
               MkRec 2 "combined_analysis" "x"] in
  let bytes := ("frame_number,text" ++ nl ++ "1,hello" ++ nl
                  ++ "2,x" ++ nl)%string in
  let fs_a := fst (FSW.makedirs fs1 "/tmp/out") in
  let fs_b := <["/tmp/out/r.csv" := FS.File bytes]> fs_a in
  recs <> []
  /\ FSW.makedirs fs1 (FS.dirname "/tmp/out/r.csv") = (fs_a, Returns tt)
  /\ FSW.write_file fs_a "/tmp/out/r.csv" bytes = Returns fs_b
  /\ @ExportUtil.export_to_csv pandas fs1
       (map ExportUtil.item_of_rec recs) "/tmp/out/r.csv"
     = (fs_b, Returns true)
  /\ FS.read fs_b "/tmp/out/r.csv" = Returns bytes.
Proof.
  cbv zeta.
  assert (Hne : [MkRec 1 "/tmp/f/frame_0_u0.jpg" "hello";
                 MkRec 2 "combined_analysis" "x"] <> []) by discriminate.
  split; [exact Hne|]. do 2 (split; [reflexivity|]).
  exact (@export_writes_one_row_per_record pandas ExportUtil.Csv fs1 _ _
           [MkRec 1 "/tmp/f/frame_0_u0.jpg" "hello";
            MkRec 2 "combined_analysis" "x"]
           "/tmp/out/r.csv" _ Hne eq_refl eq_refl eq_refl).
Defined.

Lemma export_without_directory_writes_error_table_witness :
  let bytes := ("Error" ++ nl
                  ++ "Failed to export results: [Errno 2] No such file or directory: ''"
                  ++ nl)%string in
  let fs_b := <["r.csv" := FS.File bytes]> fs1 in
  FS.dirname "r.csv" = ""
  /\ FSW.write_file fs1 "r.csv" bytes = Returns fs_b
  /\ @ExportUtil.export_to_csv pandas fs1
       (map ExportUtil.item_of_rec [MkRec 1 "/tmp/f/frame_0_u0.jpg" "hello"])
       "r.csv"
     = (fs_b, Returns true)
  /\ FS.read fs_b "r.csv" = Returns bytes.
Proof.
  cbv zeta. do 2 (split; [reflexivity|]).
  exact (@export_without_directory_writes_error_table pandas ExportUtil.Csv
           fs1 _ _ "r.csv" _ eq_refl eq_refl eq_refl).
Defined.

(** The two frames saved from the animation are opened and read. *)
Lemma extracted_frames_reach_the_decoder_witness :
  let run := @extract_frames_from_image Img animated uuid w1
               "/tmp/a.gif" "/tmp/out" in
  let paths := ["/tmp/out/frame_0_u0.jpg"; "/tmp/out/frame_2_u2.jpg"] in
  snd run = Returns paths
  /\ @check_tesseract Img (engine read_word) = true
  /\ nth_error (@perform_ocr_on_frames Img animated (engine read_word)
                  (w_fs (fst run)) paths) 1
     = Some (MkRec 2 "/tmp/out/frame_2_u2.jpg" "hello").
Proof.
  cbv zeta.
  assert (Hrun : @extract_frames_from_image Img animated uuid w1
                   "/tmp/a.gif" "/tmp/out"
                 = (fst (@extract_frames_from_image Img animated uuid w1
                           "/tmp/a.gif" "/tmp/out"),
                    Returns ["/tmp/out/frame_0_u0.jpg";
                             "/tmp/out/frame_2_u2.jpg"])).
  { vm_compute. reflexivity. }
  split; [vm_compute; reflexivity|]. split; [reflexivity|].
  rewrite (@extracted_frames_reach_the_decoder Img animated (engine read_word)
             uuid w1 _ "/tmp/a.gif" "/tmp/out" _ Hrun eq_refl
             1 "/tmp/out/frame_2_u2.jpg" eq_refl).
  vm_compute. reflexivity.
Defined.

Lemma cleanup_only_deletes_witness :
  let fs' := fst (fst (App.cleanup "/tmp/up" fs_done session_done)) in
  FS.lookup fs' "/tmp/in.png" = Some (FS.File "IMG0")
  /\ FS.lookup fs' "/tmp/up" = Some (FS.Dir true FS.dir_size)
  /\ FS.lookup fs' "/tmp/up/s1_in.png" = None.
Proof.
  cbv zeta.
  destruct (cleanup_only_deletes "/tmp/up" fs_done session_done)
    as (_ & Hkeep & _).
  split; [|split; [|reflexivity]].
  - rewrite Hkeep; [reflexivity|].
    intros t [<-|[<-|[<-|[<-|[]]]]]; vm_compute; discriminate.
  - rewrite Hkeep; [reflexivity|].
    intros t [<-|[<-|[<-|[<-|[]]]]]; vm_compute; discriminate.
Defined.

Lemma cleanup_removes_session_files_witness :
  let fs' := fst (fst (App.cleanup "/tmp/up" fs_done session_done)) in
  FSW.is_dir fs_done (App.frames_dir_of "/tmp/up" "s1") = true
  /\ FS.exists_ fs_done "/tmp/up/image_frames_s1/frame_1_u1.jpg" = true
  /\ FS.exists_ fs' "/tmp/up/image_frames_s1" = false
  /\ FS.exists_ fs' "/tmp/up/image_frames_s1/frame_0_u0.jpg" = false
  /\ FS.exists_ fs' "/tmp/up/image_frames_s1/frame_1_u1.jpg" = false
  /\ FS.exists_ fs' "/tmp/up/s1_in.png" = false.
Proof.
  cbv zeta. do 2 (split; [reflexivity|]).
  destruct (cleanup_removes_session_files "/tmp/up" fs_done session_done "s1")
    as (Hdir & Hframes & Hfile).
  - reflexivity.
  - intros file_path [= <-]. right. split; [now exists "IMG0"|reflexivity].
  - intros p [<-|[<-|[]]]; right;
      (split; [eexists; reflexivity|reflexivity]).
  - exists true, FS.dir_size. reflexivity.
  - reflexivity.
  - intros k n Hk Hne Hpar.
    destruct (closed_by_decision fs_done (App.frames_dir_of "/tmp/up" "s1")
                ["/tmp/up/image_frames_s1/frame_0_u0.jpg";
                 "/tmp/up/image_frames_s1/frame_1_u1.jpg"])
      with (k := k) (n := n) as (p & Hp & E & Hin); try assumption.
    + apply (bool_decide_unpack _). vm_compute. exact I.
    + exists p. split; [exact Hp|]. split; [exact E|]. left. exact Hin.
  - split; [exact Hdir|]. split; [|split].
    + apply Hframes. now left.
    + apply Hframes. right. now left.
    + now apply Hfile.
Defined.

(** A file the session does not list stays in the frames directory,
    and the directory stays with it; the listed frames are removed. *)
Lemma leftover_keeps_frames_dir_witness :
  let out := App.cleanup "/tmp/up" fs_leftover session_done in
  let k := "/tmp/up/image_frames_s1/frame_2_u2.jpg" in
  FSW.is_dir fs_leftover (App.frames_dir_of "/tmp/up" "s1") = true
  /\ fs_leftover !! k = Some (FS.File "")
  /\ FS.norm (FS.parent k) = FS.norm (App.frames_dir_of "/tmp/up" "s1")
  /\ fst (fst out) !! k = Some (FS.File "")
  /\ FSW.is_dir (fst (fst out)) (App.frames_dir_of "/tmp/up" "s1") = true
  /\ FS.exists_ (fst (fst out)) "/tmp/up/image_frames_s1/frame_0_u0.jpg"
     = false
  /\ App.success (snd (fst out)) = Some true.
Proof.
  cbv zeta. do 3 (split; [reflexivity|]).
  destruct (leftover_keeps_frames_dir "/tmp/up" fs_leftover session_done "s1"
              "/tmp/up/image_frames_s1/frame_2_u2.jpg" (FS.File "")
              eq_refl eq_refl eq_refl eq_refl)
    as (Hleft & Hdir & Hsuccess & _).
  - intros t [<-|[<-|[<-|[<-|[]]]]]; vm_compute; discriminate.
  - split; [exact Hleft|]. split; [exact Hdir|].
    split; [reflexivity|exact Hsuccess].
Defined.

End ExtraInstances.
